(** * The Netty codec of @avro/services: wire framing, bridge and gateway

    A shallow embedding of [packages/services/lib/codecs/netty.js]:
    - [NettyEncoder] / [NettyDecoder], the framed codec over byte buffers;
    - [NettyPacket], the payload codec (header map followed by the body);
    - [NettyBridge], the client side: pending calls, handshake bookkeeping;
    - [NettyGateway], the server side: the per-connection request handler.

    The Avro type codecs ([utils.handshakeRequestType], [utils.mapOfBytesType],
    ...), [Service], [Trace] and [Router] live in sibling modules of the
    package; the embedding takes them as parameters of the sections below. *)

From Stdlib Require Import ZArith Lia Strings.Byte Ascii String List Bool.
From stdpp Require Import gmap strings list.
Import ListNotations.

Local Open Scope Z_scope.

(** ** JavaScript values the codec manipulates *)

(** A [Buffer] is a sequence of bytes. *)
Definition bytes : Type := list byte.

(** [buf.length]. *)
Definition blen (buf : bytes) : Z := Z.of_nat (length buf).

(** Errors raised or emitted by the module.  [ErrTrailing] is the
    [Error('trailing data')] of [_flush], with its [trailingData] property. *)
Inductive JsError : Type :=
| Err (message : string)
| ErrTrailing (message : string) (trailingData : bytes)
| ReferenceError (identifier : string)
| TypeError (message : string)
| RangeError (message : string).

(** The outcome of evaluating a piece of code: a value, or an exception. *)
Inductive Completion (A : Type) : Type :=
| Normal (a : A)
| Throw (e : JsError).
Arguments Normal {A} a.
Arguments Throw {A} e.

Definition cbind {A B} (c : Completion A) (k : A -> Completion B) : Completion B :=
  match c with
  | Normal a => k a
  | Throw e => Throw e
  end.

Notation "'let*' x ':=' c 'in' k" := (cbind c (fun x => k))
  (at level 10, x pattern, c at level 200, k at level 200).

(** [try { c } catch (err) { h }]. *)
Definition try_catch {A} (c : Completion A) (h : JsError -> Completion A) : Completion A :=
  match c with
  | Normal a => Normal a
  | Throw e => h e
  end.

(** Truthiness of a string ([''] is falsy) and of a possibly missing value. *)
Definition truthy_string (s : string) : bool :=
  match s with
  | EmptyString => false
  | String _ _ => true
  end.

Definition truthy_opt_string (s : option string) : bool :=
  match s with
  | Some s => truthy_string s
  | None => false
  end.

Definition is_some {A} (o : option A) : bool :=
  match o with
  | Some _ => true
  | None => false
  end.

Module Buffer.

(** Index normalisation of [Buffer.prototype.slice]: a negative index
    counts from the end, and the result is clamped to [0, length]. *)
Definition clamp (len i : Z) : Z :=
  if i <? 0 then Z.max (len + i) 0 else Z.min i len.

(** [buf.slice(start, end)]. *)
Definition slice (buf : bytes) (start end_ : Z) : bytes :=
  let b := clamp (blen buf) start in
  let e := clamp (blen buf) end_ in
  firstn (Z.to_nat (Z.max (e - b) 0)) (skipn (Z.to_nat b) buf).

(** [buf.slice(start)]. *)
Definition slice_from (buf : bytes) (start : Z) : bytes :=
  skipn (Z.to_nat (clamp (blen buf) start)) buf.

(** [Buffer.concat(bufs)]. *)
Definition concat (bufs : list bytes) : bytes := List.concat bufs.

Definition byteZ (b : byte) : Z := Z.of_N (Byte.to_N b).

Definition byte_of_Z (z : Z) : byte :=
  match Byte.of_N (Z.to_N (z mod 256)) with
  | Some b => b
  | None => x00
  end.

(** Two's complement reading of an unsigned 32-bit quantity. *)
Definition to_int32 (u : Z) : Z :=
  if u <? 2 ^ 31 then u else u - 2 ^ 32.

(** [buf.readInt32BE(offset)]; [None] is the [RangeError] of an offset
    that leaves fewer than four bytes. *)
Definition readInt32BE (buf : bytes) (offset : Z) : option Z :=
  if offset <? 0 then None else
  match skipn (Z.to_nat offset) buf with
  | b0 :: b1 :: b2 :: b3 :: _ =>
      Some (to_int32 (byteZ b0 * 2 ^ 24 + byteZ b1 * 2 ^ 16
                      + byteZ b2 * 2 ^ 8 + byteZ b3))
  | _ => None
  end.

(** The big-endian two's complement bytes of a 32-bit integer. *)
Definition int32_bytes (n : Z) : bytes :=
  [byte_of_Z (n / 2 ^ 24); byte_of_Z (n / 2 ^ 16);
   byte_of_Z (n / 2 ^ 8); byte_of_Z n].

(** The four bytes [writeInt32BE(n)] stores; [None] is the [RangeError]
    of a value outside the signed 32-bit range. *)
Definition writeInt32BE (n : Z) : option bytes :=
  if (- 2 ^ 31 <=? n) && (n <? 2 ^ 31) then Some (int32_bytes n) else None.

(** [Buffer.from(str, 'binary')] and [buf.toString('binary')] on strings
    whose characters are single bytes. *)
Definition from_binary (s : string) : bytes := list_byte_of_string s.
Definition to_binary (b : bytes) : string := string_of_list_byte b.

End Buffer.

(** ** Type codecs (the interface of [utils.*Type]) *)

(** The result [{value, offset}] of [type.decode(buf, pos)]; a negative
    offset signals a truncated buffer. *)
Record DecodeResult (A : Type) : Type := mkDecodeResult {
  value : option A;
  offset : Z
}.
Arguments mkDecodeResult {A} value offset.
Arguments value {A} d.
Arguments offset {A} d.

(** What the module uses of an Avro type: [toBuffer] (which throws on a
    value the schema rejects) and [decode]. *)
Record TypeCodec (A : Type) : Type := mkTypeCodec {
  toBuffer : A -> Completion bytes;
  decode : bytes -> Z -> Completion (DecodeResult A)
}.
Arguments mkTypeCodec {A} toBuffer decode.
Arguments toBuffer {A} t v.
Arguments decode {A} t buf pos.

(** The codec yields a value whenever it yields a valid offset, as the
    [decode] of an Avro type does: an undefined value comes with a
    negative offset only. *)
Definition reads_values {A} (T : TypeCodec A) : Prop :=
  forall (buf : bytes) (r : DecodeResult A),
    decode T buf 0 = Normal r -> (offset r <? 0) = false -> value r <> None.

(** Packet headers: a JavaScript object from header names to buffers. *)
Definition Headers : Type := list (string * bytes).

(** ** NettyPacket *)

Record NettyPacket : Type := mkNettyPacket {
  body : bytes;
  headers : Headers
}.

(** [new NettyPacket(body, headers)], with [headers || {}]. *)
Definition new_NettyPacket (body : bytes) (headers : option Headers) : NettyPacket :=
  {| body := body;
     headers := match headers with Some h => h | None => [] end |}.

(** The object the encoder consumes and the decoder emits. *)
Record FrameGroup (H : Type) : Type := mkFrameGroup {
  handshake : option H;
  id : Z;
  packet : NettyPacket
}.
Arguments mkFrameGroup {H} handshake id packet.
Arguments handshake {H} f.
Arguments id {H} f.
Arguments packet {H} f.

Module FrameGroup.
(** The frame group [w] belongs to call [i]. *)
Definition id_eqb {H} (i : Z) (w : FrameGroup H) : bool := id w =? i.
End FrameGroup.

Module Codec.
Section Codec.

Context {H : Type}.
Variable handshakeType : TypeCodec H.
Variable mapOfBytesType : TypeCodec Headers.

(** [NettyPacket.prototype.toPayload]. *)
Definition toPayload (pkt : NettyPacket) : Completion bytes :=
  let* hdr := toBuffer mapOfBytesType (headers pkt) in
  Normal (Buffer.concat [hdr; body pkt]).

(** [NettyPacket.forPayload]: [headers] is the decoded value (read as the
    empty object, should the codec yield none with a valid offset). *)
Definition forPayload (buf : bytes) : Completion NettyPacket :=
  let* obj := decode mapOfBytesType buf 0 in
  if offset obj <? 0 then Throw (Err "truncated request headers")
  else
    Normal {| headers := match value obj with Some h => h | None => [] end;
              body := Buffer.slice_from buf (offset obj) |}.

(** *** NettyEncoder *)

(** [NettyEncoder.prototype._encode]: the payload frame, preceded by the
    handshake frame when the object carries a handshake. *)
Definition _encode (obj : FrameGroup H) : Completion (list bytes) :=
  let* payload := toPayload (packet obj) in
  match handshake obj with
  | Some h =>
      let* hb := toBuffer handshakeType h in
      Normal [hb; payload]
  | None => Normal [payload]
  end.

(** How a [_transform] call of the encoder ends: [cb()], [cb(err)], or an
    exception leaving the method. *)
Inductive Outcome : Type :=
| CbOk
| CbErr (e : JsError)
| Uncaught (e : JsError).

(** The [for (const buf of bufs)] loop: each frame is pushed as its
    length ([intBuffer]) and then its bytes. *)
Fixpoint push_frames (bufs : list bytes) (pushed : list bytes)
  : list bytes * Outcome :=
  match bufs with
  | [] => (pushed, CbOk)
  | buf :: rest =>
      match Buffer.writeInt32BE (blen buf) with
      | None => (pushed, Uncaught (RangeError "value out of range"))
      | Some lenb => push_frames rest (pushed ++ [lenb; buf])
      end
  end.

(** [NettyEncoder.prototype._transform]: the buffers pushed downstream,
    in order, and the way the call ends. *)
Definition encoder_transform (obj : FrameGroup H) : list bytes * Outcome :=
  match _encode obj with
  | Throw e => ([], CbErr e)
  | Normal bufs =>
      match Buffer.writeInt32BE (id obj) with
      | None => ([], Uncaught (RangeError "value out of range"))
      | Some idb =>
          match Buffer.writeInt32BE (Z.of_nat (length bufs)) with
          | None => ([], Uncaught (RangeError "value out of range"))
          | Some nb => push_frames bufs [idb ++ nb]
          end
      end
  end.

(** *** NettyDecoder *)

Record Decoder : Type := mkDecoder {
  _expectHandshake : bool;
  _id : option Z;
  _frameCount : Z;
  _buf : bytes;
  _bufs : list bytes
}.

(** The state set up by the constructor. *)
Definition new_NettyDecoder : Decoder :=
  {| _expectHandshake := true;
     _id := None;
     _frameCount := 0;
     _buf := [];
     _bufs := [] |}.

(** The inner function [decode(withHandshake)] of [_decode]; it yields the
    values assigned to [handshake] and [packet]. *)
Definition decode_with (withHandshake : bool) (buf : bytes)
  : Completion (option H * NettyPacket) :=
  if withHandshake then
    let* obj := decode handshakeType buf 0 in
    if offset obj <? 0 then Throw (Err "truncated packet handshake")
    else
      let* pkt := forPayload (Buffer.slice_from buf (offset obj)) in
      Normal (value obj, pkt)
  else
    let* pkt := forPayload buf in
    Normal (None, pkt).

(** [NettyDecoder.prototype._decode]: the new value of [_expectHandshake]
    and the decoded object.  The [catch] block calls [decode] with
    [this._expectHandshake], as the [try] block did. *)
Definition _decode (expectHandshake : bool) (id : Z) (buf : bytes)
  : Completion (bool * FrameGroup H) :=
  let* r := try_catch (decode_with expectHandshake buf)
                      (fun _ => decode_with expectHandshake buf) in
  let '(handshake, packet) := r in
  let expect' :=
    if negb (is_some handshake) && expectHandshake then false
    else expectHandshake in
  Normal (expect', mkFrameGroup handshake id packet).

(** The [while] loop over frames.  [fuel] bounds the iterations: the loop
    of the source need not terminate (a negative frame count with a frame
    length of -4 consumes nothing). *)
Fixpoint read_frames (fuel : nat) (frameCount : Z) (bufs : list bytes)
    (buf : bytes) : option (Z * list bytes * bytes) :=
  let go :=
    negb (frameCount =? 0) && (4 <=? blen buf) &&
    match Buffer.readInt32BE buf 0 with
    | Some frameLength => frameLength + 4 <=? blen buf
    | None => false
    end in
  if go then
    match fuel, Buffer.readInt32BE buf 0 with
    | S fuel', Some frameLength =>
        read_frames fuel' (frameCount - 1)
          (bufs ++ [Buffer.slice buf 4 (frameLength + 4)])
          (Buffer.slice_from buf (frameLength + 4))
    | _, _ => None
    end
  else Some (frameCount, bufs, buf).

(** What a decoder [_transform] call has done when it returns: the new
    state, the objects pushed, and the error emitted, if any. *)
Record Transformed : Type := mkTransformed {
  t_state : Decoder;
  t_pushed : list (FrameGroup H);
  t_error : option JsError
}.

(** The [while (true)] loop of [_transform], on the local [buf]. *)
Fixpoint transform_loop (fuel : nat) (s : Decoder) (buf : bytes)
    (pushed : list (FrameGroup H)) : option Transformed :=
  match fuel with
  | O => None
  | S fuel' =>
      let header :=
        match _id s with
        | None =>
            if blen buf <? 8 then None
            else
              match Buffer.readInt32BE buf 0, Buffer.readInt32BE buf 4 with
              | Some i, Some n => Some (i, n, Buffer.slice_from buf 8)
              | _, _ => None
              end
        | Some i => Some (i, _frameCount s, buf)
        end in
      match header with
      | None =>
          Some (mkTransformed
                  (mkDecoder (_expectHandshake s) (_id s) (_frameCount s) buf (_bufs s))
                  pushed None)
      | Some (i, frameCount, buf) =>
          match read_frames fuel' frameCount (_bufs s) buf with
          | None => None
          | Some (frameCount, bufs, buf) =>
              if negb (frameCount =? 0) then
                Some (mkTransformed
                        (mkDecoder (_expectHandshake s) (Some i) frameCount buf bufs)
                        pushed None)
              else
                match _decode (_expectHandshake s) i (Buffer.concat bufs) with
                | Throw err =>
                    Some (mkTransformed
                            (mkDecoder (_expectHandshake s) (Some i) frameCount (_buf s) bufs)
                            pushed (Some err))
                | Normal (expect', obj) =>
                    transform_loop fuel'
                      (mkDecoder expect' None frameCount (_buf s) [])
                      buf (pushed ++ [obj])
                end
          end
      end
  end.

(** [NettyDecoder.prototype._transform]. *)
Definition decoder_transform (fuel : nat) (s : Decoder) (chunk : bytes)
  : option Transformed :=
  transform_loop fuel s (Buffer.concat [_buf s; chunk]) [].

(** [NettyDecoder.prototype._flush]: the error emitted at end of input. *)
Definition _flush (s : Decoder) : option JsError :=
  if (0 <? blen (_buf s)) || (0 <? Z.of_nat (length (_bufs s))) then
    Some (ErrTrailing "trailing data" (Buffer.concat (_buf s :: _bufs s)))
  else None.

(** Writing a sequence of chunks to the decoder; an emitted error stops
    the stream. *)
Fixpoint decoder_write_all (fuel : nat) (s : Decoder) (chunks : list bytes)
    (pushed : list (FrameGroup H)) : option Transformed :=
  match chunks with
  | [] => Some (mkTransformed s pushed None)
  | chunk :: rest =>
      match decoder_transform fuel s chunk with
      | None => None
      | Some t =>
          match t_error t with
          | Some err => Some (mkTransformed (t_state t) (pushed ++ t_pushed t) (Some err))
          | None => decoder_write_all fuel (t_state t) rest (pushed ++ t_pushed t)
          end
      end
  end.

(** Writing the chunks and then ending the input. *)
Definition decoder_end (fuel : nat) (s : Decoder) (chunks : list bytes)
  : option Transformed :=
  match decoder_write_all fuel s chunks [] with
  | None => None
  | Some t =>
      match t_error t with
      | Some err => Some t
      | None => Some (mkTransformed (t_state t) (t_pushed t) (_flush (t_state t)))
      end
  end.

End Codec.
End Codec.

(** ** The wire layout of a frame group *)

(** A frame group on the wire: the id and the number of frames, each a
    big-endian 32-bit integer, then every frame as its length followed by
    its bytes. *)
Module Wire.

Definition frame_bytes (f : bytes) : bytes :=
  Buffer.int32_bytes (blen f) ++ f.

Definition frames_bytes (fs : list bytes) : bytes :=
  List.concat (map frame_bytes fs).

Definition group_bytes (id : Z) (fs : list bytes) : bytes :=
  Buffer.int32_bytes id ++ Buffer.int32_bytes (Z.of_nat (length fs))
  ++ frames_bytes fs.

(** Every frame length fits the 32-bit length field. *)
Definition frames_fit (fs : list bytes) : Prop :=
  Forall (fun f => blen f < 2 ^ 31) fs.

End Wire.

(** ** Progress of the decoder through a frame group *)

Module Progress.
Section Progress.

(** The input: the frame group [(idv, fs)] followed by the bytes [rest].
    The decoder expects a handshake or not ([e]) when the group starts,
    and ([e']) once it has been decoded. *)
Variables (idv : Z) (fs : list bytes) (rest : bytes) (e e' : bool).

(** [Phase d q s]: the state [s] of a decoder that still has [q] to
    receive; [d] tells whether the group has been emitted.  Before that
    the decoder is either collecting the header, or inside the frames,
    waiting for the rest of the frame [f], with [todo] to read after it.
    [q'] is what is still to come of the group itself. *)
Inductive Phase : bool -> bytes -> Codec.Decoder -> Prop :=
| PHeader (q q' : bytes) (s : Codec.Decoder) :
    q = q' ++ rest -> q' <> [] ->
    Codec._id s = None -> Codec._bufs s = [] ->
    Codec._expectHandshake s = e ->
    blen (Codec._buf s) < 8 ->
    Codec._buf s ++ q' = Wire.group_bytes idv fs ->
    Phase false q s
| PFrames (q q' f : bytes) (todo : list bytes) (s : Codec.Decoder) :
    q = q' ++ rest -> q' <> [] ->
    Codec._id s = Some idv ->
    Codec._frameCount s = Z.of_nat (length (f :: todo)) ->
    Codec._bufs s ++ f :: todo = fs ->
    Codec._expectHandshake s = e ->
    blen (Codec._buf s) < blen (Wire.frame_bytes f) ->
    Codec._buf s ++ q' = Wire.frames_bytes (f :: todo) ->
    Phase false q s
| PDone (q buf : bytes) :
    buf ++ q = rest ->
    Phase true q (Codec.mkDecoder e' None 0 buf []).

End Progress.
End Progress.

(** ** Streams of frame groups *)

Module Groups.

(** A frame group as the decoder reads it: its id and its frames. *)
Definition Group : Type := (Z * list bytes)%type.

(** The groups on the wire, one after the other. *)
Definition bytes_of (gs : list Group) : bytes :=
  List.concat (map (fun g => Wire.group_bytes (fst g) (snd g)) gs).

(** The id and the frame count of the group fit their 32-bit fields, and
    so does the length of every frame. *)
Definition well_formed (g : Group) : Prop :=
  - 2 ^ 31 <= fst g < 2 ^ 31
  /\ Z.of_nat (length (snd g)) < 2 ^ 31
  /\ Wire.frames_fit (snd g).

(** The number of frames of all the groups. *)
Definition frame_count (gs : list Group) : nat :=
  fold_right (fun g n => (length (snd g) + n)%nat) 0%nat gs.

(** [At rest e gs q s]: the state [s] of a decoder, between two chunks,
    that expects a handshake or not ([e]), has the groups [gs] and then
    the bytes [rest] to read, and has still [q] to receive.  Either it is
    collecting a group header (or the bytes of [rest]), or it is inside
    the frames of the first group, waiting for the rest of the frame [f]. *)
Inductive At (rest : bytes) : bool -> list Group -> bytes -> Codec.Decoder -> Prop :=
| AtIdle (e : bool) (gs : list Group) (q : bytes) (s : Codec.Decoder) :
    Codec._id s = None -> Codec._frameCount s = 0 -> Codec._bufs s = [] ->
    Codec._expectHandshake s = e ->
    blen (Codec._buf s) < 8 ->
    Codec._buf s ++ q = bytes_of gs ++ rest ->
    At rest e gs q s
| AtFrames (e : bool) (idv : Z) (fs : list bytes) (gs : list Group) (q f : bytes)
    (todo : list bytes) (s : Codec.Decoder) :
    Codec._id s = Some idv ->
    Codec._frameCount s = Z.of_nat (length (f :: todo)) ->
    Codec._bufs s ++ f :: todo = fs ->
    Codec._expectHandshake s = e ->
    blen (Codec._buf s) < blen (Wire.frame_bytes f) ->
    Codec._buf s ++ q = Wire.frames_bytes (f :: todo) ++ bytes_of gs ++ rest ->
    At rest e ((idv, fs) :: gs) q s.

Section Groups.

Context {H : Type}.
Variable handshakeType : TypeCodec H.
Variable mapOfBytesType : TypeCodec Headers.

(** What [_decode] yields on the payloads of the groups, taken in turn
    from the expectation [e]: the last expectation, the objects decoded,
    and the error that stopped the run, if any. *)
Fixpoint decoded (e : bool) (gs : list Group)
  : bool * list (FrameGroup H) * option JsError :=
  match gs with
  | [] => (e, [], None)
  | g :: gs' =>
      match Codec._decode handshakeType mapOfBytesType e (fst g)
              (Buffer.concat (snd g)) with
      | Throw err => (e, [], Some err)
      | Normal (e', obj) =>
          let '(e'', objs, err) := decoded e' gs' in
          (e'', obj :: objs, err)
      end
  end.

(** Writing objects to the encoder, one after the other: the buffers
    pushed downstream; a [_transform] call that fails ends the stream. *)
Fixpoint encoder_write_all (objs : list (FrameGroup H)) : list bytes * Codec.Outcome :=
  match objs with
  | [] => ([], Codec.CbOk)
  | obj :: rest =>
      match Codec.encoder_transform handshakeType mapOfBytesType obj with
      | (pushed, Codec.CbOk) =>
          let '(pushed', o) := encoder_write_all rest in
          (pushed ++ pushed', o)
      | (pushed, o) => (pushed, o)
      end
  end.

(** [Progressed rest e gs q pushed t]: the outcome [t] of a decoder that
    had the groups [gs] and then [rest] to read, has still [q] to receive,
    and had pushed [pushed]: it has decoded the groups [gs1], which it
    has received whole, and either waits in the groups [gs2] that follow,
    or has emitted the error that stopped [decoded]. *)
Definition Progressed (rest : bytes) (e : bool) (gs : list Group) (q : bytes)
    (pushed : list (FrameGroup H)) (t : Codec.Transformed) : Prop :=
  exists (gs1 gs2 : list Group) (e1 : bool) (objs1 : list (FrameGroup H))
         (err : option JsError),
    gs = gs1 ++ gs2
    /\ decoded e gs1 = (e1, objs1, err)
    /\ Codec.t_pushed t = pushed ++ objs1
    /\ Codec.t_error t = err
    /\ blen q <= blen (bytes_of gs2 ++ rest)
    /\ (err = None -> At rest e1 gs2 q (Codec.t_state t)).

(** The object carries a handshake, fits the 32-bit fields of the wire
    format, and its handshake and headers are read back by their codecs
    from the bytes written for them. *)
Definition round_trips (obj : FrameGroup H) : Prop :=
  exists (h : H) (hb mb : bytes),
    handshake obj = Some h
    /\ - 2 ^ 31 <= id obj < 2 ^ 31
    /\ toBuffer handshakeType h = Normal hb
    /\ toBuffer mapOfBytesType (headers (packet obj)) = Normal mb
    /\ blen hb < 2 ^ 31
    /\ blen (mb ++ body (packet obj)) < 2 ^ 31
    /\ decode handshakeType (hb ++ mb ++ body (packet obj)) 0
       = Normal (mkDecodeResult (Some h) (blen hb))
    /\ decode mapOfBytesType (mb ++ body (packet obj)) 0
       = Normal (mkDecodeResult (Some (headers (packet obj))) (blen mb)).

End Groups.
End Groups.

(** ** Handshake records *)

Definition Meta : Type := list (string * bytes).

Module HandshakeRequest.
Record t : Type := mk {
  clientHash : bytes;
  clientProtocol : option string;
  serverHash : bytes;
  meta : option Meta
}.
End HandshakeRequest.

Inductive Match : Type := BOTH | CLIENT | NONE.

Module HandshakeResponse.
Record t : Type := mk {
  match_ : Match;
  serverProtocol : option string;
  serverHash : option bytes;
  meta : option Meta
}.
End HandshakeResponse.

(** ** Avro binary encoding of the handshake records and the header map *)

(** Modelled from the spec: the type codecs of [../utils]
    ([handshakeRequestType], [handshakeResponseType], [mapOfBytesType]) are
    not part of this module.  The spec fixes the record shapes as those of
    the Avro Netty transport; this is their Avro binary encoding (zig-zag
    variable-length longs, length-prefixed bytes and strings, maps as
    counted blocks closed by a zero count, unions as a branch index).  It
    instantiates the codec parameters of [Codec] on concrete inputs. *)
Module Avro.

Inductive Read (A : Type) : Type :=
| ROk (a : A) (rest : bytes)
| RTruncated
| RThrow (e : JsError).
Arguments ROk {A} a rest.
Arguments RTruncated {A}.
Arguments RThrow {A} e.

Definition Reader (A : Type) : Type := bytes -> Read A.

Definition rret {A} (a : A) : Reader A := fun buf => ROk a buf.

Definition rthrow {A} (e : JsError) : Reader A := fun _ => RThrow e.

Definition rbind {A B} (r : Reader A) (k : A -> Reader B) : Reader B :=
  fun buf =>
    match r buf with
    | ROk a rest => k a rest
    | RTruncated => RTruncated
    | RThrow e => RThrow e
    end.

Notation "'read*' x ':=' r 'in' k" := (rbind r (fun x => k))
  (at level 10, x pattern, r at level 200, k at level 200).

Definition zigzag (n : Z) : Z := if n <? 0 then - 2 * n - 1 else 2 * n.
Definition unzigzag (u : Z) : Z := if Z.even u then u / 2 else - ((u + 1) / 2).

Fixpoint write_varint (fuel : nat) (u : Z) : bytes :=
  match fuel with
  | O => []
  | S fuel' =>
      if u <? 128 then [Buffer.byte_of_Z u]
      else Buffer.byte_of_Z (u mod 128 + 128) :: write_varint fuel' (u / 128)
  end.

Definition writeLong (n : Z) : bytes := write_varint 10 (zigzag n).

Fixpoint read_varint (fuel : nat) (shift acc : Z) : Reader Z :=
  fun buf =>
    match fuel with
    | O => RThrow (Err "invalid long")
    | S fuel' =>
        match buf with
        | [] => RTruncated
        | b :: rest =>
            let v := Buffer.byteZ b in
            let acc' := acc + (v mod 128) * 2 ^ shift in
            if v <? 128 then ROk acc' rest
            else read_varint fuel' (shift + 7) acc' rest
        end
    end.

Definition readLong : Reader Z :=
  read* u := read_varint 10 0 0 in rret (unzigzag u).

Definition readFixed (n : Z) : Reader bytes :=
  fun buf =>
    if blen buf <? n then RTruncated
    else ROk (firstn (Z.to_nat n) buf) (skipn (Z.to_nat n) buf).

Definition writeBytes (b : bytes) : bytes := writeLong (blen b) ++ b.

Definition readBytes : Reader bytes :=
  read* n := readLong in
  if n <? 0 then rthrow (Err "invalid bytes length") else readFixed n.

Definition writeString (s : string) : bytes := writeBytes (list_byte_of_string s).

Definition readString : Reader string :=
  read* b := readBytes in rret (string_of_list_byte b).

Definition writeEntry (kv : string * bytes) : bytes :=
  writeString (fst kv) ++ writeBytes (snd kv).

Definition writeMap (m : list (string * bytes)) : bytes :=
  match m with
  | [] => [x00]
  | _ => writeLong (Z.of_nat (length m)) ++ List.concat (map writeEntry m) ++ [x00]
  end.

Fixpoint readEntries (fuel : nat) (count : Z) : Reader (list (string * bytes)) :=
  fun buf =>
    if count <=? 0 then ROk [] buf
    else
      match fuel with
      | O => RTruncated
      | S fuel' =>
          (read* k := readString in
           read* v := readBytes in
           read* rest := readEntries fuel' (count - 1) in
           rret ((k, v) :: rest)) buf
      end.

Fixpoint readBlocks (fuel : nat) : Reader (list (string * bytes)) :=
  fun buf =>
    match fuel with
    | O => RTruncated
    | S fuel' =>
        (read* count := readLong in
         if count =? 0 then rret []
         else
           read* _ := (if count <? 0 then readLong else rret 0) in
           read* entries := (fun b => readEntries (length b) (Z.abs count) b) in
           read* rest := readBlocks fuel' in
           rret (entries ++ rest)) buf
    end.

Definition readMap : Reader (list (string * bytes)) :=
  fun buf => readBlocks (S (length buf)) buf.

(** A union [["null", T]]. *)
Definition writeUnion {A} (w : A -> bytes) (v : option A) : bytes :=
  match v with
  | None => writeLong 0
  | Some a => writeLong 1 ++ w a
  end.

Definition readUnion {A} (r : Reader A) : Reader (option A) :=
  read* i := readLong in
  if i =? 0 then rret None
  else if i =? 1 then read* a := r in rret (Some a)
  else rthrow (Err "invalid union index").

Definition writeMatch (m : Match) : bytes :=
  writeLong match m with BOTH => 0 | CLIENT => 1 | NONE => 2 end.

Definition readMatch : Reader Match :=
  read* i := readLong in
  if i =? 0 then rret BOTH
  else if i =? 1 then rret CLIENT
  else if i =? 2 then rret NONE
  else rthrow (Err "invalid enum index").

(** [type.decode(buf, pos)]: a read that runs past the end of the buffer
    yields an undefined value and a negative offset. *)
Definition decode_at {A} (r : Reader A) (buf : bytes) (pos : Z)
  : Completion (DecodeResult A) :=
  match r (skipn (Z.to_nat pos) buf) with
  | ROk a rest => Normal (mkDecodeResult (Some a) (blen buf - blen rest))
  | RTruncated => Normal (mkDecodeResult None (-1))
  | RThrow e => Throw e
  end.

Definition is_md5 (b : bytes) : bool := blen b =? 16.

Definition mapOfBytesType : TypeCodec Headers :=
  mkTypeCodec (fun m => Normal (writeMap m)) (decode_at readMap).

Definition handshakeRequestType : TypeCodec HandshakeRequest.t :=
  mkTypeCodec
    (fun h =>
       if is_md5 (HandshakeRequest.clientHash h)
          && is_md5 (HandshakeRequest.serverHash h) then
         Normal (HandshakeRequest.clientHash h
                 ++ writeUnion writeString (HandshakeRequest.clientProtocol h)
                 ++ HandshakeRequest.serverHash h
                 ++ writeUnion writeMap (HandshakeRequest.meta h))
       else Throw (Err "invalid HandshakeRequest"))
    (decode_at
       (read* ch := readFixed 16 in
        read* cp := readUnion readString in
        read* sh := readFixed 16 in
        read* m := readUnion readMap in
        rret (HandshakeRequest.mk ch cp sh m))).

Definition handshakeResponseType : TypeCodec HandshakeResponse.t :=
  mkTypeCodec
    (fun h =>
       if match HandshakeResponse.serverHash h with
          | Some sh => is_md5 sh
          | None => true
          end then
         Normal (writeMatch (HandshakeResponse.match_ h)
                 ++ writeUnion writeString (HandshakeResponse.serverProtocol h)
                 ++ writeUnion (fun b => b) (HandshakeResponse.serverHash h)
                 ++ writeUnion writeMap (HandshakeResponse.meta h))
       else Throw (Err "invalid HandshakeResponse"))
    (decode_at
       (read* m := readMatch in
        read* sp := readUnion readString in
        read* sh := readUnion (readFixed 16) in
        read* me := readUnion readMap in
        rret (HandshakeResponse.mk m sp sh me))).

End Avro.

(** ** Collaborators: services and packets *)

Module Service.
(** A [Service]: its [hash] (a binary string) and its [protocol]. *)
Record t (Json : Type) : Type := mk {
  hash : string;
  protocol : Json
}.
Arguments mk {Json} hash protocol.
Arguments hash {Json} _.
Arguments protocol {Json} _.
End Service.

Module Packet.
(** [new Packet(id, service, body, headers)] of [../channel]; [S] is what
    the [service] slot holds. *)
Record t (S : Type) : Type := mk {
  id : Z;
  service : S;
  body : bytes;
  headers : Headers
}.
Arguments mk {S} id service body headers.
Arguments id {S} _.
Arguments service {S} _.
Arguments body {S} _.
Arguments headers {S} _.
End Packet.

(** Header and meta keys. *)
Definition PROTOCOLS_HEADER : string := "avro.protocols".
Definition DEADLINE_META : string := "avro.trace.deadline".
Definition LABELS_META : string := "avro.trace.labels".

(** Property access and assignment on a plain object. *)
Fixpoint obj_get {V} (k : string) (o : list (string * V)) : option V :=
  match o with
  | [] => None
  | (k', v) :: rest => if String.eqb k k' then Some v else obj_get k rest
  end.

Fixpoint obj_set {V} (k : string) (v : V) (o : list (string * V)) : list (string * V) :=
  match o with
  | [] => [(k, v)]
  | (k', v') :: rest =>
      if String.eqb k k' then (k, v) :: rest else (k', v') :: obj_set k v rest
  end.

(** A [Map] keyed by call id, in insertion order ([destroy] iterates it). *)
Fixpoint omap_get {V} (k : Z) (m : list (Z * V)) : option V :=
  match m with
  | [] => None
  | (k', v) :: rest => if k =? k' then Some v else omap_get k rest
  end.

Fixpoint omap_set {V} (k : Z) (v : V) (m : list (Z * V)) : list (Z * V) :=
  match m with
  | [] => [(k, v)]
  | (k', v') :: rest =>
      if k =? k' then (k, v) :: rest else (k', v') :: omap_set k v rest
  end.

Definition omap_delete {V} (k : Z) (m : list (Z * V)) : list (Z * V) :=
  List.filter (fun kv => negb (k =? fst kv)) m.

(** ** Lexical scope *)

(** The bindings of the module: its [require]d names, constants, functions
    and classes. *)
Definition module_scope : list string :=
  ["Channel"; "Packet"; "Trace"; "Router"; "Service"; "utils"; "debug";
   "EventEmitter"; "stream"; "SystemError"; "d"; "discoveryService";
   "PROTOCOLS_HEADER"; "DEADLINE_META"; "LABELS_META"; "nettyRouter";
   "NettyRouter"; "NettyBridge"; "NettyGateway"; "NettyDecoder";
   "NettyEncoder"; "NettyPacket"; "intBuffer"; "isStream"]%string.

(** The globals the module refers to. *)
Definition global_scope : list string :=
  ["Buffer"; "JSON"; "Error"; "Map"; "Object"; "require"; "module"]%string.

(** Evaluating an identifier: a name bound nowhere is a [ReferenceError]. *)
Definition resolve (scope : list string) (x : string) : Completion unit :=
  if existsb (String.eqb x) (scope ++ module_scope ++ global_scope)
  then Normal tt
  else Throw (ReferenceError x).

(** ** Stateful code: state, effects in order, and exceptions *)

Record Run (S E A : Type) : Type := mkRun {
  state : S;
  effects : list E;
  result : Completion A
}.
Arguments mkRun {S E A} state effects result.
Arguments state {S E A} _.
Arguments effects {S E A} _.
Arguments result {S E A} _.

Definition M (S E A : Type) : Type := S -> Run S E A.

Definition ret {S E A} (a : A) : M S E A := fun s => mkRun s [] (Normal a).

Definition throw {S E A} (e : JsError) : M S E A := fun s => mkRun s [] (Throw e).

Definition lift {S E A} (c : Completion A) : M S E A := fun s => mkRun s [] c.

Definition bind {S E A B} (m : M S E A) (k : A -> M S E B) : M S E B :=
  fun s =>
    let r := m s in
    match result r with
    | Throw e => mkRun (state r) (effects r) (Throw e)
    | Normal a =>
        let r' := k a (state r) in
        mkRun (state r') (effects r ++ effects r') (result r')
    end.

Definition get {S E} : M S E S := fun s => mkRun s [] (Normal s).

Definition modify {S E} (f : S -> S) : M S E unit := fun s => mkRun (f s) [] (Normal tt).

Definition effect {S E} (e : E) : M S E unit := fun s => mkRun s [e] (Normal tt).

(** [try { m } catch (err) { h err }]. *)
Definition catch {S E A} (m : M S E A) (h : JsError -> M S E A) : M S E A :=
  fun s =>
    let r := m s in
    match result r with
    | Normal a => r
    | Throw e =>
        let r' := h e (state r) in
        mkRun (state r') (effects r ++ effects r') (result r')
    end.

Notation "'run*' x ':=' m 'in' k" := (bind m (fun x => k))
  (at level 10, x pattern, m at level 200, k at level 200).
Notation "m ';;' k" := (bind m (fun _ => k))
  (at level 100, k at level 200, right associativity).

(** [for (const x of xs) { f x }]. *)
Fixpoint for_each {S E A} (xs : list A) (f : A -> M S E unit) : M S E unit :=
  match xs with
  | [] => ret tt
  | x :: rest => f x ;; for_each rest f
  end.

(** Streams are identified by a number; a call argument is a stream or
    something without a [pipe] method. *)
Definition Stream : Type := nat.

Inductive Arg : Type :=
| ArgStream (s : Stream)
| ArgOther.

(** [isStream(any)]. *)
Definition isStream (any : Arg) : bool :=
  match any with
  | ArgStream _ => true
  | ArgOther => false
  end.

(** ** NettyBridge *)

Module Bridge.
Section Bridge.

(** Protocol descriptions, trace labels, deadlines, and the continuations
    handed to [call] are opaque to the bridge. *)
Context {Json Labels Deadline Continuation : Type}.

(** [JSON.stringify(svc.protocol)]. *)
Variable JSON_stringify : Json -> string.
(** [new Service(JSON.parse(text))], on the text of a handshake (which
    may be [null]). *)
Variable new_Service : option string -> Completion (Service.t Json).
Variable mapOfJsonType_toBuffer : Labels -> Completion bytes.
Variable dateTimeType_toBuffer : Deadline -> Completion bytes.

Abbreviation Service := (Service.t Json).

(** What the bridge reads of a [Trace]. *)
Record Trace : Type := mkTrace {
  deadline : option Deadline;
  labels : Labels
}.

Inductive Emitter : Type :=
| StreamE (s : Stream)
| EncoderE
| DecoderE.

(** The listeners the bridge installs; [HIdent x] is the value of the
    identifier [x]. *)
Inductive Handler : Type :=
| HReadableEnd
| HReadableError
| HWritableError
| HWritableFinish
| HEncoderError
| HDecoderError
| HDecoderData
| HIdent (x : string).

(** The arguments of a continuation: [cb(err)] or [cb(null, packet)]. *)
Inductive CbArgs : Type :=
| CbError (e : JsError)
| CbPacket (p : Packet.t (option Service)).

Inductive Effect : Type :=
| EncoderWrite (obj : FrameGroup HandshakeRequest.t)
| Invoke (k : Continuation) (args : CbArgs)
| Emit (event : string) (err : option JsError)
| Listen (on : Emitter) (event : string) (h : Handler)
| Unlisten (on : Emitter) (event : string) (h : Handler)
| Pipe (src dst : Emitter)
| Unpipe (src dst : Emitter).

(** An entry of [_callbacks].  Modelled from the spec: [Trace] is not part
    of this module; the finalizer returned by [trace.onceInactive] returns
    [true] the first time it is invoked, and [armed] records that it has
    not been invoked yet. *)
Record CallRecord : Type := mkCallRecord {
  cb : Continuation;
  armed : bool;
  meta : Meta;
  preq : Packet.t Service;
  retried : bool
}.

Record t : Type := mk {
  closed : bool;
  _readable : option Stream;
  _writable : option Stream;
  _serverServices : gmap string Service;
  _hashes : gmap string string;
  _callbacks : list (Z * CallRecord)
}.

Abbreviation B := (M t Effect).

Definition set_closed (v : bool) (b : t) : t :=
  mk v (_readable b) (_writable b) (_serverServices b) (_hashes b) (_callbacks b).
Definition set_streams (r w : option Stream) (b : t) : t :=
  mk (closed b) r w (_serverServices b) (_hashes b) (_callbacks b).
Definition set_serverServices (m : gmap string Service) (b : t) : t :=
  mk (closed b) (_readable b) (_writable b) m (_hashes b) (_callbacks b).
Definition set_hashes (m : gmap string string) (b : t) : t :=
  mk (closed b) (_readable b) (_writable b) (_serverServices b) m (_callbacks b).
Definition set_callbacks (m : list (Z * CallRecord)) (b : t) : t :=
  mk (closed b) (_readable b) (_writable b) (_serverServices b) (_hashes b) m.

(** Names bound in the constructor, and in its ['data'] listener. *)
Definition constructor_scope : list string := ["readable"; "writable"]%string.
Definition data_listener_scope : list string :=
  ["handshake"; "id"; "packet"; "obj"; "match"; "clientSvc"; "clientHash";
   "serverSvc"; "serverHash"; "err"]%string ++ constructor_scope.

(** [close()]. *)
Definition close : B unit :=
  run* b := get in
  if closed b then ret tt
  else modify (set_closed true) ;; effect (Emit "close" None).

(** [_release()]. *)
Definition _release : B unit :=
  run* b := get in
  match _readable b with
  | None => throw (TypeError "Cannot read properties of null (reading 'unpipe')")
  | Some r =>
      effect (Unpipe (StreamE r) DecoderE) ;;
      effect (Unlisten (StreamE r) "error" HReadableError) ;;
      effect (Unlisten (StreamE r) "end" HReadableEnd) ;;
      match _writable b with
      | None => throw (TypeError "Cannot read properties of null (reading 'removeListener')")
      | Some w =>
          effect (Unpipe EncoderE (StreamE w)) ;;
          effect (Unlisten (StreamE w) "error" HWritableError) ;;
          effect (Unlisten (StreamE w) "finish" HWritableFinish) ;;
          modify (set_streams None None)
      end
  end.

(** [_untrack(id)]. *)
Definition _untrack (id : Z) : B unit :=
  modify (fun b => set_callbacks (omap_delete id (_callbacks b)) b) ;;
  run* b := get in
  if closed b && (length (_callbacks b) =? 0)%nat then _release else ret tt.

(** Calling [obj.cb(...args)], the wrapper [_track] stores: the
    continuation runs only if [cleanup()] returns [true]. *)
Definition call_cb (obj : CallRecord) (args : CbArgs) : B unit :=
  if armed obj then
    _untrack (Packet.id (preq obj)) ;;
    effect (Invoke (cb obj) args)
  else ret tt.

(** [destroy(err)].  The loop visits the entries of [_callbacks] in
    insertion order, skipping those deleted before their turn. *)
Definition destroy (err : option JsError) : B unit :=
  close ;;
  let interruptErr := Err "bridge destroyed" in
  run* b := get in
  for_each (map fst (_callbacks b))
    (fun k =>
       run* b := get in
       match omap_get k (_callbacks b) with
       | Some obj => call_cb obj (CbError interruptErr)
       | None => ret tt
       end) ;;
  match err with
  | Some e => effect (Emit "error" (Some e))
  | None => ret tt
  end.

(** [_send(preq, meta, includePtcl)]; [meta] is [None] when the caller
    passes [undefined]. *)
Definition _send (preq : Packet.t Service) (meta : option Meta)
    (includePtcl : bool) : B unit :=
  run* b := get in
  let clientSvc := Packet.service preq in
  let serverHash :=
    match _hashes b !! Service.hash clientSvc with
    | Some h => if truthy_string h then h else Service.hash clientSvc
    | None => Service.hash clientSvc
    end in
  let handshake :=
    HandshakeRequest.mk
      (Buffer.from_binary (Service.hash clientSvc))
      (if includePtcl then Some (JSON_stringify (Service.protocol clientSvc))
       else None)
      (Buffer.from_binary serverHash)
      meta in
  let packet := new_NettyPacket (Packet.body preq) (Some (Packet.headers preq)) in
  effect (EncoderWrite (mkFrameGroup (Some handshake) (Packet.id preq) packet)).

(** [_track(trace, preq, cb)]: the meta object, or [None] for the
    [undefined] of its two early returns. *)
Definition _track (trace : Trace) (preq : Packet.t Service) (cb : Continuation)
  : B (option Meta) :=
  run* b := get in
  if closed b then
    effect (Invoke cb (CbError (Err "bridge closed"))) ;;
    ret None
  else
    let id := Packet.id preq in
    match mapOfJsonType_toBuffer (labels trace) with
    | Throw err =>
        effect (Invoke cb (CbError err)) ;;
        ret None
    | Normal lb =>
        let meta := obj_set LABELS_META lb [] in
        run* meta :=
          match deadline trace with
          | Some dl =>
              run* db := lift (dateTimeType_toBuffer dl) in
              ret (obj_set DEADLINE_META db meta)
          | None => ret meta
          end in
        modify (fun b =>
                  set_callbacks
                    (omap_set id (mkCallRecord cb true meta preq false) (_callbacks b))
                    b) ;;
        ret (Some meta)
    end.

(** The handler of the [Channel] built by the [_channel] getter. *)
Definition channel_call (trace : Trace) (preq : Packet.t Service)
    (cb : Continuation) : B unit :=
  run* meta := _track trace preq cb in
  _send preq meta false.

(** The [if]/[else] of the ['data'] listener that computes [serverSvc]
    from the handshake [hs] of a response to a call of [clientSvc]:
    [Some serverSvc], or [None] when the listener has returned. *)
Definition server_service (hs : HandshakeResponse.t) (clientSvc : Service)
  : B (option (option Service)) :=
  let clientHash := Service.hash clientSvc in
  if is_some (HandshakeResponse.serverHash hs)
     || truthy_opt_string (HandshakeResponse.serverProtocol hs) then
    match HandshakeResponse.serverHash hs with
    | None =>
        throw (TypeError "Cannot read properties of null (reading 'toString')")
    | Some sh =>
        let serverHash := Buffer.to_binary sh in
        run* parsed :=
          catch
            (run* svc := lift (new_Service (HandshakeResponse.serverProtocol hs)) in
             ret (Some svc))
            (fun err =>
               lift (resolve data_listener_scope "destroy") ;;
               ret None) in
        match parsed with
        | None => ret None
        | Some serverSvc =>
            modify (fun b => set_serverServices
                               (<[serverHash := serverSvc]> (_serverServices b)) b) ;;
            modify (fun b => set_hashes
                               (<[clientHash := serverHash]> (_hashes b)) b) ;;
            ret (Some (Some serverSvc))
        end
    end
  else
    run* b := get in
    match _hashes b !! clientHash with
    | Some serverHash =>
        if truthy_string serverHash
        then ret (Some (_serverServices b !! serverHash))
        else ret (Some (Some clientSvc))
    | None => ret (Some (Some clientSvc))
    end.

(** The ['data'] listener installed on the decoder. *)
Definition on_data (fg : FrameGroup HandshakeResponse.t) : B unit :=
  run* b := get in
  match omap_get (id fg) (_callbacks b) with
  | None => ret tt
  | Some obj =>
      match handshake fg with
      | None => throw (TypeError "Cannot read properties of null (reading 'match')")
      | Some hs =>
          let match_ := HandshakeResponse.match_ hs in
          let clientSvc := Packet.service (preq obj) in
          run* resolved := server_service hs clientSvc in
          match resolved with
          | None => ret tt
          | Some serverSvc =>
              match match_, retried obj with
              | NONE, false =>
                  modify (fun b =>
                            set_callbacks
                              (omap_set (id fg)
                                 (mkCallRecord (cb obj) (armed obj) (meta obj) (preq obj) true)
                                 (_callbacks b))
                              b) ;;
                  _send (preq obj) (Some (meta obj)) true
              | _, _ =>
                  call_cb obj
                    (CbPacket (Packet.mk (id fg) serverSvc
                                 (body (packet fg)) (headers (packet fg))))
              end
          end
      end
  end.

(** The stream listeners kept in [_onReadableEnd], [_onReadableError],
    [_onWritableError] and [_onWritableFinish], and the error listeners of
    the encoder and the decoder. *)
Definition onReadableEnd : B unit :=
  run* b := get in
  if negb (closed b)
  then destroy (Some (Err "readable socket ended before writable"))
  else ret tt.
Definition onReadableError (err : JsError) : B unit := destroy (Some err).
Definition onWritableError (err : JsError) : B unit := destroy (Some err).
Definition onWritableFinish : B unit := close.
Definition onEncoderError (err : JsError) : B unit := destroy (Some err).
Definition onDecoderError (err : JsError) : B unit := destroy (Some err).

(** [new NettyBridge(readable, writable)]: the run of the constructor on
    the fields it has initialised.  A [Throw] result is an exception
    raised by [new]. *)
Definition new_NettyBridge (readable : Stream) (writable : Arg) : Run t Effect unit :=
  let writable :=
    match writable with
    | ArgStream w => w
    | ArgOther => readable
    end in
  (effect (Listen EncoderE "error" HEncoderError) ;;
   effect (Pipe EncoderE (StreamE writable)) ;;
   effect (Listen (StreamE writable) "finish" HWritableFinish) ;;
   (if negb (readable =? writable)%nat then
      lift (resolve constructor_scope "onWritableError") ;;
      effect (Listen (StreamE writable) "error" (HIdent "onWritableError"))
    else ret tt) ;;
   effect (Listen (StreamE readable) "error" HReadableError) ;;
   effect (Listen (StreamE readable) "end" HReadableEnd) ;;
   effect (Pipe (StreamE readable) DecoderE) ;;
   effect (Listen DecoderE "error" HDecoderError) ;;
   effect (Listen DecoderE "data" HDecoderData))
    (mk false (Some readable) (Some writable) ∅ ∅ []).

(** The first statements of [nettyRouter(readable, writable, opts, cb)]:
    the optional [writable] and the construction of the bridge. *)
Definition nettyRouter_bridge (readable : Stream) (writable : Arg) : Run t Effect unit :=
  let writable :=
    if negb (isStream writable) then ArgStream readable else writable in
  new_NettyBridge readable writable.

(** *** Notions used to state the bridge's properties *)

(** The call [id] is pending with record [obj]: it was stored under its
    own id by [_track], its trace has not fired, and the streams are
    still attached (they are released only once nothing is pending). *)
Definition pending (b : t) (id : Z) (obj : CallRecord) : Prop :=
  omap_get id (_callbacks b) = Some obj
  /\ Packet.id (preq obj) = id
  /\ armed obj = true
  /\ is_some (_readable b) = true
  /\ is_some (_writable b) = true.

(** Every record is stored under the id of its request. *)
Definition keys_match (b : t) : Prop :=
  forall (k : Z) (obj : CallRecord),
    omap_get k (_callbacks b) = Some obj -> Packet.id (preq obj) = k.

(** The server information of a handshake, if any, is usable: a hash is
    present and the protocol text parses into a service. *)
Definition handshake_accepted (hs : HandshakeResponse.t) : Prop :=
  if is_some (HandshakeResponse.serverHash hs)
     || truthy_opt_string (HandshakeResponse.serverProtocol hs)
  then is_some (HandshakeResponse.serverHash hs) = true
       /\ exists svc, new_Service (HandshakeResponse.serverProtocol hs) = Normal svc
  else True.

(** The frame groups written to the encoder for call [id]. *)
Definition is_write (id : Z) (e : Effect) : bool :=
  match e with
  | EncoderWrite w => FrameGroup.id_eqb id w
  | _ => false
  end.

Definition writes (id : Z) (es : list Effect) : nat :=
  length (List.filter (fun e => is_write id e) es).

(** The retries call [id] may still cause: one if it is pending and has
    not retried yet. *)
Definition retry_budget (id : Z) (b : t) : nat :=
  match omap_get id (_callbacks b) with
  | Some obj => if retried obj then 0 else 1
  | None => 0
  end.

(** What [_release] does to the streams [r] and [w]. *)
Definition release_effects (r w : Stream) : list Effect :=
  [Unpipe (StreamE r) DecoderE;
   Unlisten (StreamE r) "error" HReadableError;
   Unlisten (StreamE r) "end" HReadableEnd;
   Unpipe EncoderE (StreamE w);
   Unlisten (StreamE w) "error" HWritableError;
   Unlisten (StreamE w) "finish" HWritableFinish].

(** The call of a pending continuation by [destroy]. *)
Definition interrupt (obj : CallRecord) : Effect :=
  Invoke (cb obj) (CbError (Err "bridge destroyed")).

(** The server hash sent for a client service: the one recorded for its
    hash, or else its own hash. *)
Definition server_hash_for (b : t) (clientSvc : Service) : string :=
  match _hashes b !! Service.hash clientSvc with
  | Some h => if truthy_string h then h else Service.hash clientSvc
  | None => Service.hash clientSvc
  end.

(** The frame group [_send] writes for a request. *)
Definition request_frame (b : t) (preq : Packet.t Service) (meta : option Meta)
    (clientProtocol : option string) : FrameGroup HandshakeRequest.t :=
  mkFrameGroup
    (Some (HandshakeRequest.mk
             (Buffer.from_binary (Service.hash (Packet.service preq)))
             clientProtocol
             (Buffer.from_binary (server_hash_for b (Packet.service preq)))
             meta))
    (Packet.id preq)
    (new_NettyPacket (Packet.body preq) (Some (Packet.headers preq))).

End Bridge.
End Bridge.

(** ** A sample bridge *)

Module SampleBridge.

(** Protocols are named by a string; their JSON text is that name with a
    prefix. *)
Definition JSON_stringify (p : string) : string := String.append "json:" p.

Definition echo : Service.t string := Service.mk "echo-service-md5" "Echo".
Definition math : Service.t string := Service.mk "math-service-md5" "Math".

Definition new_Service (text : option string) : Completion (Service.t string) :=
  match text with
  | Some t =>
      if String.eqb t "json:Echo" then Normal echo
      else if String.eqb t "json:Math" then Normal math
      else Throw (Err "Unexpected token in JSON")
  | None => Throw (TypeError "Cannot read properties of null")
  end.

Definition mapOfJsonType_toBuffer (labels : list (string * string)) : Completion bytes :=
  Normal (Avro.writeMap (map (fun kv => (fst kv, list_byte_of_string (snd kv))) labels)).

Definition dateTimeType_toBuffer (deadline : Z) : Completion bytes :=
  Normal (Avro.writeLong deadline).

Abbreviation Bridge := (@Bridge.t string nat).
Abbreviation Effect := (@Bridge.Effect string nat).
Abbreviation channel_call :=
  (Bridge.channel_call JSON_stringify mapOfJsonType_toBuffer dateTimeType_toBuffer).
Abbreviation on_data := (Bridge.on_data JSON_stringify new_Service).
Abbreviation new_NettyBridge := (@Bridge.new_NettyBridge string nat).
Abbreviation nettyRouter_bridge := (@Bridge.nettyRouter_bridge string nat).

(** A request to the Echo service, a trace without deadline, and the
    continuation [5]. *)
Definition request : Packet.t (Service.t string) :=
  Packet.mk 1 echo [x02; x2a] [].

Definition trace : @Bridge.Trace (list (string * string)) Z :=
  Bridge.mkTrace None [].

(** A bridge over the streams [0] and [1], open, with nothing pending. *)
Definition fresh : Bridge := Bridge.mk false (Some 0%nat) (Some 1%nat) ∅ ∅ [].

(** The same bridge once closed. *)
Definition closed_bridge : Bridge := Bridge.mk true (Some 0%nat) (Some 1%nat) ∅ ∅ [].

(** The bridge after [request] has been issued with continuation [5]. *)
Definition calling : Bridge :=
  state (channel_call trace request 5%nat fresh).

(** A response to call [1] announcing a server hash with a protocol text
    that is not JSON. *)
Definition bad_protocol_response : FrameGroup HandshakeResponse.t :=
  mkFrameGroup
    (Some (HandshakeResponse.mk BOTH (Some "not json"%string)
             (Some (Buffer.from_binary "math-service-md5")) None))
    1 (new_NettyPacket [x00; x2a] None).

(** A response to call [1] reporting that the handshake did not match. *)
Definition none_response : FrameGroup HandshakeResponse.t :=
  mkFrameGroup (Some (HandshakeResponse.mk NONE None None None))
    1 (new_NettyPacket [x01; x00] None).

(** A response to call [1] reporting that the handshake did not match,
    with the server's hash and a protocol text that is not JSON. *)
Definition unparsable_none_response : FrameGroup HandshakeResponse.t :=
  mkFrameGroup
    (Some (HandshakeResponse.mk NONE (Some "not json"%string)
             (Some (Buffer.from_binary "math-service-md5")) None))
    1 (new_NettyPacket [x01; x00] None).

End SampleBridge.

(** ** Sample calls *)

Module SampleCalls.
Import SampleBridge.

(** A second request, to the Math service. *)
Definition request2 : Packet.t (Service.t string) :=
  Packet.mk 2 math [x04] [].

(** The records [_track] stores for [request] and [request2], issued with
    the continuations [5] and [6]. *)
Definition record1 : @Bridge.CallRecord string nat :=
  Bridge.mkCallRecord 5%nat true [(LABELS_META, [x00])] request false.

Definition record2 : @Bridge.CallRecord string nat :=
  Bridge.mkCallRecord 6%nat true [(LABELS_META, [x00])] request2 false.

(** The bridge with both calls pending; the same once [close] has been
    called; and the closed bridge with the first call only. *)
Definition two_calls : Bridge :=
  Bridge.mk false (Some 0%nat) (Some 1%nat) ∅ ∅ [(1, record1); (2, record2)].

Definition closing : Bridge :=
  Bridge.mk true (Some 0%nat) (Some 1%nat) ∅ ∅ [(1, record1)].

(** A trace with a deadline. *)
Definition timed : @Bridge.Trace (list (string * string)) Z :=
  Bridge.mkTrace (Some 1000) [].

(** Responses to call [1]: one that matches and carries the server's
    hash and protocol, one that does not match and carries them, one
    that matches and carries nothing, and one with a protocol and no
    hash. *)
Definition server_hash : bytes := Buffer.from_binary "echo-server-hash".

Definition both_response : FrameGroup HandshakeResponse.t :=
  mkFrameGroup
    (Some (HandshakeResponse.mk BOTH (Some "json:Echo"%string) (Some server_hash) None))
    1 (new_NettyPacket [x00; x2a] None).

Definition none_with_server : FrameGroup HandshakeResponse.t :=
  mkFrameGroup
    (Some (HandshakeResponse.mk NONE (Some "json:Echo"%string) (Some server_hash) None))
    1 (new_NettyPacket [x01; x00] None).

Definition plain_response : FrameGroup HandshakeResponse.t :=
  mkFrameGroup (Some (HandshakeResponse.mk BOTH None None None))
    1 (new_NettyPacket [x00; x2a] None).

Definition hashless_response : FrameGroup HandshakeResponse.t :=
  mkFrameGroup
    (Some (HandshakeResponse.mk BOTH (Some "json:Echo"%string) None None))
    1 (new_NettyPacket [x00; x2a] None).

(** Encoders of trace labels and of deadlines that reject their input. *)
Definition no_labels_toBuffer (labels : list (string * string)) : Completion bytes :=
  Throw (Err "invalid labels").

Definition no_deadline_toBuffer (deadline : Z) : Completion bytes :=
  Throw (Err "invalid deadline").

End SampleCalls.

(** ** NettyGateway *)

(** [arr.size] on an Array: arrays have a [length], and no [size]
    property, so the access yields [undefined].  ([router.services] is
    iterated with [for ... of] and indexed as [serverSvcs[0]].) *)
Definition array_size {A} (arr : list A) : option Z := None.

(** A listener that may [return] early: [None] once it has returned. *)
Notation "'go*' x ':=' m 'in' k" :=
  (bind m (fun o => match o with
                    | Some x => k
                    | None => ret None
                    end))
  (at level 10, x pattern, m at level 200, k at level 200).

Module Gateway.
Section Gateway.

Context {Json Labels Deadline ChanErr : Type}.

Abbreviation Service := (Service.t Json).

(** [JSON.stringify(ptcls)] on the array of the services' protocols. *)
Variable JSON_stringify_all : list Json -> string.
Variable new_Service : option string -> Completion Service.
Variable dateTimeType_fromBuffer : bytes -> Completion Deadline.
Variable mapOfJsonType_fromBuffer : bytes -> Completion Labels.
Variable stringType_toBuffer : string -> bytes.

(** [new Trace(deadline)]: its [active] flag and its initial labels;
    [Object.assign(trace.labels, labels)]. *)
Variable trace_active : option Deadline -> bool.
Variable no_labels : Labels.
Variable labels_assign : Labels -> Labels -> Labels.

(** [discoveryService.hash]. *)
Variable discovery_hash : string.

(** The router: [router.services] and [router.service(clientSvc)]. *)
Variable router_services : list Service.
Variable router_service : Service -> option Service.

(** A [SystemError]: its code and, when it wraps one, its cause. *)
Inductive SystemError : Type :=
| mkSystemError (code : string) (cause : option ChanErr).

(** [SystemError.orCode(code, err)]. *)
Variable SystemError_orCode : string -> ChanErr -> SystemError.
Variable systemErrorType_toBuffer : SystemError -> Completion bytes.

Record Trace : Type := mkTrace {
  deadline : option Deadline;
  labels : Labels
}.

Inductive Effect : Type :=
| EncoderWrite (obj : FrameGroup HandshakeResponse.t)
| RouterCall (trace : option Trace) (preq : Packet.t (option Service))
             (hres : option HandshakeResponse.t)
| RouterEmit (event : string) (err : JsError)
| Detach (readable writable : Stream).

(** The gateway's cache and the variables of one [accept] call. *)
Record t : Type := mk {
  _clientServices : gmap string Service;
  clientSvc : option Service;
  readable : option Stream;
  writable : option Stream
}.

Abbreviation G := (M t Effect).

Definition set_clientServices (m : gmap string Service) (g : t) : t :=
  mk m (clientSvc g) (readable g) (writable g).
Definition set_clientSvc (c : option Service) (g : t) : t :=
  mk (_clientServices g) c (readable g) (writable g).
Definition set_streams (r w : option Stream) (g : t) : t :=
  mk (_clientServices g) (clientSvc g) r w.

(** [new NettyGateway(router)]: the cache holds the router's services. *)
Definition new_clientServices : gmap string Service :=
  fold_left (fun m svc => <[Service.hash svc := svc]> m) router_services ∅.

(** [NettyPacket.forSystemError(err, headers)]. *)
Definition forSystemError (err : SystemError) (headers : option Headers)
  : Completion NettyPacket :=
  let* buf := systemErrorType_toBuffer err in
  let body := Buffer.concat [[x01; x00]; buf] in
  Normal (new_NettyPacket body headers).

(** The local function [close] of [accept]: it unpipes and removes the
    listeners ([Detach]) and forgets the streams. *)
Definition close : G unit :=
  run* g := get in
  match readable g, writable g with
  | Some r, Some w =>
      effect (Detach r w) ;;
      modify (set_streams None None)
  | Some r, None =>
      throw (TypeError "Cannot read properties of null (reading 'removeListener')")
  | None, _ => ret tt
  end.

Definition onReadableError (err : JsError) : G unit :=
  close ;;
  effect (RouterEmit "error" err).

(** [readable.emit('error', err)], which runs [onReadableError]. *)
Definition readable_emit_error (err : JsError) : G unit :=
  run* g := get in
  match readable g with
  | None => throw (TypeError "Cannot read properties of null (reading 'emit')")
  | Some _ => onReadableError err
  end.

(** The ['data'] listener installed on the decoder by [accept]. *)
Definition on_data (fg : FrameGroup HandshakeRequest.t) : G unit :=
  run* g := get in
  let id := id fg in
  if negb (is_some (handshake fg)) && negb (is_some (clientSvc g)) then
    readable_emit_error (Err "expected handshake")
  else
    run* _ :=
      (go* (hres, trace) :=
         match handshake fg with
         | None => ret (Some (None, None))
         | Some hreq =>
             let hres := HandshakeResponse.mk BOTH None None None in
             let deadlineBuf :=
               match HandshakeRequest.meta hreq with
               | Some m => obj_get DEADLINE_META m
               | None => None
               end in
             go* deadline :=
               match deadlineBuf with
               | Some buf =>
                   catch (run* dl := lift (dateTimeType_fromBuffer buf) in
                          ret (Some (Some dl)))
                         (fun err => readable_emit_error err ;; ret None)
               | None => ret (Some None)
               end in
             let trace := mkTrace deadline no_labels in
             if negb (trace_active deadline) then ret None
             else
               let metaLabels :=
                 match HandshakeRequest.meta hreq with
                 | Some m => obj_get LABELS_META m
                 | None => None
                 end in
               go* trace :=
                 match metaLabels with
                 | Some buf =>
                     catch (run* l := lift (mapOfJsonType_fromBuffer buf) in
                            ret (Some (mkTrace deadline (labels_assign (labels trace) l))))
                           (fun err => readable_emit_error err ;; ret None)
                 | None => ret (Some trace)
                 end in
               let clientHash := Buffer.to_binary (HandshakeRequest.clientHash hreq) in
               if String.eqb clientHash discovery_hash then
                 let ptcls := map Service.protocol router_services in
                 let str := JSON_stringify_all ptcls in
                 let headers := [(PROTOCOLS_HEADER, stringType_toBuffer str)] in
                 let packet := new_NettyPacket [x00] (Some headers) in
                 effect (EncoderWrite (mkFrameGroup (Some hres) id packet)) ;;
                 ret None
               else
                 run* g := get in
                 modify (set_clientSvc (_clientServices g !! clientHash)) ;;
                 go* svc :=
                   match _clientServices g !! clientHash with
                   | Some svc => ret (Some svc)
                   | None =>
                       if negb (truthy_opt_string (HandshakeRequest.clientProtocol hreq)) then
                         let err := mkSystemError "ERR_AVRO_UNKNOWN_CLIENT_PROTOCOL" None in
                         let hres := HandshakeResponse.mk NONE None None None in
                         let serverSvcs := router_services in
                         run* hres :=
                           match array_size serverSvcs with
                           | Some 1 =>
                               match serverSvcs with
                               | svc0 :: _ =>
                                   (* [serverSvc] is declared further down
                                      the enclosing block. *)
                                   throw (ReferenceError "serverSvc")
                               | [] =>
                                   throw (TypeError "Cannot read properties of undefined (reading 'protocol')")
                               end
                           | _ => ret hres
                           end in
                         run* packet := lift (forSystemError err None) in
                         effect (EncoderWrite (mkFrameGroup (Some hres) id packet)) ;;
                         ret None
                       else
                         go* svc :=
                           catch (run* svc := lift (new_Service (HandshakeRequest.clientProtocol hreq)) in
                                  ret (Some svc))
                                 (fun err => readable_emit_error err ;; ret None) in
                         modify (set_clientSvc (Some svc)) ;;
                         modify (fun g => set_clientServices
                                            (<[clientHash := svc]> (_clientServices g)) g) ;;
                         ret (Some svc)
                   end in
                 match router_service svc with
                 | None =>
                     (* [hres.match = 'CLIENT'], then [serverSvc.protocol]. *)
                     throw (TypeError "Cannot read properties of undefined (reading 'protocol')")
                 | Some serverSvc => ret (Some (Some hres, Some trace))
                 end
         end in
       run* g := get in
       let preq := Packet.mk id (clientSvc g) (body (packet fg)) (headers (packet fg)) in
       effect (RouterCall trace preq hres) ;;
       ret (Some tt)) in
    ret tt.

(** The continuation handed to [router.channel.call] for packet [id]. *)
Definition respond (hres : option HandshakeResponse.t) (id : Z)
    (err : option ChanErr) (pres : option (Packet.t (option Service))) : G unit :=
  run* g := get in
  match writable g with
  | None => ret tt
  | Some _ =>
      match err with
      | Some e =>
          let err := SystemError_orCode "ERR_AVRO_CHANNEL_FAILURE" e in
          let headers := option_map Packet.headers pres in
          run* packet := lift (forSystemError err headers) in
          effect (EncoderWrite (mkFrameGroup hres id packet)) ;;
          close
      | None =>
          match pres with
          | None => throw (TypeError "Cannot read properties of undefined (reading 'body')")
          | Some pres =>
              let packet := new_NettyPacket (Packet.body pres) (Some (Packet.headers pres)) in
              effect (EncoderWrite (mkFrameGroup hres id packet))
          end
      end
  end.

(** The other listeners [accept] installs: on the streams, and the
    ['error'] listeners of the decoder and of the encoder. *)
Definition onReadableEnd : G unit := close.
Definition onWritableError (err : JsError) : G unit :=
  close ;;
  effect (RouterEmit "error" err).
Definition onWritableFinish : G unit := close.
Definition onDecoderError (err : JsError) : G unit := effect (RouterEmit "error" err).
Definition onEncoderError (err : JsError) : G unit := effect (RouterEmit "error" err).

(** *** Notions used to state the gateway's properties *)

(** The trace [accept] builds from the [meta] of a request handshake: the
    deadline and the labels, when present, decode, and the trace is
    active. *)
Definition request_trace (hreq : HandshakeRequest.t) (trace : Trace) : Prop :=
  let lookup k :=
    match HandshakeRequest.meta hreq with
    | Some m => obj_get k m
    | None => None
    end in
  match lookup DEADLINE_META with
  | Some buf =>
      exists d, dateTimeType_fromBuffer buf = Normal d /\ deadline trace = Some d
  | None => deadline trace = None
  end
  /\ trace_active (deadline trace) = true
  /\ match lookup LABELS_META with
     | Some buf =>
         exists l, mapOfJsonType_fromBuffer buf = Normal l
                   /\ labels trace = labels_assign no_labels l
     | None => labels trace = no_labels
     end.

End Gateway.
End Gateway.

(** ** A sample gateway *)

Module SampleGateway.

Definition JSON_stringify_all (ps : list string) : string :=
  String.concat "," (map SampleBridge.JSON_stringify ps).

Definition dateTimeType_fromBuffer (buf : bytes) : Completion Z :=
  match Avro.readLong buf with
  | Avro.ROk d _ => Normal d
  | _ => Throw (Err "invalid date-time")
  end.

Definition mapOfJsonType_fromBuffer (buf : bytes)
  : Completion (list (string * string)) :=
  match Avro.readMap buf with
  | Avro.ROk m _ => Normal (map (fun kv => (fst kv, string_of_list_byte (snd kv))) m)
  | _ => Throw (Err "invalid labels")
  end.

(** A trace is active when it has no deadline or a deadline after time 0. *)
Definition trace_active (deadline : option Z) : bool :=
  match deadline with
  | Some d => 0 <? d
  | None => true
  end.

Definition discovery_hash : string := "avro-netty-disco".

(** The router serves the Echo service only. *)
Definition router_services : list (Service.t string) := [SampleBridge.echo].

Definition router_service (clientSvc : Service.t string) : option (Service.t string) :=
  if String.eqb (Service.hash clientSvc) (Service.hash SampleBridge.echo)
  then Some SampleBridge.echo
  else None.

Definition SystemError_orCode (code : string) (err : string)
  : @Gateway.SystemError string :=
  Gateway.mkSystemError code (Some err).

Definition systemErrorType_toBuffer (err : @Gateway.SystemError string)
  : Completion bytes :=
  match err with
  | Gateway.mkSystemError code _ => Normal (Avro.writeString code)
  end.

Abbreviation Gateway := (@Gateway.t string).
Abbreviation on_data :=
  (Gateway.on_data JSON_stringify_all SampleBridge.new_Service
     dateTimeType_fromBuffer mapOfJsonType_fromBuffer Avro.writeString
     trace_active [] (@app (string * string)) discovery_hash
     router_services router_service systemErrorType_toBuffer).

(** The state of a connection just accepted over the stream [0]. *)
Definition accepted : Gateway :=
  Gateway.mk (Gateway.new_clientServices router_services) None (Some 0%nat) (Some 0%nat).

(** A request of a client whose hash the gateway has never seen, without
    client protocol. *)
Definition unknown_request : FrameGroup HandshakeRequest.t :=
  mkFrameGroup
    (Some (HandshakeRequest.mk (Buffer.from_binary "math-service-md5") None
             (Buffer.from_binary "math-service-md5") None))
    1 (new_NettyPacket [x02; x2a] None).

(** The same request, with the client protocol attached. *)
Definition math_request : FrameGroup HandshakeRequest.t :=
  mkFrameGroup
    (Some (HandshakeRequest.mk (Buffer.from_binary "math-service-md5")
             (Some "json:Math"%string)
             (Buffer.from_binary "math-service-md5") None))
    1 (new_NettyPacket [x02; x2a] None).

End SampleGateway.

(** ** Sample requests *)

Module SampleRequests.
Import SampleGateway.

Definition echo_hash : bytes := Buffer.from_binary "echo-service-md5".

(** Requests to the Echo service: without meta; with a deadline and a
    label; past its deadline; with a deadline and with labels that do not
    decode. *)
Definition request_with (meta : option Meta) : FrameGroup HandshakeRequest.t :=
  mkFrameGroup (Some (HandshakeRequest.mk echo_hash None echo_hash meta))
    3 (new_NettyPacket [x02; x2a] None).

Definition known_request : FrameGroup HandshakeRequest.t := request_with None.

Definition traced_request : FrameGroup HandshakeRequest.t :=
  request_with (Some [(LABELS_META, [x02; x02; x6b; x02; x76; x00]);
                      (DEADLINE_META, [xd0; x0f])]).

Definition late_request : FrameGroup HandshakeRequest.t :=
  request_with (Some [(DEADLINE_META, [x01])]).

Definition bad_deadline_request : FrameGroup HandshakeRequest.t :=
  request_with (Some [(DEADLINE_META, [])]).

Definition bad_labels_request : FrameGroup HandshakeRequest.t :=
  request_with (Some [(LABELS_META, [x02])]).

(** Requests of a client whose hash the gateway does not know, with the
    Echo protocol attached, and with a text that is not a protocol. *)
Definition other_hash : bytes := Buffer.from_binary "echo-other--hash".

Definition new_client_request : FrameGroup HandshakeRequest.t :=
  mkFrameGroup
    (Some (HandshakeRequest.mk other_hash (Some "json:Echo"%string) other_hash None))
    3 (new_NettyPacket [x02; x2a] None).

Definition bad_protocol_request : FrameGroup HandshakeRequest.t :=
  mkFrameGroup
    (Some (HandshakeRequest.mk other_hash (Some "not json"%string) other_hash None))
    3 (new_NettyPacket [x02; x2a] None).

(** The next request of that client, without protocol; a request without
    handshake; and a discovery request. *)
Definition next_request : FrameGroup HandshakeRequest.t :=
  mkFrameGroup (Some (HandshakeRequest.mk other_hash None other_hash None))
    4 (new_NettyPacket [x04] None).

Definition bare_request : FrameGroup HandshakeRequest.t :=
  mkFrameGroup None 4 (new_NettyPacket [x04] None).

Definition discovery_request : FrameGroup HandshakeRequest.t :=
  mkFrameGroup
    (Some (HandshakeRequest.mk (Buffer.from_binary discovery_hash) None
             (Buffer.from_binary discovery_hash) None))
    1 (new_NettyPacket [x00] None).

Abbreviation Trace := (@Gateway.Trace (list (string * string)) Z).
Abbreviation respond :=
  (Gateway.respond (Json := string) (Labels := list (string * string)) (Deadline := Z)
     SystemError_orCode systemErrorType_toBuffer).

(** A response of the router, with one header. *)
Definition router_response : Packet.t (option (Service.t string)) :=
  Packet.mk 3 (Some SampleBridge.echo) [x00; x2a] [("h"%string, [xff])].

End SampleRequests.

(** ** nettyRouter: discovering the remote services *)

Module Discovery.
Section Discovery.

Context {Json : Type}.

Abbreviation Service := (Service.t Json).

(** [utils.stringType.fromBuffer(header)]; [JSON.parse(text)], iterated
    by [for ... of] (a value that cannot be iterated raises); and
    [new Service(ptcl)]. *)
Variable stringType_fromBuffer : bytes -> Completion string.
Variable JSON_parse : string -> Completion (list Json).
Variable new_Service : Json -> Completion Service.

(** What [onPing] does: it calls [cb(err)], or removes itself from the
    bridge's ['error'] listeners and calls
    [cb(null, new NettyRouter(svcs, bridge))].  Modelled from the spec:
    [Router] is not part of this module; the router is given by the
    services it is built over. *)
Inductive Effect : Type :=
| CbFailure (err : JsError)
| CbRouter (svcs : list Service)
| RemoveErrorListener.

(** The loop [for (const ptcl of ...) { svcs.push(new Service(ptcl)); }]. *)
Fixpoint services_of (ptcls : list Json) : Completion (list Service) :=
  match ptcls with
  | [] => Normal []
  | ptcl :: rest =>
      let* svc := new_Service ptcl in
      let* svcs := services_of rest in
      Normal (svc :: svcs)
  end.

(** [onPing(err, remoteSvc, headers)], on the variable [called]. *)
Definition onPing (err : option JsError) (remoteSvc : Service)
    (headers : option Headers) : M bool Effect unit :=
  run* called := (get : M bool Effect bool) in
  if called then ret tt
  else
    modify (fun _ => true) ;;
    match err with
    | Some e => effect (CbFailure e)
    | None =>
        match headers with
        | None =>
            throw (TypeError "Cannot read properties of undefined (reading 'avro.protocols')")
        | Some hs =>
            run* svcs :=
              match obj_get PROTOCOLS_HEADER hs with
              | None => ret (Some [remoteSvc])
              | Some header =>
                  catch
                    (run* text := lift (stringType_fromBuffer header) in
                     run* ptcls := lift (JSON_parse text) in
                     run* svcs := lift (services_of ptcls) in
                     ret (Some svcs))
                    (fun err => effect (CbFailure err) ;; ret None)
              end in
            match svcs with
            | None => ret tt
            | Some svcs =>
                effect RemoveErrorListener ;;
                effect (CbRouter svcs)
            end
        end
    end.

(** The calls of [cb] among the effects. *)
Definition is_cb (e : Effect) : bool :=
  match e with
  | CbFailure _ => true
  | CbRouter _ => true
  | RemoveErrorListener => false
  end.

Definition cb_calls (es : list Effect) : nat := length (List.filter is_cb es).

End Discovery.
End Discovery.

(** ** A sample discovery *)

Module SampleDiscovery.

Definition stringType_fromBuffer (buf : bytes) : Completion string :=
  match Avro.readString buf with
  | Avro.ROk text _ => Normal text
  | _ => Throw (Err "invalid string")
  end.

(** The texts [SampleGateway.JSON_stringify_all] writes for the sample
    services are parsed back; any other text is not JSON. *)
Definition JSON_parse (text : string) : Completion (list string) :=
  if String.eqb text "json:Echo" then Normal ["Echo"%string]
  else if String.eqb text "json:Echo,json:Math" then Normal ["Echo"; "Math"]%string
  else Throw (Err "Unexpected token in JSON").

Definition new_Service (ptcl : string) : Completion (Service.t string) :=
  if String.eqb ptcl "Echo" then Normal SampleBridge.echo
  else if String.eqb ptcl "Math" then Normal SampleBridge.math
  else Throw (Err "invalid protocol").

Abbreviation onPing := (Discovery.onPing stringType_fromBuffer JSON_parse new_Service).

(** The headers of a discovery response naming the Echo and Math
    protocols, and headers whose protocols text is not JSON. *)
Definition two_protocols : Headers :=
  [(PROTOCOLS_HEADER, Avro.writeString "json:Echo,json:Math")].

Definition bad_protocols : Headers :=
  [(PROTOCOLS_HEADER, Avro.writeString "<html>")].

End SampleDiscovery.

(** ** Sample values *)

Module Sample.

(** A response carrying a handshake, one header and a two-byte body. *)
Definition response : FrameGroup HandshakeResponse.t :=
  mkFrameGroup
    (Some (HandshakeResponse.mk NONE (Some "ptcl"%string) None
             (Some [("k"%string, [x01; x02])])))
    7
    (new_NettyPacket [x00; x2a] (Some [("h"%string, [xff])])).

(** A response without handshake: no headers, a body of four zero bytes. *)
Definition bare_response : FrameGroup HandshakeResponse.t :=
  mkFrameGroup None 7 (new_NettyPacket [x00; x00; x00; x00] None).

(** A response without handshake: no headers, an empty body. *)
Definition empty_response : FrameGroup HandshakeResponse.t :=
  mkFrameGroup None 1 (new_NettyPacket [] None).

(** A frame group announcing two frames, cut inside the second one:
    header, the frame [aa], and of the frame [bb; cc] its length and its
    first byte. *)
Definition cut_input : bytes :=
  Buffer.int32_bytes 1 ++ Buffer.int32_bytes 2
  ++ Wire.frame_bytes [xaa] ++ [x00; x00; x00; x02; xbb].

(** The header of a frame group announcing one frame, and nothing else. *)
Definition header_only : bytes :=
  Buffer.int32_bytes 1 ++ Buffer.int32_bytes 1.

End Sample.

(** ** A sample stream *)

Module SampleStream.

(** A second response, to call [8]: a handshake, no headers, a one-byte
    body. *)
Definition response2 : FrameGroup HandshakeResponse.t :=
  mkFrameGroup (Some (HandshakeResponse.mk BOTH None None None)) 8
    (new_NettyPacket [x2a] None).

(** The frames of [Sample.response] and of [response2]: the handshake,
    then the payload. *)
Definition frames1 : list bytes :=
  [[x04; x02; x08; x70; x74; x63; x6c; x00; x02; x02; x02; x6b; x04; x01; x02; x00];
   [x02; x02; x68; x02; xff; x00; x00; x2a]].

Definition frames2 : list bytes := [[x00; x00; x00; x00]; [x00; x2a]].

Definition groups : list Groups.Group := [(7, frames1); (8, frames2)].

(** The two groups followed by three stray bytes, cut in three chunks:
    inside the first header, and inside the second group. *)
Definition stray : bytes := [x01; x02; x03].

Definition stream : bytes := Groups.bytes_of groups ++ stray.

Definition chunks : list bytes :=
  [firstn 5 stream; firstn 40 (skipn 5 stream); skipn 45 stream].

(** The input up to the middle of the second group. *)
Definition early_chunks : list bytes := [firstn 5 stream; firstn 40 (skipn 5 stream)].

(** The payload of [Sample.response] in one frame instead of two. *)
Definition frames1_joined : list bytes := [List.concat frames1].

End SampleStream.

(** [occurs_in needle hay]: the bytes [needle] appear, contiguous and in
    order, in [hay]. *)
Fixpoint starts_with (needle hay : bytes) : bool :=
  match needle, hay with
  | [], _ => true
  | _ :: _, [] => false
  | a :: needle', b :: hay' => Byte.eqb a b && starts_with needle' hay'
  end.

Fixpoint occurs_in (needle hay : bytes) : bool :=
  starts_with needle hay ||
  match hay with
  | [] => false
  | _ :: hay' => occurs_in needle hay'
  end.

(** * Properties *)

(** ** Buffers *)

Module BufferFacts.
Import Buffer.

Lemma byteZ_range (b : byte) : 0 <= byteZ b < 256.
Proof.
  unfold byteZ. pose proof (Byte.to_N_bounded b). lia.
Qed.

Lemma byteZ_byte_of_Z (z : Z) : byteZ (byte_of_Z z) = z mod 256.
Proof.
  unfold byteZ, byte_of_Z.
  assert (Hr : 0 <= z mod 256 < 256) by (apply Z.mod_pos_bound; lia).
  destruct (Byte.of_N (Z.to_N (z mod 256))) as [b|] eqn:E.
  - apply Byte.to_of_N in E. rewrite E. lia.
  - apply Byte.of_N_None_iff in E. lia.
Qed.

(** The four bytes of a 32-bit integer, most significant first. *)
Lemma writeInt32BE_some (n : Z) :
  - 2 ^ 31 <= n < 2 ^ 31 ->
  writeInt32BE n = Some (int32_bytes n).
Proof.
  intros Hn. unfold writeInt32BE.
  destruct (- 2 ^ 31 <=? n) eqn:E1; [|lia].
  destruct (n <? 2 ^ 31) eqn:E2; [reflexivity|lia].
Qed.

Lemma writeInt32BE_length (n : Z) (b : bytes) :
  writeInt32BE n = Some b -> length b = 4%nat.
Proof.
  unfold writeInt32BE. destruct (_ && _); [|discriminate].
  intros [= <-]. reflexivity.
Qed.

Lemma int32_decompose (n : Z) :
  - 2 ^ 31 <= n < 2 ^ 31 ->
  to_int32 ((n / 2 ^ 24) mod 256 * 2 ^ 24 + (n / 2 ^ 16) mod 256 * 2 ^ 16
            + (n / 2 ^ 8) mod 256 * 2 ^ 8 + n mod 256) = n.
Proof.
  intros Hn. unfold to_int32.
  change (2 ^ 24) with 16777216. change (2 ^ 16) with 65536.
  change (2 ^ 8) with 256. change (2 ^ 31) with 2147483648 in *.
  change (2 ^ 32) with 4294967296.
  destruct (_ <? _) eqn:E; [apply Z.ltb_lt in E | apply Z.ltb_ge in E];
    Z.div_mod_to_equations; lia.
Qed.

(** Reading back the bytes of a 32-bit integer. *)
Lemma readInt32BE_int32_bytes (n : Z) (rest : bytes) :
  - 2 ^ 31 <= n < 2 ^ 31 ->
  readInt32BE (int32_bytes n ++ rest) 0 = Some n.
Proof.
  intros Hn. unfold readInt32BE, int32_bytes.
  change (Z.to_nat 0) with O. cbn [Z.ltb Z.compare skipn app].
  rewrite !byteZ_byte_of_Z. f_equal. apply int32_decompose. lia.
Qed.

Lemma readInt32BE_at_4 (a rest : bytes) (n : Z) :
  length a = 4%nat ->
  - 2 ^ 31 <= n < 2 ^ 31 ->
  readInt32BE (a ++ int32_bytes n ++ rest) 4 = Some n.
Proof.
  intros Ha Hn.
  destruct a as [|a0 [|a1 [|a2 [|a3 [|]]]]]; try discriminate.
  pose proof (readInt32BE_int32_bytes n rest Hn) as Hr.
  unfold readInt32BE in *. exact Hr.
Qed.

Lemma blen_app (a b : bytes) : blen (a ++ b) = blen a + blen b.
Proof. unfold blen. rewrite length_app. lia. Qed.

Lemma blen_nonneg (a : bytes) : 0 <= blen a.
Proof. unfold blen. lia. Qed.

Lemma blen_int32_bytes (n : Z) : blen (int32_bytes n) = 4.
Proof. reflexivity. Qed.

Lemma blen_nil_inv (a : bytes) : blen a = 0 -> a = [].
Proof. destruct a; [reflexivity|]. unfold blen. cbn. lia. Qed.

(** A buffer at least as long as a prefix of a longer one starts with it. *)
Lemma app_eq_split (x q a b : bytes) :
  x ++ q = a ++ b -> blen a <= blen x ->
  exists x', x = a ++ x' /\ x' ++ q = b.
Proof.
  revert x. induction a as [|c a IH]; intros x Heq Hlen.
  - exists x. split; [reflexivity|exact Heq].
  - destruct x as [|d x].
    + unfold blen in Hlen. cbn in Hlen. lia.
    + cbn in Heq. injection Heq as -> Heq.
      destruct (IH x Heq) as (x' & -> & Hq).
      { unfold blen in *. cbn in Hlen. lia. }
      exists x'. split; [reflexivity|exact Hq].
Qed.

(** A buffer shorter than a prefix of a longer one is a prefix of it. *)
Lemma app_eq_short (x q a b : bytes) :
  x ++ q = a ++ b -> blen x <= blen a ->
  exists a', a = x ++ a' /\ q = a' ++ b.
Proof.
  revert a. induction x as [|c x IH]; intros a Heq Hlen.
  - exists a. split; [reflexivity|exact Heq].
  - destruct a as [|d a].
    + unfold blen in Hlen. cbn in Hlen. lia.
    + cbn in Heq. injection Heq as -> Heq.
      destruct (IH a Heq) as (a' & -> & Hq).
      { unfold blen in *. cbn in Hlen. lia. }
      exists a'. split; [reflexivity|exact Hq].
Qed.

Lemma slice_from_app (a b : bytes) :
  slice_from (a ++ b) (blen a) = b.
Proof.
  unfold slice_from, clamp. pose proof (blen_nonneg a). pose proof (blen_nonneg b).
  rewrite blen_app.
  destruct (blen a <? 0) eqn:E; [lia|].
  rewrite Z.min_l by lia. unfold blen. rewrite Nat2Z.id.
  rewrite skipn_app, skipn_all, Nat.sub_diag. reflexivity.
Qed.

Lemma slice_from_0 (a : bytes) : slice_from a 0 = a.
Proof.
  unfold slice_from, clamp. pose proof (blen_nonneg a).
  cbn [Z.ltb Z.compare]. rewrite Z.min_l by lia. reflexivity.
Qed.

(** The body of a frame: [buf.slice(4, frameLength + 4)]. *)
Lemma slice_frame (l f rest : bytes) :
  length l = 4%nat ->
  slice (l ++ f ++ rest) 4 (blen f + 4) = f.
Proof.
  intros Hl. unfold slice, clamp.
  pose proof (blen_nonneg f). pose proof (blen_nonneg rest).
  assert (Hl4 : blen l = 4) by (unfold blen; lia).
  rewrite !blen_app, Hl4.
  cbn [Z.ltb Z.compare].
  destruct (blen f + 4 <? 0) eqn:E; [lia|].
  rewrite !Z.min_l by lia.
  replace (Z.max (blen f + 4 - 4) 0) with (blen f) by lia.
  change (Z.to_nat 4) with 4%nat. rewrite <- Hl.
  rewrite skipn_app, skipn_all, Nat.sub_diag. cbn [app].
  unfold blen. rewrite Nat2Z.id. rewrite skipn_O.
  rewrite firstn_app, firstn_all, Nat.sub_diag. cbn. apply app_nil_r.
Qed.

Lemma slice_from_frame (l f rest : bytes) :
  length l = 4%nat ->
  slice_from (l ++ f ++ rest) (blen f + 4) = rest.
Proof.
  intros Hl. rewrite app_assoc.
  replace (blen f + 4) with (blen (l ++ f)).
  - apply slice_from_app.
  - rewrite blen_app. unfold blen at 1. lia.
Qed.

End BufferFacts.

(** ** The framed decoder on well-formed input *)

Module CodecFacts.
Section CodecFacts.
Import Buffer BufferFacts Wire Codec.

Context {H : Type}.
Variable handshakeType : TypeCodec H.
Variable mapOfBytesType : TypeCodec Headers.

Abbreviation read_frames := (@Codec.read_frames).
Abbreviation transform_loop := (Codec.transform_loop handshakeType mapOfBytesType).
Abbreviation decoder_transform := (Codec.decoder_transform handshakeType mapOfBytesType).
Abbreviation decoder_write_all := (Codec.decoder_write_all handshakeType mapOfBytesType).
Abbreviation decoder_end := (Codec.decoder_end handshakeType mapOfBytesType).
Abbreviation _decode := (Codec._decode handshakeType mapOfBytesType).
Abbreviation decode_with := (Codec.decode_with handshakeType mapOfBytesType).

Lemma frames_bytes_cons (f : bytes) (fs : list bytes) :
  frames_bytes (f :: fs) = int32_bytes (blen f) ++ f ++ frames_bytes fs.
Proof.
  unfold frames_bytes, frame_bytes. cbn [map List.concat].
  rewrite <- app_assoc. reflexivity.
Qed.

Lemma blen_frame_bytes (f : bytes) : blen (frame_bytes f) = 4 + blen f.
Proof. unfold frame_bytes. rewrite blen_app. reflexivity. Qed.

(** The frame loop stops at a frame count of zero. *)
Lemma read_frames_zero (fuel : nat) (bufs : list bytes) (buf : bytes) :
  read_frames fuel 0 bufs buf = Some (0, bufs, buf).
Proof. destruct fuel; reflexivity. Qed.

(** The frame loop takes a frame that is wholly in the buffer. *)
Lemma read_frames_take (fuel : nat) (n : Z) (bufs : list bytes) (f rest : bytes) :
  n <> 0 -> blen f < 2 ^ 31 ->
  read_frames (S fuel) n bufs (int32_bytes (blen f) ++ f ++ rest)
  = read_frames fuel (n - 1) (bufs ++ [f]) rest.
Proof.
  intros Hn Hf. pose proof (blen_nonneg f). pose proof (blen_nonneg rest).
  cbn [Codec.read_frames].
  rewrite readInt32BE_int32_bytes by lia.
  rewrite slice_frame, slice_from_frame by reflexivity.
  rewrite !blen_app, blen_int32_bytes.
  destruct (n =? 0) eqn:E0; [lia|].
  destruct (4 <=? 4 + (blen f + blen rest)) eqn:E1; [|lia].
  destruct (blen f + 4 <=? 4 + (blen f + blen rest)) eqn:E2; [|lia].
  reflexivity.
Qed.

(** The frame loop waits for a frame that is not wholly in the buffer. *)
Lemma read_frames_wait (fuel : nat) (n : Z) (bufs : list bytes) (f x q : bytes) :
  blen f < 2 ^ 31 ->
  x ++ q = int32_bytes (blen f) ++ f ->
  blen x < 4 + blen f ->
  read_frames fuel n bufs x = Some (n, bufs, x).
Proof.
  intros Hf Hx Hlen. pose proof (blen_nonneg f).
  assert (Hgo : negb (n =? 0) && (4 <=? blen x) &&
                match readInt32BE x 0 with
                | Some frameLength => frameLength + 4 <=? blen x
                | None => false
                end = false).
  { destruct (4 <=? blen x) eqn:E4;
      [|rewrite andb_false_r; reflexivity].
    apply Z.leb_le in E4.
    destruct (app_eq_split x q (int32_bytes (blen f)) f Hx) as (x' & -> & _).
    { rewrite blen_int32_bytes. lia. }
    rewrite readInt32BE_int32_bytes by lia.
    destruct (blen f + 4 <=? _) eqn:E; [lia|]. apply andb_false_r. }
  destruct fuel; cbn [Codec.read_frames]; rewrite Hgo; reflexivity.
Qed.

(** All the frames of [todo] are in the buffer: the loop reads them. *)
Lemma read_frames_complete (todo : list bytes) :
  forall (done : list bytes) (extra : bytes) (fuel : nat),
  frames_fit todo -> (length todo <= fuel)%nat ->
  read_frames fuel (Z.of_nat (length todo)) done (frames_bytes todo ++ extra)
  = Some (0, done ++ todo, extra).
Proof.
  induction todo as [|f todo IH]; intros done extra fuel Hfit Hfuel.
  - cbn [length Z.of_nat]. rewrite read_frames_zero, app_nil_r. reflexivity.
  - inversion Hfit as [|? ? Hf Hfit']; subst.
    destruct fuel as [|fuel]; [cbn in Hfuel; lia|].
    rewrite frames_bytes_cons, <- !app_assoc.
    rewrite read_frames_take by (cbn [length]; lia).
    replace (Z.of_nat (length (f :: todo)) - 1) with (Z.of_nat (length todo))
      by (cbn [length]; lia).
    rewrite IH by (auto; cbn in Hfuel; lia).
    rewrite <- app_assoc. reflexivity.
Qed.

(** Part of the frames of [todo] is still to come: the loop reads the
    frames that are whole and waits inside the next one. *)
Lemma read_frames_partial (todo : list bytes) :
  forall (done : list bytes) (x q : bytes) (fuel : nat),
  frames_fit todo -> (length todo <= fuel)%nat ->
  x ++ q = frames_bytes todo -> q <> [] ->
  exists done' f todo' x',
    read_frames fuel (Z.of_nat (length todo)) done x
    = Some (Z.of_nat (length (f :: todo')), done ++ done', x')
    /\ todo = done' ++ f :: todo'
    /\ x' ++ q = frames_bytes (f :: todo')
    /\ blen x' < blen (frame_bytes f).
Proof.
  induction todo as [|f todo IH]; intros done x q fuel Hfit Hfuel Hx Hq.
  - exfalso. cbn in Hx. destruct x, q; try discriminate. congruence.
  - inversion Hfit as [|? ? Hf Hfit']; subst.
    rewrite frames_bytes_cons in Hx.
    destruct (Z_lt_le_dec (blen x) (4 + blen f)) as [Hshort|Hlong].
    + exists [], f, todo, x. rewrite app_nil_r, frames_bytes_cons.
      rewrite blen_frame_bytes. repeat split; auto.
      rewrite !app_assoc in Hx.
      destruct (app_eq_short x q (int32_bytes (blen f) ++ f) (frames_bytes todo))
        as (a' & Ha & _).
      { rewrite <- app_assoc. exact Hx. }
      { rewrite blen_app, blen_int32_bytes. lia. }
      eapply read_frames_wait with (q := a'); eauto.
    + rewrite !app_assoc in Hx.
      destruct (app_eq_split x q (int32_bytes (blen f) ++ f) (frames_bytes todo))
        as (x1 & -> & Hx1).
      { exact Hx. }
      { rewrite blen_app, blen_int32_bytes. lia. }
      destruct fuel as [|fuel]; [cbn in Hfuel; lia|].
      rewrite <- !app_assoc.
      rewrite read_frames_take by (cbn [length]; lia).
      replace (Z.of_nat (length (f :: todo)) - 1) with (Z.of_nat (length todo))
        by (cbn [length]; lia).
      destruct (IH (done ++ [f]) x1 q fuel) as (done' & g & todo' & x' & Hr & Ht & Hx' & Hb);
        auto; [cbn in Hfuel; lia|].
      exists (f :: done'), g, todo', x'.
      rewrite Hr, <- app_assoc. cbn [app]. subst todo. repeat split; auto.
Qed.

(** *** One frame group followed by more bytes *)

Section OneGroup.

Variables (idv : Z) (fs : list bytes) (rest : bytes) (e : bool).

Hypothesis id_fits : - 2 ^ 31 <= idv < 2 ^ 31.
Hypothesis count_fits : Z.of_nat (length fs) < 2 ^ 31.
Hypothesis fs_fit : frames_fit fs.

Abbreviation Phase := (Progress.Phase idv fs rest e).

(** What a [_transform] call yields when it reaches the end of the group
    with [extra] behind it, from a state whose buffer was [stale]: the
    decoded object, or the error of [_decode]. *)
Abbreviation at_group_end stale extra pushed :=
  (match _decode e idv (Buffer.concat fs) with
   | Normal (e', obj) =>
       mkTransformed (mkDecoder e' None 0 extra []) (pushed ++ [obj]) None
   | Throw err =>
       mkTransformed (mkDecoder e (Some idv) 0 stale fs) pushed (Some err)
   end).

Lemma frames_fit_app_r (done todo : list bytes) :
  frames_fit (done ++ todo) -> frames_fit todo.
Proof. unfold frames_fit. rewrite Forall_app. tauto. Qed.

Lemma blen_group_bytes : 8 <= blen (group_bytes idv fs).
Proof.
  unfold group_bytes. rewrite !blen_app, !blen_int32_bytes.
  pose proof (blen_nonneg (frames_bytes fs)). lia.
Qed.

(** Inside the frames, with part of them still to come. *)
Lemma loop_frames_wait (e' : bool) (s : Decoder) (x q' : bytes) (todo : list bytes)
    (fuel : nat) (pushed : list (FrameGroup H)) :
  _id s = Some idv ->
  _frameCount s = Z.of_nat (length todo) ->
  _bufs s ++ todo = fs ->
  _expectHandshake s = e ->
  x ++ q' = frames_bytes todo ->
  q' <> [] ->
  (length todo + 1 <= fuel)%nat ->
  exists s',
    transform_loop fuel s x pushed = Some (mkTransformed s' pushed None)
    /\ Phase e' false (q' ++ rest) s'.
Proof using id_fits count_fits fs_fit.
  intros Hid Hcount Hbufs He Hx Hq' Hfuel.
  assert (Hfit : frames_fit todo).
  { apply (frames_fit_app_r (_bufs s)). rewrite Hbufs. exact fs_fit. }
  destruct fuel as [|fuel]; [lia|].
  cbn [Codec.transform_loop]. rewrite Hid, Hcount.
  destruct (read_frames_partial todo (_bufs s) x q' fuel)
    as (done' & f & todo' & x' & Hr & Ht & Hx' & Hb); auto; [lia|].
  rewrite Hr.
  replace (Z.of_nat (length (f :: todo')) =? 0) with false
    by (symmetry; apply Z.eqb_neq; cbn [length]; lia).
  cbn [negb].
  eexists. split; [reflexivity|].
  eapply Progress.PFrames with (q' := q') (f := f) (todo := todo'); cbn; auto.
  rewrite <- app_assoc, <- Ht. exact Hbufs.
Qed.

(** Inside the frames, with all of them in the buffer. *)
Lemma loop_frames_end (s : Decoder) (extra : bytes) (todo : list bytes)
    (fuel : nat) (pushed : list (FrameGroup H)) :
  _id s = Some idv ->
  _frameCount s = Z.of_nat (length todo) ->
  _bufs s ++ todo = fs ->
  _expectHandshake s = e ->
  blen extra < 8 ->
  (length todo + 2 <= fuel)%nat ->
  transform_loop fuel s (frames_bytes todo ++ extra) pushed
  = Some (at_group_end (_buf s) extra pushed).
Proof using id_fits count_fits fs_fit.
  intros Hid Hcount Hbufs He Hextra Hfuel.
  assert (Hfit : frames_fit todo).
  { apply (frames_fit_app_r (_bufs s)). rewrite Hbufs. exact fs_fit. }
  destruct fuel as [|fuel]; [lia|].
  cbn [Codec.transform_loop]. rewrite Hid, Hcount.
  rewrite read_frames_complete by (auto; lia).
  cbn [Z.eqb negb]. rewrite Hbufs, He.
  destruct (_decode e idv (Buffer.concat fs)) as [[e' obj]|err]; [|reflexivity].
  destruct fuel as [|fuel]; [lia|].
  cbn [Codec.transform_loop Codec._id].
  destruct (blen extra <? 8) eqn:E8; [reflexivity|lia].
Qed.

(** The header is in the buffer: the loop goes on inside the frames. *)
Lemma loop_header (s : Decoder) (x2 : bytes) (fuel : nat)
    (pushed : list (FrameGroup H)) :
  _id s = None ->
  transform_loop (S fuel) s
    (int32_bytes idv ++ int32_bytes (Z.of_nat (length fs)) ++ x2) pushed
  = transform_loop (S fuel)
      (mkDecoder (_expectHandshake s) (Some idv) (Z.of_nat (length fs)) (_buf s) (_bufs s))
      x2 pushed.
Proof using id_fits count_fits.
  intros Hid.
  cbn [Codec.transform_loop Codec._id Codec._frameCount
         Codec._expectHandshake Codec._buf Codec._bufs].
  rewrite Hid.
  destruct (blen (int32_bytes idv ++ int32_bytes (Z.of_nat (length fs)) ++ x2) <? 8)
    eqn:E8.
  { rewrite !blen_app, !blen_int32_bytes in E8. pose proof (blen_nonneg x2). lia. }
  rewrite readInt32BE_int32_bytes by lia.
  rewrite readInt32BE_at_4 by (auto; lia).
  replace (slice_from (int32_bytes idv ++ int32_bytes (Z.of_nat (length fs)) ++ x2) 8)
    with x2; [reflexivity|].
  rewrite app_assoc.
  change 8 with (blen (int32_bytes idv ++ int32_bytes (Z.of_nat (length fs)))).
  symmetry. apply slice_from_app.
Qed.

(** A chunk that does not reach the end of the group: nothing is pushed. *)
Lemma transform_wait (e' : bool) (c q' : bytes) (s : Decoder) (fuel : nat) :
  Phase e' false (c ++ q' ++ rest) s ->
  q' <> [] ->
  (length fs + 2 <= fuel)%nat ->
  exists s',
    decoder_transform fuel s c = Some (mkTransformed s' [] None)
    /\ Phase e' false (q' ++ rest) s'.
Proof using id_fits count_fits fs_fit.
  intros HP Hq' Hfuel. unfold Codec.decoder_transform, Buffer.concat.
  cbn [List.concat]. rewrite app_nil_r.
  remember (c ++ q' ++ rest) as cq eqn:Hcq. remember false as d eqn:Hd.
  destruct HP as [cq q0 s Hq Hq0 Hid Hbufs He Hblk Hbuf
                 |cq q0 f todo s Hq Hq0 Hid Hcount Hbufs He Hblk Hbuf
                 |cq buf Hbuf]; [| |discriminate]; subst cq.
  - (* collecting the header *)
    rewrite app_assoc in Hq. apply app_inv_tail in Hq. subst q0.
    assert (Hx : (_buf s ++ c) ++ q' = group_bytes idv fs)
      by (rewrite <- app_assoc; exact Hbuf).
    destruct (Z_lt_le_dec (blen (_buf s ++ c)) 8) as [Hshort|Hlong].
    + destruct fuel as [|fuel]; [lia|].
      cbn [Codec.transform_loop]. rewrite Hid.
      destruct (blen (_buf s ++ c) <? 8) eqn:E8; [|lia].
      eexists. split; [reflexivity|].
      eapply Progress.PHeader with (q' := q'); cbn; auto.
    + unfold group_bytes in Hx.
      destruct (app_eq_split _ _ _ _ Hx) as (x1 & Hx1 & Hx1q);
        [rewrite blen_int32_bytes; lia|].
      assert (Hx1len : 4 <= blen x1).
      { rewrite Hx1, blen_app, blen_int32_bytes in Hlong. lia. }
      destruct (app_eq_split _ _ _ _ Hx1q) as (x2 & -> & Hx2q);
        [rewrite blen_int32_bytes; lia|].
      rewrite Hx1. destruct fuel as [|fuel]; [lia|].
      rewrite loop_header by exact Hid.
      apply loop_frames_wait with (todo := fs); cbn; auto; try lia.
      rewrite Hbufs. reflexivity.
  - (* inside the frames *)
    rewrite app_assoc in Hq. apply app_inv_tail in Hq. subst q0.
    apply loop_frames_wait with (todo := f :: todo); auto.
    + rewrite <- app_assoc. exact Hbuf.
    + rewrite <- Hbufs, length_app in Hfuel. lia.
Qed.

(** A chunk that reaches the end of the group, and [c2] behind it. *)
Lemma transform_end (e' : bool) (c1 c2 q : bytes) (s : Decoder) (fuel : nat) :
  Phase e' false ((c1 ++ c2) ++ q) s ->
  c2 ++ q = rest ->
  blen c2 < 8 ->
  (length fs + 2 <= fuel)%nat ->
  decoder_transform fuel s (c1 ++ c2) = Some (at_group_end (_buf s) c2 []).
Proof using id_fits count_fits fs_fit.
  intros HP Hrest Hc2 Hfuel. unfold Codec.decoder_transform, Buffer.concat.
  cbn [List.concat]. rewrite app_nil_r.
  remember ((c1 ++ c2) ++ q) as cq eqn:Hcq. remember false as d eqn:Hd.
  destruct HP as [cq q0 s Hq Hq0 Hid Hbufs He Hblk Hbuf
                 |cq q0 f todo s Hq Hq0 Hid Hcount Hbufs He Hblk Hbuf
                 |cq buf Hbuf]; [| |discriminate]; subst cq.
  - (* collecting the header *)
    rewrite <- Hrest, <- !app_assoc in Hq. rewrite !app_assoc in Hq.
    do 2 apply app_inv_tail in Hq. subst q0.
    rewrite app_assoc, Hbuf. unfold group_bytes. rewrite <- !app_assoc.
    destruct fuel as [|fuel]; [lia|].
    rewrite loop_header by exact Hid.
    rewrite (loop_frames_end _ c2 fs (S fuel) []); cbn; auto. rewrite Hbufs. reflexivity.
  - (* inside the frames *)
    rewrite <- Hrest, <- !app_assoc in Hq. rewrite !app_assoc in Hq.
    do 2 apply app_inv_tail in Hq. subst q0.
    rewrite app_assoc, Hbuf.
    apply loop_frames_end; auto.
    rewrite <- Hbufs, length_app in Hfuel. lia.
Qed.

(** Where a chunk ends: before the end of the group, or at or after it. *)
Lemma chunk_cases (e' : bool) (c q : bytes) (s : Decoder) :
  Phase e' false (c ++ q) s ->
  (exists q', q' <> [] /\ q = q' ++ rest)
  \/ (exists c1 c2, c = c1 ++ c2 /\ c2 ++ q = rest).
Proof using id_fits count_fits fs_fit.
  intros HP.
  assert (Hq : exists q0, q0 <> [] /\ c ++ q = q0 ++ rest).
  { remember (c ++ q) as cq eqn:Hcq. remember false as d eqn:Hd.
    destruct HP; try discriminate; eauto. }
  destruct Hq as (q0 & Hq0 & Hq).
  apply List.app_eq_app in Hq. destruct Hq as (l & [[Hc Hr]|[Hq1 Hq2]]).
  - right. exists q0, l. auto.
  - destruct l as [|b l]; [right|left].
    + exists c, []. rewrite app_nil_r. cbn in Hq2. subst q. auto.
    + exists (b :: l). split; [discriminate|exact Hq2].
Qed.

(** After the group: the decoder collects the bytes of [rest]. *)
Lemma transform_done (e' : bool) (c q : bytes) (s : Decoder) (fuel : nat) :
  Phase e' true (c ++ q) s ->
  blen rest < 8 ->
  (1 <= fuel)%nat ->
  exists s',
    decoder_transform fuel s c = Some (mkTransformed s' [] None)
    /\ Phase e' true q s'.
Proof using id_fits count_fits fs_fit.
  intros HP Hrest Hfuel. unfold Codec.decoder_transform, Buffer.concat.
  cbn [List.concat]. rewrite app_nil_r.
  remember (c ++ q) as cq eqn:Hcq. remember true as d eqn:Hd.
  destruct HP as [| |cq buf Hbuf]; try discriminate. subst cq.
  cbn [Codec._buf].
  assert (Hlen : blen (buf ++ c) < 8).
  { rewrite <- Hbuf, !blen_app in Hrest. rewrite blen_app.
    pose proof (blen_nonneg q). lia. }
  destruct fuel as [|fuel]; [lia|].
  cbn [Codec.transform_loop Codec._id].
  destruct (blen (buf ++ c) <? 8) eqn:E8; [|lia].
  eexists. split; [reflexivity|].
  cbn. apply Progress.PDone. rewrite <- app_assoc. exact Hbuf.
Qed.

Lemma write_all_done (chunks : list bytes) :
  forall (e' : bool) (q : bytes) (s : Decoder) (fuel : nat) (acc : list (FrameGroup H)),
  Phase e' true (List.concat chunks ++ q) s ->
  blen rest < 8 ->
  (1 <= fuel)%nat ->
  exists s',
    decoder_write_all fuel s chunks acc = Some (mkTransformed s' acc None)
    /\ Phase e' true q s'.
Proof using id_fits count_fits fs_fit.
  induction chunks as [|c chunks IH]; intros e' q s fuel acc HP Hrest Hfuel.
  - exists s. split; [reflexivity|exact HP].
  - cbn [List.concat] in HP. rewrite <- app_assoc in HP.
    destruct (transform_done e' c _ s fuel HP Hrest Hfuel) as (s1 & Ht & HP1).
    cbn [Codec.decoder_write_all]. rewrite Ht. cbn [t_error t_state t_pushed].
    rewrite app_nil_r. apply IH; auto.
Qed.

(** Writing chunks that stop before the end of the group: nothing is
    pushed, and the decoder waits where the input stops. *)
Lemma write_all_wait (chunks : list bytes) :
  forall (e' : bool) (q' : bytes) (s : Decoder) (fuel : nat) (acc : list (FrameGroup H)),
  Phase e' false (List.concat chunks ++ q' ++ rest) s ->
  q' <> [] ->
  (length fs + 2 <= fuel)%nat ->
  exists s',
    decoder_write_all fuel s chunks acc = Some (mkTransformed s' acc None)
    /\ Phase e' false (q' ++ rest) s'.
Proof using id_fits count_fits fs_fit.
  induction chunks as [|c chunks IH]; intros e' q' s fuel acc HP Hq' Hfuel.
  - exists s. split; [reflexivity|exact HP].
  - cbn [List.concat] in HP. rewrite <- app_assoc in HP.
    assert (HP' : Phase e' false (c ++ (List.concat chunks ++ q') ++ rest) s)
      by (rewrite <- app_assoc; exact HP).
    destruct (transform_wait e' c (List.concat chunks ++ q') s fuel HP') as (s1 & Ht & HP1);
      auto.
    { destruct (List.concat chunks); [exact Hq'|discriminate]. }
    cbn [Codec.decoder_write_all]. rewrite Ht. cbn [t_error t_state t_pushed].
    rewrite app_nil_r. apply IH; auto. rewrite app_assoc. exact HP1.
Qed.

(** Writing the whole input, in any chunks: the object is emitted once,
    or, if the payload does not decode, the error is emitted and nothing
    else. *)
Lemma write_all_group (chunks : list bytes) :
  forall (s : Decoder) (fuel : nat) (acc : list (FrameGroup H)),
  Phase e false (List.concat chunks) s ->
  blen rest < 8 ->
  (length fs + 2 <= fuel)%nat ->
  match _decode e idv (Buffer.concat fs) with
  | Normal (e', obj) =>
      decoder_write_all fuel s chunks acc
      = Some (mkTransformed (mkDecoder e' None 0 rest []) (acc ++ [obj]) None)
  | Throw err =>
      exists s',
        decoder_write_all fuel s chunks acc = Some (mkTransformed s' acc (Some err))
  end.
Proof using id_fits count_fits fs_fit.
  induction chunks as [|c chunks IH]; intros s fuel acc HP Hrest Hfuel.
  - exfalso. cbn in HP. remember [] as q0 eqn:Hq0 in HP. remember false as d eqn:Hd.
    destruct HP as [q1 q' ? Hq Hq'|q1 q' ? ? ? Hq Hq'|]; try discriminate;
      rewrite Hq0 in Hq; destruct q'; try congruence; discriminate.
  - cbn [List.concat] in HP.
    destruct (chunk_cases e c (List.concat chunks) s HP)
      as [(q' & Hq' & Hq)|(c1 & c2 & -> & Hc2)].
    + rewrite Hq in HP.
      destruct (transform_wait e c q' s fuel HP Hq' Hfuel) as (s1 & Ht & HP1).
      rewrite <- Hq in HP1. specialize (IH s1 fuel acc HP1 Hrest Hfuel).
      cbn [Codec.decoder_write_all]. rewrite Ht. cbn [t_error t_state t_pushed].
      rewrite app_nil_r. exact IH.
    + assert (Hc2len : blen c2 < 8).
      { rewrite <- Hc2, blen_app in Hrest. pose proof (blen_nonneg (List.concat chunks)). lia. }
      pose proof (transform_end e c1 c2 (List.concat chunks) s fuel HP Hc2 Hc2len Hfuel) as Ht.
      cbn [Codec.decoder_write_all]. rewrite Ht.
      destruct (_decode e idv (Buffer.concat fs)) as [[e' obj]|err].
      * cbn [t_error t_state t_pushed app].
        destruct (write_all_done chunks e' [] (mkDecoder e' None 0 c2 []) fuel (acc ++ [obj]))
          as (s' & Hw & HP'); auto; [|lia|].
        { rewrite app_nil_r. apply Progress.PDone. exact Hc2. }
        rewrite Hw. do 2 f_equal.
        remember (@nil byte) as q0 eqn:Hq0 in HP'. remember true as d eqn:Hd.
        destruct HP' as [| |q1 buf Hbuf]; try discriminate.
        rewrite Hq0, app_nil_r in Hbuf. rewrite Hbuf. reflexivity.
      * cbn [t_error t_state t_pushed]. rewrite app_nil_r. eauto.
Qed.

(** The initial state, about to receive the group and [rest]. *)
Lemma phase_new (e' : bool) :
  _expectHandshake new_NettyDecoder = e ->
  Phase e' false (group_bytes idv fs ++ rest) new_NettyDecoder.
Proof using id_fits count_fits fs_fit.
  intros He.
  apply Progress.PHeader with (q' := group_bytes idv fs); auto;
    first [discriminate | reflexivity].
Qed.

(** The whole input, in any chunks, then the end of the input: the
    object is emitted once and the stray bytes are reported. *)
Lemma decoder_end_group (e' : bool) (obj : FrameGroup H) (chunks : list bytes)
    (fuel : nat) :
  _expectHandshake new_NettyDecoder = e ->
  _decode e idv (Buffer.concat fs) = Normal (e', obj) ->
  blen rest < 8 ->
  List.concat chunks = group_bytes idv fs ++ rest ->
  (length fs + 2 <= fuel)%nat ->
  decoder_end fuel new_NettyDecoder chunks
  = Some (mkTransformed (mkDecoder e' None 0 rest []) [obj]
            (if 0 <? blen rest
             then Some (ErrTrailing "trailing data" rest)
             else None)).
Proof using id_fits count_fits fs_fit.
  intros He Hdec Hrest Hchunks Hfuel.
  pose proof (phase_new e He) as HP. rewrite <- Hchunks in HP.
  pose proof (write_all_group chunks new_NettyDecoder fuel [] HP Hrest Hfuel) as Hw.
  rewrite Hdec in Hw. unfold Codec.decoder_end. rewrite Hw.
  cbn [t_error t_state t_pushed app].
  unfold Codec._flush. cbn [_buf _bufs length Z.of_nat Z.ltb Z.compare orb].
  rewrite orb_false_r. unfold Buffer.concat. cbn [List.concat].
  rewrite app_nil_r. reflexivity.
Qed.

(** The whole input, in any chunks, when the payload does not decode: the
    error is emitted and no object. *)
Lemma decoder_end_group_error (err : JsError) (chunks : list bytes) (fuel : nat) :
  _expectHandshake new_NettyDecoder = e ->
  _decode e idv (Buffer.concat fs) = Throw err ->
  blen rest < 8 ->
  List.concat chunks = group_bytes idv fs ++ rest ->
  (length fs + 2 <= fuel)%nat ->
  exists s',
    decoder_end fuel new_NettyDecoder chunks
    = Some (mkTransformed s' [] (Some err)).
Proof using id_fits count_fits fs_fit.
  intros He Hdec Hrest Hchunks Hfuel.
  pose proof (phase_new e He) as HP. rewrite <- Hchunks in HP.
  pose proof (write_all_group chunks new_NettyDecoder fuel [] HP Hrest Hfuel) as Hw.
  rewrite Hdec in Hw. destruct Hw as (s' & Hw).
  exists s'. unfold Codec.decoder_end. rewrite Hw. reflexivity.
Qed.

Lemma frames_bytes_app (a b : list bytes) :
  frames_bytes (a ++ b) = frames_bytes a ++ frames_bytes b.
Proof using Type.
  unfold frames_bytes. rewrite map_app, concat_app. reflexivity.
Qed.

End OneGroup.

(** *** The encoder *)

Lemma push_frames_ok (bufs : list bytes) :
  forall pushed : list bytes,
  frames_fit bufs ->
  exists pushed',
    Codec.push_frames bufs pushed = (pushed', CbOk)
    /\ List.concat pushed' = List.concat pushed ++ frames_bytes bufs.
Proof.
  induction bufs as [|buf bufs IH]; intros pushed Hfit.
  - exists pushed. cbn. rewrite app_nil_r. auto.
  - inversion Hfit as [|? ? Hf Hfit']; subst.
    cbn [Codec.push_frames].
    rewrite writeInt32BE_some by (pose proof (blen_nonneg buf); lia).
    destruct (IH (pushed ++ [int32_bytes (blen buf); buf]) Hfit') as (p' & Hp & Hc).
    exists p'. split; [exact Hp|].
    rewrite Hc, concat_app, frames_bytes_cons. cbn [List.concat].
    rewrite app_nil_r, <- !app_assoc. reflexivity.
Qed.

(** The bytes the encoder pushes for an object are its frame group. *)
Lemma encoder_transform_bytes (obj : FrameGroup H) (bufs : list bytes) :
  Codec._encode handshakeType mapOfBytesType obj = Normal bufs ->
  - 2 ^ 31 <= id obj < 2 ^ 31 ->
  Z.of_nat (length bufs) < 2 ^ 31 ->
  frames_fit bufs ->
  exists pushed,
    Codec.encoder_transform handshakeType mapOfBytesType obj = (pushed, CbOk)
    /\ List.concat pushed = group_bytes (id obj) bufs.
Proof.
  intros Henc Hid Hn Hfit. unfold Codec.encoder_transform. rewrite Henc.
  rewrite !writeInt32BE_some by lia.
  destruct (push_frames_ok bufs [int32_bytes (id obj) ++ int32_bytes (Z.of_nat (length bufs))] Hfit)
    as (p' & Hp & Hc).
  exists p'. split; [exact Hp|]. rewrite Hc. unfold group_bytes.
  cbn [List.concat]. rewrite app_nil_r, <- app_assoc. reflexivity.
Qed.

(** *** Decoding a payload *)

(** The [catch] block of [_decode] repeats the failed attempt. *)
Lemma decode_retry_same_mode (e : bool) (idv : Z) (buf : bytes) (err : JsError) :
  decode_with e buf = Throw err -> _decode e idv buf = Throw err.
Proof.
  intros Hd. unfold Codec._decode, try_catch. rewrite Hd. reflexivity.
Qed.

Lemma decode_flag (e e' : bool) (idv : Z) (buf : bytes) (obj : FrameGroup H) :
  _decode e idv buf = Normal (e', obj) ->
  (e = false -> e' = false) /\ (handshake obj = None -> e' = false).
Proof.
  unfold Codec._decode, try_catch, cbind.
  destruct (decode_with e buf) as [[hs pkt]|err1].
  - intros [= <- <-]. cbn. destruct hs, e; cbn; split; congruence.
  - discriminate.
Qed.

(** A frame group whose payload fails to decode as a handshake, written
    to a new decoder in any chunks: the decoder emits the error of that
    attempt and no object. *)
Lemma handshake_failure_is_final (idv : Z) (fs : list bytes) (err : JsError)
    (chunks : list bytes) (fuel : nat) :
  - 2 ^ 31 <= idv < 2 ^ 31 ->
  Z.of_nat (length fs) < 2 ^ 31 ->
  frames_fit fs ->
  decode_with true (Buffer.concat fs) = Throw err ->
  List.concat chunks = group_bytes idv fs ->
  (length fs + 2 <= fuel)%nat ->
  exists s',
    decoder_end fuel new_NettyDecoder chunks = Some (mkTransformed s' [] (Some err)).
Proof.
  intros Hid Hn Hfit Hd Hchunks Hfuel.
  apply decoder_end_group_error with (idv := idv) (fs := fs) (rest := []) (e := true);
    auto.
  - apply decode_retry_same_mode. exact Hd.
  - unfold blen. cbn. lia.
  - rewrite app_nil_r. exact Hchunks.
Qed.

(** *** The handshake expectation *)

Lemma transform_loop_flag (fuel : nat) :
  forall (s : Decoder) (buf : bytes) (pushed : list (FrameGroup H)) (t : Transformed),
  transform_loop fuel s buf pushed = Some t ->
  (_expectHandshake s = false -> _expectHandshake (t_state t) = false)
  /\ exists new,
       t_pushed t = pushed ++ new
       /\ (_expectHandshake (t_state t) = true ->
           Forall (fun o => handshake o <> None) new).
Proof.
  induction fuel as [|fuel IH]; intros s buf pushed t; [discriminate|].
  cbn [Codec.transform_loop].
  destruct (match _id s with
            | Some i => Some (i, _frameCount s, buf)
            | None => _
            end) as [[[i n] b]|].
  2:{ intros [= <-]. cbn. split; [auto|]. exists []. rewrite app_nil_r. auto. }
  destruct (read_frames fuel n (_bufs s) b) as [[[n' bufs'] b']|]; [|discriminate].
  destruct (negb (n' =? 0)).
  { intros [= <-]. cbn. split; [auto|]. exists []. rewrite app_nil_r. auto. }
  destruct (_decode (_expectHandshake s) i (Buffer.concat bufs')) as [[e' obj]|err] eqn:Hd.
  2:{ intros [= <-]. cbn. split; [auto|]. exists []. rewrite app_nil_r. auto. }
  intros Ht. apply IH in Ht. cbn [Codec._expectHandshake] in Ht.
  destruct Ht as (Hmono & new & Hpushed & Hnew).
  apply decode_flag in Hd. destruct Hd as (He & Hobj).
  split; [auto|].
  exists (obj :: new). rewrite Hpushed, <- app_assoc. split; [reflexivity|].
  intros Htrue. constructor; [|auto].
  intros Hnone. specialize (Hmono (Hobj Hnone)). congruence.
Qed.

Lemma write_all_flag (chunks : list bytes) :
  forall (fuel : nat) (s : Decoder) (acc : list (FrameGroup H)) (t : Transformed),
  decoder_write_all fuel s chunks acc = Some t ->
  (_expectHandshake s = false -> _expectHandshake (t_state t) = false)
  /\ exists new,
       t_pushed t = acc ++ new
       /\ (_expectHandshake (t_state t) = true ->
           Forall (fun o => handshake o <> None) new).
Proof.
  induction chunks as [|c chunks IH]; intros fuel s acc t.
  - intros [= <-]. cbn. split; [auto|]. exists []. rewrite app_nil_r. auto.
  - cbn [Codec.decoder_write_all]. unfold Codec.decoder_transform.
    destruct (transform_loop fuel s _ []) as [t1|] eqn:Ht1; [|discriminate].
    apply transform_loop_flag in Ht1. destruct Ht1 as (Hmono1 & new1 & Hp1 & Hn1).
    cbn [app] in Hp1.
    destruct (t_error t1).
    + intros [= <-]. cbn. split; [auto|]. exists new1. rewrite Hp1. auto.
    + intros Ht. apply IH in Ht. destruct Ht as (Hmono & new & Hp & Hn).
      split; [auto|]. exists (new1 ++ new). rewrite Hp, Hp1, <- app_assoc.
      split; [reflexivity|]. intros Htrue. apply Forall_app. split; [|auto].
      apply Hn1. destruct (_expectHandshake (t_state t1)) eqn:E; [reflexivity|].
      specialize (Hmono eq_refl). congruence.
Qed.

(** *** Encoding, then decoding *)

(** The payload bytes decode to the handshake and the packet they were
    built from. *)
Lemma decode_encoded (obj : FrameGroup H) (h : H) (hb mb : bytes) :
  handshake obj = Some h ->
  decode handshakeType (hb ++ mb ++ body (packet obj)) 0
  = Normal (mkDecodeResult (Some h) (blen hb)) ->
  decode mapOfBytesType (mb ++ body (packet obj)) 0
  = Normal (mkDecodeResult (Some (headers (packet obj))) (blen mb)) ->
  _decode true (id obj) (Buffer.concat [hb; mb ++ body (packet obj)])
  = Normal (true, obj).
Proof.
  intros Hh Hdh Hdm. unfold Codec._decode, Codec.decode_with, Buffer.concat.
  cbn [List.concat]. rewrite app_nil_r, Hdh.
  cbn [cbind try_catch offset value].
  pose proof (blen_nonneg hb). pose proof (blen_nonneg mb).
  destruct (blen hb <? 0) eqn:E; [lia|].
  rewrite slice_from_app. unfold Codec.forPayload. rewrite Hdm.
  cbn [cbind try_catch offset value].
  destruct (blen mb <? 0) eqn:E'; [lia|].
  rewrite slice_from_app. cbn.
  destruct obj as [hs i [b hd]]. cbn in *. subst hs. reflexivity.
Qed.

(** C1 (amended): for every frame-group object that carries a handshake,
    whose id and frame lengths fit 32 bits, and whose handshake and
    headers are read back by their type codecs, the bytes the encoder
    pushes, written to a new decoder in any chunks, make it emit exactly
    that object; the decoder is then back in its initial state and the
    end of the input raises no error. *)
Theorem C1_roundtrip_with_handshake (obj : FrameGroup H) (h : H) (hb mb : bytes) :
  handshake obj = Some h ->
  - 2 ^ 31 <= id obj < 2 ^ 31 ->
  toBuffer handshakeType h = Normal hb ->
  toBuffer mapOfBytesType (headers (packet obj)) = Normal mb ->
  blen hb < 2 ^ 31 ->
  blen (mb ++ body (packet obj)) < 2 ^ 31 ->
  decode handshakeType (hb ++ mb ++ body (packet obj)) 0
  = Normal (mkDecodeResult (Some h) (blen hb)) ->
  decode mapOfBytesType (mb ++ body (packet obj)) 0
  = Normal (mkDecodeResult (Some (headers (packet obj))) (blen mb)) ->
  exists pushed,
    Codec.encoder_transform handshakeType mapOfBytesType obj = (pushed, CbOk)
    /\ forall (chunks : list bytes) (fuel : nat),
         List.concat chunks = List.concat pushed ->
         (4 <= fuel)%nat ->
         decoder_end fuel new_NettyDecoder chunks
         = Some (mkTransformed new_NettyDecoder [obj] None).
Proof.
  intros Hh Hid Hhb Hmb Hlh Hlp Hdh Hdm.
  set (payload := mb ++ body (packet obj)).
  assert (Henc : Codec._encode handshakeType mapOfBytesType obj = Normal [hb; payload]).
  { unfold Codec._encode, Codec.toPayload. rewrite Hmb. cbn [cbind].
    rewrite Hh, Hhb. cbn [cbind]. unfold Buffer.concat. cbn [List.concat].
    rewrite app_nil_r. reflexivity. }
  assert (Hfit : frames_fit [hb; payload]) by (repeat constructor; assumption).
  destruct (encoder_transform_bytes obj [hb; payload] Henc Hid) as (pushed & Hp & Hc);
    [cbn; lia|exact Hfit|].
  exists pushed. split; [exact Hp|]. intros chunks fuel Hchunks Hfuel.
  pose proof (decode_encoded obj h hb mb Hh Hdh Hdm) as Hdec.
  apply decoder_end_group with (idv := id obj) (fs := [hb; payload]) (rest := [])
                              (e := true) (e' := true);
    auto; try (cbn; lia).
  - unfold blen. cbn. lia.
  - rewrite Hchunks, Hc, app_nil_r. reflexivity.
Qed.

(** With a handshake codec that yields a value whenever it succeeds, a
    decode in handshake mode that succeeds has read a handshake, and does
    not leave the mode. *)
Lemma decode_keeps_mode (idv : Z) (buf : bytes) (e' : bool) (obj : FrameGroup H) :
  reads_values handshakeType ->
  _decode true idv buf = Normal (e', obj) ->
  e' = true /\ handshake obj <> None.
Proof.
  intros Hv. unfold Codec._decode, try_catch, cbind.
  destruct (decode_with true buf) as [[hs pkt]|err1] eqn:Hd; [|discriminate].
  assert (Hhs : hs <> None).
  { unfold Codec.decode_with, cbind in Hd.
    destruct (decode handshakeType buf 0) as [r|] eqn:Hr; [|discriminate].
    destruct (offset r <? 0) eqn:Hoff; [discriminate|].
    destruct (Codec.forPayload mapOfBytesType _); [|discriminate].
    injection Hd as <- _. exact (Hv buf r Hr Hoff). }
  intros [= <- <-]. cbn [handshake]. split; [|exact Hhs].
  destruct hs; [reflexivity|congruence].
Qed.

Lemma transform_loop_keeps_mode (fuel : nat) :
  reads_values handshakeType ->
  forall (s : Decoder) (buf : bytes) (pushed : list (FrameGroup H)) (t : Transformed),
  transform_loop fuel s buf pushed = Some t ->
  _expectHandshake s = true ->
  _expectHandshake (t_state t) = true.
Proof.
  intros Hv. induction fuel as [|fuel IH]; intros s buf pushed t; [discriminate|].
  cbn [Codec.transform_loop].
  destruct (match _id s with
            | Some i => Some (i, _frameCount s, buf)
            | None => _
            end) as [[[i n] b]|].
  2:{ intros [= <-]. cbn. auto. }
  destruct (read_frames fuel n (_bufs s) b) as [[[n' bufs'] b']|]; [|discriminate].
  destruct (negb (n' =? 0)).
  { intros [= <-]. cbn. auto. }
  intros Ht Hs. rewrite Hs in Ht.
  destruct (_decode true i (Buffer.concat bufs')) as [[e' obj]|err] eqn:Hd.
  2:{ injection Ht as <-. reflexivity. }
  apply (decode_keeps_mode _ _ _ _ Hv) in Hd. destruct Hd as (-> & _).
  apply IH in Ht; auto.
Qed.

Lemma write_all_keeps_mode (chunks : list bytes) :
  reads_values handshakeType ->
  forall (fuel : nat) (s : Decoder) (acc : list (FrameGroup H)) (t : Transformed),
  decoder_write_all fuel s chunks acc = Some t ->
  _expectHandshake s = true ->
  _expectHandshake (t_state t) = true.
Proof.
  intros Hv. induction chunks as [|c chunks IH]; intros fuel s acc t.
  - intros [= <-]. auto.
  - cbn [Codec.decoder_write_all]. unfold Codec.decoder_transform.
    destruct (transform_loop fuel s _ []) as [t1|] eqn:Ht1; [|discriminate].
    intros Ht Hs.
    pose proof (transform_loop_keeps_mode fuel Hv _ _ _ _ Ht1 Hs) as Hs1.
    destruct (t_error t1).
    + injection Ht as <-. exact Hs1.
    + exact (IH _ _ _ _ Ht Hs1).
Qed.

(** A new decoder over such a codec never leaves the handshake mode, and
    every object it emits carries a handshake. *)
Lemma new_decoder_keeps_mode (fuel : nat) (chunks : list bytes) (t : Transformed) :
  reads_values handshakeType ->
  decoder_write_all fuel new_NettyDecoder chunks [] = Some t ->
  _expectHandshake (t_state t) = true
  /\ Forall (fun o => handshake o <> None) (t_pushed t).
Proof.
  intros Hv Ht.
  pose proof (write_all_keeps_mode chunks Hv _ _ _ _ Ht eq_refl) as Hmode.
  split; [exact Hmode|].
  destruct (write_all_flag chunks _ _ _ _ Ht) as (_ & new & Hp & Hnew).
  cbn [app] in Hp. rewrite Hp. auto.
Qed.

End CodecFacts.

(** *** On the Avro codecs *)

Import Codec.

(** C1, at a response carrying a handshake. *)
Lemma C1_roundtrip_witness :
  exists pushed,
    encoder_transform Avro.handshakeResponseType Avro.mapOfBytesType Sample.response
    = (pushed, CbOk)
    /\ forall (chunks : list bytes) (fuel : nat),
         List.concat chunks = List.concat pushed ->
         (4 <= fuel)%nat ->
         decoder_end Avro.handshakeResponseType Avro.mapOfBytesType fuel
           new_NettyDecoder chunks
         = Some (mkTransformed new_NettyDecoder [Sample.response] None).
Proof.
  apply (C1_roundtrip_with_handshake Avro.handshakeResponseType Avro.mapOfBytesType
           Sample.response
           (HandshakeResponse.mk NONE (Some "ptcl"%string) None
              (Some [("k"%string, [x01; x02])]))
           [x04; x02; x08; x70; x74; x63; x6c; x00; x02; x02; x02; x6b; x04; x01; x02; x00]
           [x02; x02; x68; x02; xff; x00]).
  - reflexivity.
  - cbn. lia.
  - vm_compute. reflexivity.
  - vm_compute. reflexivity.
  - vm_compute. reflexivity.
  - vm_compute. reflexivity.
  - vm_compute. reflexivity.
  - vm_compute. reflexivity.
Defined.

(** C1 as stated fails for an object without handshake: the payload of
    [Sample.bare_response] (no headers, four zero bytes) reads as a
    handshake followed by an empty packet, and that is what a new
    decoder emits. *)
Lemma C1_counterexample_without_handshake :
  handshake Sample.bare_response = None
  /\ forPayload Avro.mapOfBytesType [x00; x00; x00; x00; x00]
     = Normal (packet Sample.bare_response)
  /\ encoder_transform Avro.handshakeResponseType Avro.mapOfBytesType
       Sample.bare_response
     = ([[x00; x00; x00; x07; x00; x00; x00; x01]; [x00; x00; x00; x05];
         [x00; x00; x00; x00; x00]], CbOk)
  /\ decoder_end Avro.handshakeResponseType Avro.mapOfBytesType 4 new_NettyDecoder
       [[x00; x00; x00; x07; x00; x00; x00; x01]; [x00; x00; x00; x05];
        [x00; x00; x00; x00; x00]]
     = Some (mkTransformed new_NettyDecoder
               [mkFrameGroup (Some (HandshakeResponse.mk BOTH None None None)) 7
                  (new_NettyPacket [] None)]
               None)
  /\ [mkFrameGroup (Some (HandshakeResponse.mk BOTH None None None)) 7
        (new_NettyPacket [] None)]
     <> [Sample.bare_response].
Proof.
  repeat split; try (vm_compute; reflexivity). discriminate.
Qed.

(** C2: the payload [00] (no headers, empty body) is valid without a
    handshake and truncated as a handshake; [_decode], expecting a
    handshake, fails on it with the error of the handshake attempt, and
    the decoder emits that error instead of the packet. *)
Theorem C2_retry_keeps_handshake_mode :
  decode_with Avro.handshakeResponseType Avro.mapOfBytesType false [x00]
  = Normal (None, packet Sample.empty_response)
  /\ decode_with Avro.handshakeResponseType Avro.mapOfBytesType true [x00]
     = Throw (Err "truncated packet handshake")
  /\ _decode Avro.handshakeResponseType Avro.mapOfBytesType true 1 [x00]
     = Throw (Err "truncated packet handshake")
  /\ encoder_transform Avro.handshakeResponseType Avro.mapOfBytesType
       Sample.empty_response
     = ([[x00; x00; x00; x01; x00; x00; x00; x01]; [x00; x00; x00; x01]; [x00]], CbOk)
  /\ decoder_end Avro.handshakeResponseType Avro.mapOfBytesType 4 new_NettyDecoder
       [[x00; x00; x00; x01; x00; x00; x00; x01]; [x00; x00; x00; x01]; [x00]]
     = Some (mkTransformed (mkDecoder true (Some 1) 0 [x00; x00; x00; x01] [[x00]])
               [] (Some (Err "truncated packet handshake"))).
Proof.
  repeat split; vm_compute; reflexivity.
Qed.

(** The Avro codecs yield a value whenever they yield a valid offset. *)
Lemma decode_at_reads_values {A : Type} (w : A -> Completion bytes) (r : Avro.Reader A) :
  reads_values (mkTypeCodec w (Avro.decode_at r)).
Proof.
  intros buf res. cbn [decode]. unfold Avro.decode_at.
  destruct (r _) as [a rest| |e]; [| |discriminate]; intros [= <-]; cbn [offset value].
  - discriminate.
  - intros Hoff. vm_compute in Hoff. discriminate.
Qed.

(** C8: the decoder never leaves the handshake mode.  The flag starts at
    [true].  On a response with a handshake followed by the frame group
    of [Sample.empty_response], which has none, the first object is
    emitted and the second group ends in "truncated packet handshake",
    with the flag still [true].  And whatever is written to a new
    decoder over the handshake types, in any chunks, the flag is [true]
    afterwards and every object emitted carries a handshake: the
    assignment [_expectHandshake = false] is not reached. *)
Theorem C8_handshake_mode_is_never_left :
  _expectHandshake new_NettyDecoder = true
  /\ encoder_transform Avro.handshakeResponseType Avro.mapOfBytesType
       Sample.empty_response
     = ([[x00; x00; x00; x01; x00; x00; x00; x01]; [x00; x00; x00; x01]; [x00]], CbOk)
  /\ decoder_end Avro.handshakeResponseType Avro.mapOfBytesType 7 new_NettyDecoder
       [Groups.bytes_of [(7, SampleStream.frames1)];
        [x00; x00; x00; x01; x00; x00; x00; x01]; [x00; x00; x00; x01]; [x00]]
     = Some (mkTransformed (mkDecoder true (Some 1) 0 [x00; x00; x00; x01] [[x00]])
               [Sample.response] (Some (Err "truncated packet handshake")))
  /\ (forall (fuel : nat) (chunks : list bytes)
             (t : Transformed (H := HandshakeResponse.t)),
        decoder_write_all Avro.handshakeResponseType Avro.mapOfBytesType fuel
          new_NettyDecoder chunks [] = Some t ->
        _expectHandshake (t_state t) = true
        /\ Forall (fun o => handshake o <> None) (t_pushed t))
  /\ (forall (fuel : nat) (chunks : list bytes)
             (t : Transformed (H := HandshakeRequest.t)),
        decoder_write_all Avro.handshakeRequestType Avro.mapOfBytesType fuel
          new_NettyDecoder chunks [] = Some t ->
        _expectHandshake (t_state t) = true
        /\ Forall (fun o => handshake o <> None) (t_pushed t)).
Proof.
  split; [reflexivity|]. split; [vm_compute; reflexivity|].
  split; [vm_compute; reflexivity|]. split.
  - intros fuel chunks t Ht.
    apply (new_decoder_keeps_mode Avro.handshakeResponseType Avro.mapOfBytesType
             fuel chunks t); [|exact Ht].
    apply decode_at_reads_values.
  - intros fuel chunks t Ht.
    apply (new_decoder_keeps_mode Avro.handshakeRequestType Avro.mapOfBytesType
             fuel chunks t); [|exact Ht].
    apply decode_at_reads_values.
Qed.

(** C9 as stated fails on partial frames.  On [Sample.cut_input] (a group
    of two frames cut after the frame [aa] and five bytes of the next
    one) the attached data is [00 00 00 02 bb aa]: the bytes received last
    come first, the header and the length prefix of the frame already
    read are left out, so it is no run of bytes of the input, whose
    leftover ends with [aa 00 00 00 02 bb].  On [Sample.header_only] the
    input ends inside a frame group and no error is raised. *)
Lemma C9_counterexample_partial_frames :
  decoder_end Avro.handshakeResponseType Avro.mapOfBytesType 4 new_NettyDecoder
    [Sample.cut_input]
  = Some (mkTransformed
            (mkDecoder true (Some 1) 1 [x00; x00; x00; x02; xbb] [[xaa]]) []
            (Some (ErrTrailing "trailing data" [x00; x00; x00; x02; xbb; xaa])))
  /\ occurs_in [x00; x00; x00; x02; xbb; xaa] Sample.cut_input = false
  /\ occurs_in [xaa; x00; x00; x00; x02; xbb] Sample.cut_input = true
  /\ decoder_end Avro.handshakeResponseType Avro.mapOfBytesType 4 new_NettyDecoder
       [Sample.header_only]
     = Some (mkTransformed (mkDecoder true (Some 1) 1 [] []) [] None).
Proof.
  repeat split; vm_compute; reflexivity.
Qed.

End CodecFacts.

(** ** Running monadic code *)

Module RunFacts.

Lemma run_eta {S E A} (r : Run S E A) : mkRun (state r) (effects r) (result r) = r.
Proof. destruct r. reflexivity. Qed.

Lemma bind_get {S E B} (k : S -> M S E B) (s : S) : bind get k s = k s s.
Proof. unfold bind, get. cbn. apply run_eta. Qed.

(** Binding a step that ends normally without effects. *)
Lemma bind_silent {S E A B} (m : M S E A) (k : A -> M S E B) (s : S) (a : A) :
  result (m s) = Normal a -> effects (m s) = [] ->
  bind m k s = k a (state (m s)).
Proof. intros Hr He. unfold bind. rewrite Hr, He. cbn. apply run_eta. Qed.

Lemma bind_throw {S E A B} (m : M S E A) (k : A -> M S E B) (s : S) (e : JsError) :
  result (m s) = Throw e ->
  bind m k s = mkRun (state (m s)) (effects (m s)) (Throw e).
Proof. intros Hr. unfold bind. rewrite Hr. reflexivity. Qed.

Lemma runs_bind {S E A B} (m : M S E A) (k : A -> M S E B) (s s1 s2 : S)
    (e1 e2 : list E) (a : A) (res : Completion B) :
  m s = mkRun s1 e1 (Normal a) ->
  k a s1 = mkRun s2 e2 res ->
  bind m k s = mkRun s2 (e1 ++ e2) res.
Proof. intros Hm Hk. unfold bind. rewrite Hm. cbn. rewrite Hk. reflexivity. Qed.

Lemma runs_bind_throw {S E A B} (m : M S E A) (k : A -> M S E B) (s s1 : S)
    (e1 : list E) (err : JsError) :
  m s = mkRun s1 e1 (Throw err) ->
  bind m k s = mkRun s1 e1 (Throw err).
Proof. intros Hm. unfold bind. rewrite Hm. reflexivity. Qed.

Lemma runs_catch {S E A} (m : M S E A) (h : JsError -> M S E A) (s s1 : S)
    (e1 : list E) (a : A) :
  m s = mkRun s1 e1 (Normal a) ->
  catch m h s = mkRun s1 e1 (Normal a).
Proof. intros Hm. unfold catch. rewrite Hm. reflexivity. Qed.

Lemma runs_catch_throw {S E A} (m : M S E A) (h : JsError -> M S E A) (s s1 s2 : S)
    (e1 e2 : list E) (err : JsError) (res : Completion A) :
  m s = mkRun s1 e1 (Throw err) ->
  h err s1 = mkRun s2 e2 res ->
  catch m h s = mkRun s2 (e1 ++ e2) res.
Proof. intros Hm Hh. unfold catch. rewrite Hm. cbn. rewrite Hh. reflexivity. Qed.

(** Symbolic execution of a monadic program, one [bind] at a time; [rw]
    rewrites with the facts known about the inputs. *)
Ltac exec rw :=
  cbv beta iota; repeat (rw; cbv beta iota);
  lazymatch goal with
  | |- bind _ _ _ = _ =>
      first [ eapply runs_bind; [exec rw | exec rw]
            | eapply runs_bind_throw; exec rw ]
  | |- catch _ _ _ = _ =>
      first [ eapply runs_catch; exec rw
            | eapply runs_catch_throw; [exec rw | exec rw] ]
  | |- lift _ _ = _ => unfold lift; repeat (rw; cbv beta iota); reflexivity
  | |- _ => reflexivity
  end.

End RunFacts.

(** ** The bridge *)

Module BridgeFacts.
Section BridgeFacts.
Import Bridge RunFacts.

Context {Json Labels Deadline Continuation : Type}.
Variable JSON_stringify : Json -> string.
Variable new_Service : option string -> Completion (Service.t Json).
Variable mapOfJsonType_toBuffer : Labels -> Completion bytes.
Variable dateTimeType_toBuffer : Deadline -> Completion bytes.

Abbreviation Bridge := (@Bridge.t Json Continuation).
Abbreviation CallRecord := (@Bridge.CallRecord Json Continuation).
Abbreviation on_data := (Bridge.on_data (Continuation := Continuation) JSON_stringify new_Service).
Abbreviation server_service :=
  (Bridge.server_service (Continuation := Continuation) new_Service).
Abbreviation channel_call :=
  (Bridge.channel_call (Continuation := Continuation) JSON_stringify
     mapOfJsonType_toBuffer dateTimeType_toBuffer).

(** *** The map of pending calls *)

Lemma omap_get_set_eq {V} (k : Z) (v : V) (m : list (Z * V)) :
  omap_get k (omap_set k v m) = Some v.
Proof.
  induction m as [|[k' v'] m IH]; cbn.
  - rewrite Z.eqb_refl. reflexivity.
  - destruct (k =? k') eqn:E; cbn; rewrite ?Z.eqb_refl, ?E; auto.
Qed.

Lemma omap_get_set_ne {V} (k k' : Z) (v : V) (m : list (Z * V)) :
  k <> k' -> omap_get k' (omap_set k v m) = omap_get k' m.
Proof.
  intros Hne. induction m as [|[k0 v0] m IH]; cbn.
  - destruct (k' =? k) eqn:E; [apply Z.eqb_eq in E; congruence|reflexivity].
  - destruct (k =? k0) eqn:E; cbn.
    + apply Z.eqb_eq in E. subst k0.
      destruct (k' =? k) eqn:E'; [apply Z.eqb_eq in E'; congruence|reflexivity].
    + destruct (k' =? k0); auto.
Qed.

Lemma omap_get_delete_eq {V} (k : Z) (m : list (Z * V)) :
  omap_get k (omap_delete k m) = None.
Proof.
  induction m as [|[k0 v0] m IH]; cbn; [reflexivity|].
  destruct (k =? k0) eqn:E; cbn; [exact IH|]. rewrite E. exact IH.
Qed.

Lemma omap_get_delete_ne {V} (k k' : Z) (m : list (Z * V)) :
  k <> k' -> omap_get k' (omap_delete k m) = omap_get k' m.
Proof.
  intros Hne. induction m as [|[k0 v0] m IH]; cbn; [reflexivity|].
  destruct (k =? k0) eqn:E; cbn.
  - apply Z.eqb_eq in E. subst k0.
    destruct (k' =? k) eqn:E'; [apply Z.eqb_eq in E'; congruence|exact IH].
  - destruct (k' =? k0); auto.
Qed.

(** *** The server service of a response *)

(** Computing [serverSvc] writes nothing and leaves the pending calls,
    the [closed] flag and the streams as they are. *)
Lemma server_service_frame (hs : HandshakeResponse.t) (clientSvc : Service.t Json)
    (b : Bridge) :
  effects (server_service hs clientSvc b) = []
  /\ _callbacks (state (server_service hs clientSvc b)) = _callbacks b
  /\ closed (state (server_service hs clientSvc b)) = closed b
  /\ _readable (state (server_service hs clientSvc b)) = _readable b
  /\ _writable (state (server_service hs clientSvc b)) = _writable b.
Proof.
  unfold Bridge.server_service.
  destruct (is_some (HandshakeResponse.serverHash hs)
            || truthy_opt_string (HandshakeResponse.serverProtocol hs)).
  - destruct (HandshakeResponse.serverHash hs) as [sh|]; [|cbn; auto].
    destruct (new_Service (HandshakeResponse.serverProtocol hs)) as [svc|err];
      cbn; auto.
  - cbn. destruct (_hashes b !! Service.hash clientSvc) as [sh|]; cbn; auto.
    destruct (truthy_string sh); cbn; auto.
Qed.

(** An accepted handshake yields a server service. *)
Lemma server_service_accepted (hs : HandshakeResponse.t) (clientSvc : Service.t Json)
    (b : Bridge) :
  handshake_accepted new_Service hs ->
  exists svc, result (server_service hs clientSvc b) = Normal (Some svc).
Proof.
  unfold handshake_accepted, Bridge.server_service.
  destruct (is_some (HandshakeResponse.serverHash hs)
            || truthy_opt_string (HandshakeResponse.serverProtocol hs)).
  - intros (Hsh & svc & Hsvc).
    destruct (HandshakeResponse.serverHash hs) as [sh|]; [|discriminate].
    cbn. rewrite Hsvc. cbn. eauto.
  - intros _. cbn. destruct (_hashes b !! Service.hash clientSvc) as [sh|]; cbn; eauto.
    destruct (truthy_string sh); cbn; eauto.
Qed.

Ltac run_monad :=
  cbv beta iota zeta delta
    [bind get ret throw lift modify effect catch state effects result
     call_cb _untrack _release _send set_callbacks set_streams
     closed _readable _writable _callbacks _serverServices _hashes].

(** The listener on a pending call whose server service is resolved:
    a retry, or the delivery of the response. *)
Lemma on_data_resolved (b : Bridge) (fg : FrameGroup HandshakeResponse.t)
    (hs : HandshakeResponse.t) (obj : CallRecord) (svc : option (Service.t Json)) :
  omap_get (id fg) (_callbacks b) = Some obj ->
  handshake fg = Some hs ->
  result (server_service hs (Packet.service (preq obj)) b) = Normal (Some svc) ->
  on_data fg b
  = (match HandshakeResponse.match_ hs, retried obj with
     | NONE, false =>
         modify (fun b =>
                   set_callbacks
                     (omap_set (id fg)
                        (mkCallRecord (cb obj) (armed obj) (meta obj) (preq obj) true)
                        (_callbacks b))
                     b) ;;
         _send JSON_stringify (preq obj) (Some (meta obj)) true
     | _, _ =>
         call_cb obj
           (CbPacket (Packet.mk (id fg) svc (body (packet fg)) (headers (packet fg))))
     end) (state (server_service hs (Packet.service (preq obj)) b)).
Proof.
  intros Hget Hhs Hres.
  destruct (server_service_frame hs (Packet.service (preq obj)) b)
    as (Heff & _).
  unfold Bridge.on_data. rewrite bind_get, Hget, Hhs.
  rewrite (bind_silent _ _ _ _ Hres Heff). reflexivity.
Qed.

Lemma first_none (b : Bridge) (fg : FrameGroup HandshakeResponse.t)
    (hs : HandshakeResponse.t) (obj : CallRecord) :
  pending b (id fg) obj ->
  retried obj = false ->
  handshake fg = Some hs ->
  HandshakeResponse.match_ hs = NONE ->
  handshake_accepted new_Service hs ->
  exists w hq,
    effects (on_data fg b) = [EncoderWrite w]
    /\ result (on_data fg b) = Normal tt
    /\ id w = id fg
    /\ handshake w = Some hq
    /\ HandshakeRequest.clientProtocol hq
       = Some (JSON_stringify (Service.protocol (Packet.service (preq obj))))
    /\ HandshakeRequest.clientHash hq
       = Buffer.from_binary (Service.hash (Packet.service (preq obj)))
    /\ HandshakeRequest.meta hq = Some (meta obj)
    /\ packet w = new_NettyPacket (Packet.body (preq obj)) (Some (Packet.headers (preq obj)))
    /\ pending (state (on_data fg b)) (id fg)
         (mkCallRecord (cb obj) (armed obj) (meta obj) (preq obj) true).
Proof.
  intros (Hget & Hid & Harmed & Hr & Hw) Hretried Hhs Hmatch Hacc.
  destruct (server_service_accepted hs (Packet.service (preq obj)) b Hacc)
    as (svc & Hres).
  destruct (server_service_frame hs (Packet.service (preq obj)) b)
    as (Heff & Hcb & Hcl & Hrd & Hwr).
  rewrite (on_data_resolved b fg hs obj svc Hget Hhs Hres), Hmatch, Hretried.
  set (b1 := state (server_service hs (Packet.service (preq obj)) b)) in *.
  destruct b1 as [cl rd wr ss hh cbs]. cbn in Hrd, Hwr.
  run_monad. eexists _, _. repeat split; try reflexivity; cbn; auto.
  - apply omap_get_set_eq.
  - rewrite Hrd. exact Hr.
  - rewrite Hwr. exact Hw.
Qed.

(** No frame group is written by [_untrack], hence by [call_cb]. *)
Lemma call_cb_frame (obj : CallRecord) (args : CbArgs) (b : Bridge) (k : Z) :
  writes k (effects (call_cb obj args b)) = 0%nat
  /\ (_callbacks (state (call_cb obj args b)) = _callbacks b
      \/ _callbacks (state (call_cb obj args b))
         = omap_delete (Packet.id (preq obj)) (_callbacks b)).
Proof.
  destruct b as [cl rd wr ss hh cbs]. run_monad.
  destruct (armed obj); [|cbn; auto].
  destruct (cl && _); [|cbn; auto].
  destruct rd; [|cbn; auto]. destruct wr; cbn; auto.
Qed.

Lemma call_cb_delivers (obj : CallRecord) (args : CbArgs) (b : Bridge) :
  armed obj = true ->
  is_some (_readable b) = true ->
  is_some (_writable b) = true ->
  In (Invoke (cb obj) args) (effects (call_cb obj args b))
  /\ result (call_cb obj args b) = Normal tt
  /\ _callbacks (state (call_cb obj args b))
     = omap_delete (Packet.id (preq obj)) (_callbacks b).
Proof.
  destruct b as [cl rd wr ss hh cbs]. intros Harmed Hr Hw.
  destruct rd; [|discriminate]. destruct wr; [|discriminate].
  run_monad. rewrite Harmed.
  destruct (cl && _); cbn; auto 10.
Qed.

Lemma later_response (b : Bridge) (fg : FrameGroup HandshakeResponse.t)
    (hs : HandshakeResponse.t) (obj : CallRecord) :
  pending b (id fg) obj ->
  retried obj = true ->
  handshake fg = Some hs ->
  handshake_accepted new_Service hs ->
  exists svc,
    In (Invoke (cb obj)
          (CbPacket (Packet.mk (id fg) svc (body (packet fg)) (headers (packet fg)))))
       (effects (on_data fg b))
    /\ result (on_data fg b) = Normal tt
    /\ writes (id fg) (effects (on_data fg b)) = 0%nat
    /\ omap_get (id fg) (_callbacks (state (on_data fg b))) = None.
Proof.
  intros (Hget & Hid & Harmed & Hr & Hw) Hretried Hhs Hacc.
  destruct (server_service_accepted hs (Packet.service (preq obj)) b Hacc)
    as (svc & Hres).
  destruct (server_service_frame hs (Packet.service (preq obj)) b)
    as (Heff & Hcb & Hcl & Hrd & Hwr).
  exists svc.
  rewrite (on_data_resolved b fg hs obj svc Hget Hhs Hres), Hretried.
  set (args := CbPacket _).
  replace (match HandshakeResponse.match_ hs with
           | NONE => call_cb obj args
           | _ => call_cb obj args
           end) with (call_cb obj args)
    by (destruct (HandshakeResponse.match_ hs); reflexivity).
  set (b1 := state (server_service hs (Packet.service (preq obj)) b)) in *.
  destruct (call_cb_delivers obj args b1 Harmed) as (Hin & Hok & Hdel);
    [rewrite Hrd; auto|rewrite Hwr; auto|].
  destruct (call_cb_frame obj args b1 (id fg)) as (Hwrites & _).
  repeat split; auto.
  rewrite Hdel, Hid. apply omap_get_delete_eq.
Qed.

(** *** At most one retry *)

Lemma writes_app (k : Z) (es1 es2 : list (@Effect Json Continuation)) :
  writes k (es1 ++ es2) = (writes k es1 + writes k es2)%nat.
Proof. unfold writes. rewrite List.filter_app, length_app. reflexivity. Qed.

Lemma keys_match_delete (k : Z) (b b' : Bridge) :
  keys_match b ->
  _callbacks b' = omap_delete k (_callbacks b) ->
  keys_match b'.
Proof.
  intros Hk Hd k' o. rewrite Hd.
  destruct (Z.eq_dec k k') as [->|Hne].
  - rewrite omap_get_delete_eq. discriminate.
  - rewrite omap_get_delete_ne by exact Hne. apply Hk.
Qed.

Lemma retry_budget_delete (k id : Z) (b b' : Bridge) :
  _callbacks b' = omap_delete k (_callbacks b) ->
  (retry_budget id b' <= retry_budget id b)%nat.
Proof.
  intros Hd. unfold retry_budget. rewrite Hd.
  destruct (Z.eq_dec k id) as [->|Hne].
  - rewrite omap_get_delete_eq. lia.
  - rewrite omap_get_delete_ne by exact Hne. lia.
Qed.

Lemma retry_budget_same (id : Z) (b b' : Bridge) :
  _callbacks b' = _callbacks b -> retry_budget id b' = retry_budget id b.
Proof. intros Hd. unfold retry_budget. rewrite Hd. reflexivity. Qed.

Lemma keys_match_same (b b' : Bridge) :
  keys_match b -> _callbacks b' = _callbacks b -> keys_match b'.
Proof. intros Hk Hd k o. rewrite Hd. apply Hk. Qed.

(** One response: what is written for a call is paid from its budget. *)
Lemma on_data_budget (b : Bridge) (fg : FrameGroup HandshakeResponse.t) :
  keys_match b ->
  keys_match (state (on_data fg b))
  /\ forall id : Z,
       (writes id (effects (on_data fg b)) + retry_budget id (state (on_data fg b))
        <= retry_budget id b)%nat.
Proof.
  intros Hk.
  destruct (omap_get (id fg) (_callbacks b)) as [obj|] eqn:Hget.
  2:{ unfold Bridge.on_data. rewrite bind_get, Hget. cbn. split; [exact Hk|]. intros; lia. }
  destruct (handshake fg) as [hs|] eqn:Hhs.
  2:{ unfold Bridge.on_data. rewrite bind_get, Hget, Hhs. cbn. split; [exact Hk|]. intros; lia. }
  destruct (server_service_frame hs (Packet.service (preq obj)) b)
    as (Heff & Hcb & _).
  destruct (result (server_service hs (Packet.service (preq obj)) b))
    as [[svc|]|err] eqn:Hres.
  - rewrite (on_data_resolved b fg hs obj svc Hget Hhs Hres).
    set (b1 := state (server_service hs (Packet.service (preq obj)) b)) in *.
    assert (Hk1 : keys_match b1) by (eapply keys_match_same; eauto).
    assert (Hdeliver :
              forall args,
                keys_match (state (call_cb obj args b1))
                /\ forall id : Z,
                     (writes id (effects (call_cb obj args b1))
                      + retry_budget id (state (call_cb obj args b1))
                      <= retry_budget id b)%nat).
    { intros args. split.
      - destruct (call_cb_frame obj args b1 0) as (_ & [Hs|Hd]).
        + eapply keys_match_same; eauto.
        + eapply keys_match_delete; eauto.
      - intros k. destruct (call_cb_frame obj args b1 k) as (-> & [Hs|Hd]).
        + rewrite (retry_budget_same k b1 _ Hs), (retry_budget_same k b b1 Hcb). lia.
        + pose proof (retry_budget_delete _ k b1 _ Hd) as Hle.
          rewrite (retry_budget_same k b b1 Hcb) in Hle. lia. }
    destruct (HandshakeResponse.match_ hs); try apply Hdeliver.
    destruct (retried obj) eqn:Hretried; try apply Hdeliver.
    pose proof (Hk _ _ Hget) as Hid.
    destruct b1 as [cl rd wr ss hh cbs] eqn:Hb1. run_monad.
    cbn in Hcb. split.
    + intros k o. cbn [_callbacks].
      destruct (Z.eq_dec (id fg) k) as [<-|Hne].
      * rewrite omap_get_set_eq. intros [= <-]. exact Hid.
      * rewrite omap_get_set_ne by exact Hne. rewrite Hcb. apply Hk.
    + intros k. unfold writes, retry_budget. cbn.
      unfold FrameGroup.id_eqb. cbn [id]. rewrite Hid.
      destruct (Z.eq_dec (id fg) k) as [<-|Hne].
      * rewrite Z.eqb_refl, omap_get_set_eq, Hget, Hretried. cbn. lia.
      * rewrite omap_get_set_ne by exact Hne. rewrite Hcb.
        destruct (id fg =? k) eqn:E; [apply Z.eqb_eq in E; congruence|]. cbn. lia.
  - unfold Bridge.on_data. rewrite bind_get, Hget, Hhs.
    rewrite (bind_silent _ _ _ _ Hres Heff). cbn. split.
    + eapply keys_match_same; eauto.
    + intros k. rewrite (retry_budget_same k _ _ Hcb). lia.
  - unfold Bridge.on_data. rewrite bind_get, Hget, Hhs.
    rewrite (bind_throw _ _ _ _ Hres), Heff. cbn. split.
    + eapply keys_match_same; eauto.
    + intros k. rewrite (retry_budget_same k _ _ Hcb). lia.
Qed.

(** Any sequence of responses. *)
Lemma on_data_all_budget (fgs : list (FrameGroup HandshakeResponse.t)) :
  forall (b : Bridge) (id : Z),
  keys_match b ->
  (writes id (effects (for_each fgs on_data b)) <= retry_budget id b)%nat.
Proof.
  induction fgs as [|fg fgs IH]; intros b k Hk; [cbn; lia|].
  cbn [for_each]. destruct (on_data_budget b fg Hk) as (Hk1 & Hb).
  specialize (Hb k).
  destruct (result (on_data fg b)) as [[]|err] eqn:Hres.
  - unfold bind. rewrite Hres. cbn [effects]. rewrite writes_app.
    specialize (IH (state (on_data fg b)) k Hk1). lia.
  - rewrite (bind_throw _ _ _ _ Hres). cbn [effects]. lia.
Qed.

(** *** Failures *)

(** A response whose server protocol does not parse: the [catch] block
    evaluates the unbound identifier [destroy]. *)
Lemma on_data_parse_failure (b : Bridge) (fg : FrameGroup HandshakeResponse.t)
    (hs : HandshakeResponse.t) (obj : CallRecord) (sh : bytes) (err : JsError) :
  omap_get (id fg) (_callbacks b) = Some obj ->
  handshake fg = Some hs ->
  HandshakeResponse.serverHash hs = Some sh ->
  new_Service (HandshakeResponse.serverProtocol hs) = Throw err ->
  on_data fg b = mkRun b [] (Throw (ReferenceError "destroy")).
Proof.
  intros Hget Hhs Hsh Herr.
  unfold Bridge.on_data. rewrite bind_get, Hget, Hhs.
  assert (Hres : server_service hs (Packet.service (preq obj)) b
                 = mkRun b [] (Throw (ReferenceError "destroy"))).
  { unfold Bridge.server_service. rewrite Hsh. cbn [is_some orb].
    cbv beta iota zeta delta [bind catch lift ret state effects result].
    rewrite Herr. reflexivity. }
  rewrite (bind_throw _ _ _ (ReferenceError "destroy")); rewrite Hres; reflexivity.
Qed.

(** A response to a pending call whose handshake is not accepted: the
    listener is left before it retries or delivers, and nothing is
    written. *)
Lemma on_data_rejected (b : Bridge) (fg : FrameGroup HandshakeResponse.t)
    (hs : HandshakeResponse.t) (obj : CallRecord) :
  omap_get (id fg) (_callbacks b) = Some obj ->
  handshake fg = Some hs ->
  ~ handshake_accepted new_Service hs ->
  exists err, on_data fg b = mkRun b [] (Throw err).
Proof.
  intros Hget Hhs Hrej. unfold handshake_accepted in Hrej.
  destruct (is_some (HandshakeResponse.serverHash hs)
            || truthy_opt_string (HandshakeResponse.serverProtocol hs)) eqn:E;
    [|exfalso; apply Hrej; exact I].
  destruct (HandshakeResponse.serverHash hs) as [sh|] eqn:Hsh.
  - destruct (new_Service (HandshakeResponse.serverProtocol hs)) as [svc|err] eqn:Hsvc.
    + exfalso. apply Hrej. split; [reflexivity|]. exists svc. reflexivity.
    + exists (ReferenceError "destroy").
      exact (on_data_parse_failure b fg hs obj sh err Hget Hhs Hsh Hsvc).
  - cbn [is_some orb] in E.
    exists (TypeError "Cannot read properties of null (reading 'toString')").
    unfold Bridge.on_data. rewrite bind_get, Hget, Hhs.
    assert (Hres : server_service hs (Packet.service (preq obj)) b
                   = mkRun b []
                       (Throw (TypeError
                                 "Cannot read properties of null (reading 'toString')"))).
    { unfold Bridge.server_service. rewrite Hsh. cbn [is_some orb]. rewrite E.
      reflexivity. }
    rewrite (bind_throw _ _ _
               (TypeError "Cannot read properties of null (reading 'toString')"));
      rewrite Hres; reflexivity.
Qed.

(** A call on a closed bridge: [_track] fails the continuation and
    returns, and [_send] runs all the same. *)
Lemma channel_call_closed (b : Bridge) (trace : @Bridge.Trace Labels Deadline)
    (preq : Packet.t (Service.t Json)) (k : Continuation) :
  closed b = true ->
  channel_call trace preq k b
  = mkRun b
      [Invoke k (CbError (Err "bridge closed"));
       EncoderWrite
         (mkFrameGroup
            (Some (HandshakeRequest.mk
                     (Buffer.from_binary (Service.hash (Packet.service preq)))
                     None
                     (Buffer.from_binary
                        match _hashes b !! Service.hash (Packet.service preq) with
                        | Some h =>
                            if truthy_string h then h
                            else Service.hash (Packet.service preq)
                        | None => Service.hash (Packet.service preq)
                        end)
                     None))
            (Packet.id preq)
            (new_NettyPacket (Packet.body preq) (Some (Packet.headers preq))))]
      (Normal tt).
Proof.
  intros Hclosed. destruct b as [cl rd wr ss hh cbs]. cbn in Hclosed. subst cl.
  reflexivity.
Qed.

(** The constructor on two distinct streams: the identifier
    [onWritableError] is bound neither in the constructor nor in the
    module. *)
Lemma new_NettyBridge_distinct (readable writable : Stream) :
  readable <> writable ->
  new_NettyBridge readable (ArgStream writable)
  = mkRun (Bridge.mk (Json := Json) (Continuation := Continuation)
             false (Some readable) (Some writable) ∅ ∅ [])
      [Listen EncoderE "error" HEncoderError;
       Pipe EncoderE (StreamE writable);
       Listen (StreamE writable) "finish" HWritableFinish]
      (Throw (ReferenceError "onWritableError")).
Proof.
  intros Hne. unfold new_NettyBridge.
  destruct (readable =? writable)%nat eqn:E; [apply Nat.eqb_eq in E; congruence|].
  reflexivity.
Qed.

(** *** Claims *)

(** C3 (amended): a call retries at most once.  For a pending call that
    has not retried, a response with [match = NONE] whose handshake is
    accepted (neither server hash nor server protocol, or a hash with a
    protocol that parses) makes the bridge write exactly one frame group,
    for that call, with the client protocol text in its handshake, and
    marks the call as retried without calling its continuation.  For a
    call that has retried, a response with an accepted handshake is
    handed to the continuation as it is, nothing is written, and the call
    is no longer pending.  Over any sequence of responses the frame
    groups written for a call never exceed its budget: one if it is
    pending and has not retried, none otherwise.  A response whose
    handshake is not accepted makes the bridge write nothing. *)
Theorem C3_single_retry :
  (forall (b : Bridge) (fg : FrameGroup HandshakeResponse.t)
          (hs : HandshakeResponse.t) (obj : CallRecord),
     pending b (id fg) obj ->
     retried obj = false ->
     handshake fg = Some hs ->
     HandshakeResponse.match_ hs = NONE ->
     handshake_accepted new_Service hs ->
     exists w hq,
       effects (on_data fg b) = [EncoderWrite w]
       /\ result (on_data fg b) = Normal tt
       /\ id w = id fg
       /\ handshake w = Some hq
       /\ HandshakeRequest.clientProtocol hq
          = Some (JSON_stringify (Service.protocol (Packet.service (preq obj))))
       /\ HandshakeRequest.clientHash hq
          = Buffer.from_binary (Service.hash (Packet.service (preq obj)))
       /\ HandshakeRequest.meta hq = Some (meta obj)
       /\ packet w
          = new_NettyPacket (Packet.body (preq obj)) (Some (Packet.headers (preq obj)))
       /\ pending (state (on_data fg b)) (id fg)
            (mkCallRecord (cb obj) (armed obj) (meta obj) (preq obj) true))
  /\ (forall (b : Bridge) (fg : FrameGroup HandshakeResponse.t)
             (hs : HandshakeResponse.t) (obj : CallRecord),
        pending b (id fg) obj ->
        retried obj = true ->
        handshake fg = Some hs ->
        handshake_accepted new_Service hs ->
        exists svc,
          In (Invoke (cb obj)
                (CbPacket (Packet.mk (id fg) svc (body (packet fg))
                             (headers (packet fg)))))
             (effects (on_data fg b))
          /\ result (on_data fg b) = Normal tt
          /\ writes (id fg) (effects (on_data fg b)) = 0%nat
          /\ omap_get (id fg) (_callbacks (state (on_data fg b))) = None)
  /\ (forall (fgs : list (FrameGroup HandshakeResponse.t)) (b : Bridge) (id : Z),
        keys_match b ->
        (writes id (effects (for_each fgs on_data b)) <= retry_budget id b)%nat)
  /\ (forall (b : Bridge) (fg : FrameGroup HandshakeResponse.t)
             (hs : HandshakeResponse.t) (obj : CallRecord) (k : Z),
        omap_get (id fg) (_callbacks b) = Some obj ->
        handshake fg = Some hs ->
        ~ handshake_accepted new_Service hs ->
        writes k (effects (on_data fg b)) = 0%nat).
Proof.
  split; [exact first_none|]. split; [exact later_response|].
  split; [exact on_data_all_budget|].
  intros b fg hs obj k Hget Hhs Hrej.
  destruct (on_data_rejected b fg hs obj Hget Hhs Hrej) as (err & ->). reflexivity.
Qed.

End BridgeFacts.

(** *** On the sample bridge *)

Import Bridge SampleBridge.

(** C3, at the sample call [1] and two responses with [match = NONE]:
    the first is answered by a retry carrying the protocol text, the
    second reaches the continuation; and at a response whose protocol
    text does not parse. *)
Lemma C3_single_retry_witness :
  (exists w hq,
     effects (on_data none_response calling) = [EncoderWrite w]
     /\ handshake w = Some hq
     /\ HandshakeRequest.clientProtocol hq = Some "json:Echo"%string)
  /\ (exists svc,
        In (Invoke 5%nat (CbPacket (Packet.mk 1 svc [x01; x00] [])))
           (effects (on_data none_response (state (on_data none_response calling)))))
  /\ (writes 1 (effects (for_each [none_response; none_response; none_response]
                           on_data calling)) <= 1)%nat
  /\ writes 1 (effects (on_data unparsable_none_response calling)) = 0%nat.
Proof.
  destruct (C3_single_retry (Continuation := nat) JSON_stringify new_Service)
    as (Hfirst & Hlater & Hall & Hrej).
  split; [|split; [|split]].
  - destruct (Hfirst calling none_response (HandshakeResponse.mk NONE None None None)
                (mkCallRecord 5%nat true [(LABELS_META, [x00])] request false))
      as (w & hq & Heff & _ & _ & Hhs & Hp & _).
    + repeat split; vm_compute; reflexivity.
    + reflexivity.
    + reflexivity.
    + reflexivity.
    + vm_compute. exact I.
    + exists w, hq. auto.
  - destruct (Hlater (state (on_data none_response calling)) none_response
                (HandshakeResponse.mk NONE None None None)
                (mkCallRecord 5%nat true [(LABELS_META, [x00])] request true))
      as (svc & Hin & _).
    + repeat split; vm_compute; reflexivity.
    + reflexivity.
    + reflexivity.
    + vm_compute. exact I.
    + exists svc. exact Hin.
  - apply (Hall [none_response; none_response; none_response] calling 1).
    intros k o. vm_compute.
    destruct k as [|[p|p|]|p]; intros [= <-]; reflexivity.
  - apply (Hrej calling unparsable_none_response
             (HandshakeResponse.mk NONE (Some "not json"%string)
                (Some (Buffer.from_binary "math-service-md5")) None)
             (mkCallRecord 5%nat true [(LABELS_META, [x00])] request false) 1).
    + vm_compute. reflexivity.
    + reflexivity.
    + vm_compute. intros (_ & svc & Hsvc). discriminate.
Defined.

(** C3 as stated fails on a response with [match = NONE] whose server
    protocol does not parse: the sample call [1] is pending and has not
    retried, and the listener writes nothing, so no resend is made; the
    call is left as it was. *)
Lemma C3_counterexample_unparsable_protocol :
  omap_get 1 (_callbacks calling)
  = Some (mkCallRecord 5%nat true [(LABELS_META, [x00])] request false)
  /\ handshake unparsable_none_response
     = Some (HandshakeResponse.mk NONE (Some "not json"%string)
               (Some (Buffer.from_binary "math-service-md5")) None)
  /\ effects (on_data unparsable_none_response calling) = []
  /\ writes 1 (effects (on_data unparsable_none_response calling)) = 0%nat
  /\ state (on_data unparsable_none_response calling) = calling.
Proof.
  repeat split; vm_compute; reflexivity.
Qed.

(** C6: on the sample call [1], a response whose server protocol is not
    JSON makes the listener raise [ReferenceError: destroy is not
    defined]; the bridge is left open, the call pending, and neither the
    continuation nor an ['error'] listener is called. *)
Theorem C6_parse_failure_raises_reference_error :
  new_Service (Some "not json"%string) = Throw (Err "Unexpected token in JSON")
  /\ omap_get 1 (_callbacks calling)
     = Some (mkCallRecord 5%nat true [(LABELS_META, [x00])] request false)
  /\ on_data bad_protocol_response calling
     = mkRun calling [] (Throw (ReferenceError "destroy"))
  /\ closed calling = false.
Proof.
  repeat split; vm_compute; reflexivity.
Qed.

(** C7: a call on the closed sample bridge fails its continuation with
    "bridge closed", adds nothing to the pending calls, and still writes
    the frame group of the request (with an undefined [meta]) to the
    encoder. *)
Theorem C7_closed_bridge_still_writes :
  closed closed_bridge = true
  /\ channel_call trace request 5%nat closed_bridge
     = mkRun closed_bridge
         [Invoke 5%nat (CbError (Err "bridge closed"));
          EncoderWrite
            (mkFrameGroup
               (Some (HandshakeRequest.mk
                        (Buffer.from_binary "echo-service-md5") None
                        (Buffer.from_binary "echo-service-md5") None))
               1 (new_NettyPacket [x02; x2a] (Some [])))]
         (Normal tt).
Proof.
  split; [reflexivity|]. vm_compute. reflexivity.
Qed.

(** C10: constructing a bridge over the distinct streams [0] and [1], as
    [nettyRouter] does, raises [ReferenceError: onWritableError is not
    defined] before any ['error'] listener is put on the writable
    stream; over a single stream the constructor completes. *)
Theorem C10_distinct_streams_raise :
  new_NettyBridge 0%nat (ArgStream 1%nat)
  = mkRun (Bridge.mk false (Some 0%nat) (Some 1%nat) ∅ ∅ [])
      [Listen EncoderE "error" HEncoderError;
       Pipe EncoderE (StreamE 1%nat);
       Listen (StreamE 1%nat) "finish" HWritableFinish]
      (Throw (ReferenceError "onWritableError"))
  /\ nettyRouter_bridge 0%nat (ArgStream 1%nat)
     = new_NettyBridge 0%nat (ArgStream 1%nat)
  /\ result (new_NettyBridge 0%nat ArgOther) = Normal tt.
Proof.
  repeat split; vm_compute; reflexivity.
Qed.

End BridgeFacts.

(** ** The gateway *)

Module GatewayFacts.
Section GatewayFacts.
Import Gateway RunFacts.

Context {Json Labels Deadline ChanErr : Type}.
Variable JSON_stringify_all : list Json -> string.
Variable new_Service : option string -> Completion (Service.t Json).
Variable dateTimeType_fromBuffer : bytes -> Completion Deadline.
Variable mapOfJsonType_fromBuffer : bytes -> Completion Labels.
Variable stringType_toBuffer : string -> bytes.
Variable trace_active : option Deadline -> bool.
Variable no_labels : Labels.
Variable labels_assign : Labels -> Labels -> Labels.
Variable discovery_hash : string.
Variable router_services : list (Service.t Json).
Variable router_service : Service.t Json -> option (Service.t Json).
Variable systemErrorType_toBuffer : @SystemError ChanErr -> Completion bytes.

Abbreviation on_data :=
  (Gateway.on_data JSON_stringify_all new_Service dateTimeType_fromBuffer
     mapOfJsonType_fromBuffer stringType_toBuffer trace_active no_labels
     labels_assign discovery_hash router_services router_service
     systemErrorType_toBuffer).

(** A request with a handshake, from a client the gateway does not know
    and without client protocol: whatever the router's services are, the
    response carries [match = NONE] and no server protocol or hash. *)
Lemma on_data_unknown_client (g : Gateway.t) (fg : FrameGroup HandshakeRequest.t)
    (hreq : HandshakeRequest.t) (buf : bytes) :
  handshake fg = Some hreq ->
  HandshakeRequest.meta hreq = None ->
  trace_active None = true ->
  String.eqb (Buffer.to_binary (HandshakeRequest.clientHash hreq)) discovery_hash = false ->
  _clientServices g !! Buffer.to_binary (HandshakeRequest.clientHash hreq) = None ->
  truthy_opt_string (HandshakeRequest.clientProtocol hreq) = false ->
  systemErrorType_toBuffer (mkSystemError "ERR_AVRO_UNKNOWN_CLIENT_PROTOCOL" None)
  = Normal buf ->
  on_data fg g
  = mkRun (set_clientSvc None g)
      [EncoderWrite
         (mkFrameGroup (Some (HandshakeResponse.mk NONE None None None)) (id fg)
            (new_NettyPacket (Buffer.concat [[x01; x00]; buf]) None))]
      (Normal tt).
Proof.
  intros Hhs Hmeta Hactive Hdisc Hmiss Hptcl Hbuf.
  eassert (Hrun : on_data fg g = _).
  { unfold Gateway.on_data.
    exec ltac:(first [rewrite Hhs | rewrite Hmeta | rewrite Hactive | rewrite Hdisc
                     | rewrite Hmiss | rewrite Hptcl | rewrite Hbuf
                     | progress unfold forSystemError, cbind
                     | progress cbn [is_some negb andb array_size]]). }
  rewrite Hrun. reflexivity.
Qed.

(** A request with a handshake, from a known client for which the router
    has no server service: the listener reads [serverSvc.protocol] on
    the missing service. *)
Lemma on_data_no_server_service (g : Gateway.t) (fg : FrameGroup HandshakeRequest.t)
    (hreq : HandshakeRequest.t) (svc : Service.t Json) :
  handshake fg = Some hreq ->
  HandshakeRequest.meta hreq = None ->
  trace_active None = true ->
  String.eqb (Buffer.to_binary (HandshakeRequest.clientHash hreq)) discovery_hash = false ->
  _clientServices g !! Buffer.to_binary (HandshakeRequest.clientHash hreq) = Some svc ->
  router_service svc = None ->
  on_data fg g
  = mkRun (set_clientSvc (Some svc) g) []
      (Throw (TypeError "Cannot read properties of undefined (reading 'protocol')")).
Proof.
  intros Hhs Hmeta Hactive Hdisc Hhit Hrouter.
  eassert (Hrun : on_data fg g = _).
  { unfold Gateway.on_data.
    exec ltac:(first [rewrite Hhs | rewrite Hmeta | rewrite Hactive | rewrite Hdisc
                     | rewrite Hhit | rewrite Hrouter
                     | progress cbn [is_some negb andb]]). }
  rewrite Hrun. reflexivity.
Qed.

End GatewayFacts.

(** *** On the sample gateway *)

Import Gateway SampleGateway.

(** C4: the sample router owns exactly one service, Echo.  To a request
    of an unknown client without client protocol the gateway answers
    [match = NONE] with the [UNKNOWN_CLIENT_PROTOCOL] system error and
    with neither [serverProtocol] nor [serverHash]. *)
Theorem C4_none_response_omits_server_protocol :
  router_services = [SampleBridge.echo]
  /\ on_data unknown_request accepted
     = mkRun (set_clientSvc None accepted)
         [EncoderWrite
            (mkFrameGroup (Some (HandshakeResponse.mk NONE None None None)) 1
               (new_NettyPacket
                  ([x01; x00] ++ Avro.writeString "ERR_AVRO_UNKNOWN_CLIENT_PROTOCOL")
                  None))]
         (Normal tt).
Proof.
  split; [reflexivity|].
  rewrite (on_data_unknown_client _ _ _ _ _ _ _ _ _ _ _ _ accepted unknown_request
             (HandshakeRequest.mk (Buffer.from_binary "math-service-md5") None
                (Buffer.from_binary "math-service-md5") None)
             (Avro.writeString "ERR_AVRO_UNKNOWN_CLIENT_PROTOCOL"));
    reflexivity.
Qed.

(** C5: the sample router has no server service for the Math client.
    On a request that resolves the client service (its protocol is
    attached), the listener raises a [TypeError]: no response is written
    and the request is not forwarded to the router. *)
Theorem C5_missing_server_service_raises :
  router_service SampleBridge.math = None
  /\ effects (on_data math_request accepted) = []
  /\ result (on_data math_request accepted)
     = Throw (TypeError "Cannot read properties of undefined (reading 'protocol')")
  /\ clientSvc (state (on_data math_request accepted)) = Some SampleBridge.math.
Proof.
  repeat split; vm_compute; reflexivity.
Qed.

End GatewayFacts.

(** ** Streams of frame groups, the encoder and the packet payload *)

Module StreamFacts.
Section StreamFacts.
Import Buffer BufferFacts Wire Codec Groups CodecFacts.

Context {H : Type}.
Variable handshakeType : TypeCodec H.
Variable mapOfBytesType : TypeCodec Headers.

Abbreviation transform_loop := (Codec.transform_loop handshakeType mapOfBytesType).
Abbreviation decoder_transform := (Codec.decoder_transform handshakeType mapOfBytesType).
Abbreviation decoder_write_all := (Codec.decoder_write_all handshakeType mapOfBytesType).
Abbreviation decoder_end := (Codec.decoder_end handshakeType mapOfBytesType).
Abbreviation _decode := (Codec._decode handshakeType mapOfBytesType).
Abbreviation decoded := (Groups.decoded handshakeType mapOfBytesType).

Abbreviation Progressed := (Groups.Progressed handshakeType mapOfBytesType).

Lemma bytes_of_cons (g : Group) (gs : list Group) :
  bytes_of (g :: gs) = group_bytes (fst g) (snd g) ++ bytes_of gs.
Proof. reflexivity. Qed.

Lemma frame_count_cons (g : Group) (gs : list Group) :
  frame_count (g :: gs) = (length (snd g) + frame_count gs)%nat.
Proof. reflexivity. Qed.

Lemma bytes_of_app (gs1 gs2 : list Group) :
  bytes_of (gs1 ++ gs2) = bytes_of gs1 ++ bytes_of gs2.
Proof. unfold bytes_of. rewrite map_app, concat_app. reflexivity. Qed.

Lemma decoded_app (gs1 gs2 : list Group) :
  forall (e e1 : bool) (objs1 : list (FrameGroup H)),
  decoded e gs1 = (e1, objs1, None) ->
  decoded e (gs1 ++ gs2)
  = (let '(e2, objs2, err) := decoded e1 gs2 in (e2, objs1 ++ objs2, err)).
Proof.
  induction gs1 as [|g gs1 IH]; intros e e1 objs1.
  - cbn. intros [= <- <-]. destruct (decoded e gs2) as [[e2 objs2] err]. reflexivity.
  - cbn [Groups.decoded app].
    destruct (_decode e (fst g) (Buffer.concat (snd g))) as [[e' obj]|err]; [|discriminate].
    destruct (decoded e' gs1) as [[e'' objs] err] eqn:Hd.
    intros [= <- <- ->]. rewrite (IH e' e'' objs Hd).
    destruct (decoded e'' gs2) as [[e2 objs2] err2]. reflexivity.
Qed.

Lemma decoded_app_error (gs1 gs2 : list Group) :
  forall (e e1 : bool) (objs1 : list (FrameGroup H)) (err : JsError),
  decoded e gs1 = (e1, objs1, Some err) ->
  decoded e (gs1 ++ gs2) = (e1, objs1, Some err).
Proof.
  induction gs1 as [|g gs1 IH]; intros e e1 objs1 err; [discriminate|].
  cbn [Groups.decoded app].
  destruct (_decode e (fst g) (Buffer.concat (snd g))) as [[e' obj]|err']; [|auto].
  destruct (decoded e' gs1) as [[e'' objs] [err''|]] eqn:Hd; [|discriminate].
  intros [= <- <- <-]. rewrite (IH e' e'' objs err'' Hd). reflexivity.
Qed.

(** What a waiting decoder has still to receive lies within the groups it
    has not finished. *)
Lemma At_buffered (rest : bytes) (e : bool) (gs : list Group) (q : bytes) (s : Decoder) :
  At rest e gs q s -> blen q <= blen (bytes_of gs ++ rest).
Proof.
  intros HAt.
  destruct HAt as [e gs q s Hid Hcount Hbufs He Hblk Hbuf
                  |e idv fs gs q f todo s Hid Hcount Hbufs He Hblk Hbuf].
  - rewrite <- Hbuf, blen_app. pose proof (blen_nonneg (_buf s)). lia.
  - rewrite bytes_of_cons. cbn [fst snd]. unfold group_bytes. rewrite <- Hbufs.
    assert (Hlen' := f_equal blen Hbuf).
    rewrite !blen_app, frames_bytes_app, !blen_app, !blen_int32_bytes in *.
    pose proof (blen_nonneg (frames_bytes (_bufs s))).
    pose proof (blen_nonneg (_buf s)). lia.
Qed.

(** Progress from where an earlier step arrived. *)
Lemma Progressed_trans (rest : bytes) (e e1 : bool) (gs1 gs2 : list Group) (q : bytes)
    (pushed objs1 : list (FrameGroup H)) (t : Transformed) :
  decoded e gs1 = (e1, objs1, None) ->
  Progressed rest e1 gs2 q (pushed ++ objs1) t ->
  Progressed rest e (gs1 ++ gs2) q pushed t.
Proof.
  intros Hd (ga & gb & e2 & objs2 & err & Hgs & Hd2 & Hp & He & Hq & HAt).
  exists (gs1 ++ ga), gb, e2, (objs1 ++ objs2), err.
  rewrite Hgs, app_assoc, (decoded_app gs1 ga e e1 objs1 Hd), Hd2, Hp, <- !app_assoc.
  repeat split; auto.
Qed.

(** Inside the frames of a group, given how the loop goes on after it. *)
Lemma loop_frames_stream (rest : bytes) (idv : Z) (fs : list bytes) (gs : list Group) :
  (forall (e : bool) (s : Decoder) (x q : bytes) (pushed : list (FrameGroup H))
          (fuel : nat),
     _id s = None -> _frameCount s = 0 -> _bufs s = [] -> _expectHandshake s = e ->
     x ++ q = bytes_of gs ++ rest ->
     (length gs + frame_count gs + 1 <= fuel)%nat ->
     exists t, transform_loop fuel s x pushed = Some t
               /\ Progressed rest e gs q pushed t) ->
  forall (e : bool) (s : Decoder) (x q : bytes) (pushed : list (FrameGroup H))
         (fuel : nat) (todo : list bytes),
  frames_fit fs ->
  _id s = Some idv ->
  _frameCount s = Z.of_nat (length todo) ->
  _bufs s ++ todo = fs ->
  _expectHandshake s = e ->
  x ++ q = frames_bytes todo ++ bytes_of gs ++ rest ->
  (length todo + length gs + frame_count gs + 2 <= fuel)%nat ->
  exists t, transform_loop fuel s x pushed = Some t
            /\ Progressed rest e ((idv, fs) :: gs) q pushed t.
Proof.
  intros Hnext e s x q pushed fuel todo Hfs Hid Hcount Hbufs He Hx Hfuel.
  assert (Hfit : frames_fit todo).
  { rewrite <- Hbufs in Hfs. unfold frames_fit in *.
    apply Forall_app in Hfs. tauto. }
  destruct fuel as [|fuel]; [lia|].
  cbn [Codec.transform_loop]. rewrite Hid, Hcount.
  assert (Hcases : (exists l, x = frames_bytes todo ++ l /\ l ++ q = bytes_of gs ++ rest)
                   \/ (exists l, l <> [] /\ x ++ l = frames_bytes todo
                                 /\ q = l ++ bytes_of gs ++ rest)).
  { apply List.app_eq_app in Hx. destruct Hx as (l & [[Hx1 Hx2]|[Hx1 Hx2]]).
    - left. exists l. auto.
    - destruct l as [|b l].
      + left. exists []. rewrite app_nil_r in Hx1. rewrite app_nil_r. cbn in Hx2.
        split; [symmetry; exact Hx1|exact Hx2].
      + right. exists (b :: l). split; [discriminate|split; auto]. }
  destruct Hcases as [(l & -> & Hl)|(l & Hne & Hxl & ->)].
  - rewrite read_frames_complete by (auto; lia).
    cbn [Z.eqb negb]. rewrite Hbufs, He.
    destruct (_decode e idv (Buffer.concat fs)) as [[e' obj]|err] eqn:Hdec.
    + destruct (Hnext e' (mkDecoder e' None 0 (_buf s) []) l q (pushed ++ [obj]) fuel)
        as (t & Ht & HP); auto; [lia|].
      exists t. split; [exact Ht|].
      change ((idv, fs) :: gs) with ([(idv, fs)] ++ gs).
      apply Progressed_trans with (e1 := e') (objs1 := [obj]); [|exact HP].
      cbn [Groups.decoded fst snd]. rewrite Hdec. reflexivity.
    + eexists. split; [reflexivity|].
      exists [(idv, fs)], gs, e, [], (Some err).
      cbn [Groups.decoded fst snd app t_pushed t_error t_state].
      rewrite Hdec, app_nil_r.
      split; [reflexivity|]. split; [reflexivity|]. split; [reflexivity|].
      split; [reflexivity|]. split; [|discriminate].
      rewrite <- Hl, blen_app. pose proof (blen_nonneg l). lia.
  - destruct (read_frames_partial todo (_bufs s) x l fuel)
      as (done' & f & todo' & x' & Hr & Ht & Hx' & Hb); auto; [lia|].
    rewrite Hr.
    replace (Z.of_nat (length (f :: todo')) =? 0) with false
      by (symmetry; apply Z.eqb_neq; cbn [length]; lia).
    cbn [negb].
    eexists. split; [reflexivity|].
    exists [], ((idv, fs) :: gs), e, [], None. cbn [app Groups.decoded t_pushed t_error t_state].
    rewrite app_nil_r.
    match goal with
    | |- _ /\ _ /\ _ /\ _ /\ _ /\ (_ -> ?A) => assert (HAt : A)
    end.
    { eapply AtFrames with (f := f) (todo := todo'); cbn; auto.
      - rewrite <- app_assoc, <- Ht. exact Hbufs.
      - rewrite app_assoc, Hx'. reflexivity. }
    repeat split; auto. exact (At_buffered _ _ _ _ _ HAt).
Qed.

(** Between two groups: the loop reads the groups that are wholly in the
    buffer and stops in the first one that is not. *)
Lemma loop_stream (rest : bytes) (gs : list Group) :
  Forall well_formed gs -> blen rest < 8 ->
  forall (e : bool) (s : Decoder) (x q : bytes) (pushed : list (FrameGroup H))
         (fuel : nat),
  _id s = None -> _frameCount s = 0 -> _bufs s = [] -> _expectHandshake s = e ->
  x ++ q = bytes_of gs ++ rest ->
  (length gs + frame_count gs + 1 <= fuel)%nat ->
  exists t, transform_loop fuel s x pushed = Some t
            /\ Progressed rest e gs q pushed t.
Proof.
  intros Hwf Hrest. induction gs as [|[idv fs] gs IH];
    intros e s x q pushed fuel Hid Hcount Hbufs He Hx Hfuel.
  - destruct fuel as [|fuel]; [lia|].
    cbn [Codec.transform_loop]. rewrite Hid.
    assert (Hlen : blen x < 8).
    { cbn in Hx. rewrite <- Hx, blen_app in Hrest. pose proof (blen_nonneg q). lia. }
    destruct (blen x <? 8) eqn:E8; [|lia].
    eexists. split; [reflexivity|].
    exists [], [], e, [], None. cbn [app Groups.decoded t_pushed t_error t_state].
    rewrite app_nil_r.
    match goal with
    | |- _ /\ _ /\ _ /\ _ /\ _ /\ (_ -> ?A) => assert (HAt : A)
    end.
    { apply AtIdle; cbn; auto. }
    repeat split; auto. exact (At_buffered _ _ _ _ _ HAt).
  - pose proof (Forall_inv Hwf) as (Hidv & Hn & Hfit).
    pose proof (Forall_inv_tail Hwf) as Hwf'. cbn [fst snd] in *.
    specialize (IH Hwf').
    rewrite bytes_of_cons in Hx. cbn [fst snd] in Hx.
    destruct (Z_lt_le_dec (blen x) 8) as [Hshort|Hlong].
    + destruct fuel as [|fuel]; [lia|].
      cbn [Codec.transform_loop]. rewrite Hid.
      destruct (blen x <? 8) eqn:E8; [|lia].
      eexists. split; [reflexivity|].
      exists [], ((idv, fs) :: gs), e, [], None.
      cbn [app Groups.decoded t_pushed t_error t_state].
      rewrite app_nil_r.
      match goal with
      | |- _ /\ _ /\ _ /\ _ /\ _ /\ (_ -> ?A) => assert (HAt : A)
      end.
      { apply AtIdle; cbn; auto. }
      repeat split; auto. exact (At_buffered _ _ _ _ _ HAt).
    + unfold group_bytes in Hx. rewrite <- !app_assoc in Hx.
      destruct (app_eq_split _ _ _ _ Hx) as (x1 & Hx1 & Hx1q);
        [rewrite blen_int32_bytes; lia|].
      assert (Hx1len : 4 <= blen x1).
      { rewrite Hx1, blen_app, blen_int32_bytes in Hlong. lia. }
      destruct (app_eq_split _ _ _ _ Hx1q) as (x2 & -> & Hx2q);
        [rewrite blen_int32_bytes; lia|].
      rewrite Hx1. destruct fuel as [|fuel]; [cbn in Hfuel; lia|].
      rewrite loop_header by auto.
      apply (loop_frames_stream rest idv fs gs IH) with (todo := fs); cbn; auto.
      * rewrite Hbufs. reflexivity.
      * rewrite frame_count_cons in Hfuel. cbn [length snd] in Hfuel. lia.
Qed.

(** A chunk written to a decoder that is somewhere in the stream. *)
Lemma transform_stream (rest : bytes) (e : bool) (gs : list Group) (c q : bytes)
    (s : Decoder) (fuel : nat) :
  Forall well_formed gs -> blen rest < 8 ->
  At rest e gs (c ++ q) s ->
  (length gs + frame_count gs + 1 <= fuel)%nat ->
  exists t, decoder_transform fuel s c = Some t
            /\ Progressed rest e gs q [] t.
Proof.
  intros Hwf Hrest HAt Hfuel. unfold Codec.decoder_transform, Buffer.concat.
  cbn [List.concat]. rewrite app_nil_r.
  remember (c ++ q) as cq eqn:Hcq.
  destruct HAt as [e gs cq s Hid Hcount Hbufs He Hblk Hbuf
                  |e idv fs gs cq f todo s Hid Hcount Hbufs He Hblk Hbuf]; subst cq.
  - apply loop_stream with (rest := rest) (e := e) (gs := gs); auto.
    rewrite <- app_assoc. exact Hbuf.
  - pose proof (Forall_inv Hwf) as (Hidv & Hn & Hfit).
    pose proof (Forall_inv_tail Hwf) as Hwf'. cbn [fst snd] in *.
    apply (loop_frames_stream rest idv fs gs) with (todo := f :: todo); auto.
    + intros. apply loop_stream with (rest := rest); auto.
    + rewrite <- app_assoc. exact Hbuf.
    + rewrite frame_count_cons in Hfuel. cbn [snd] in Hfuel.
      rewrite <- Hbufs, length_app in Hfuel. cbn [length] in *. lia.
Qed.

Lemma frame_count_app (gs1 gs2 : list Group) :
  frame_count (gs1 ++ gs2) = (frame_count gs1 + frame_count gs2)%nat.
Proof.
  induction gs1 as [|g gs1 IH]; [reflexivity|].
  cbn [app]. rewrite !frame_count_cons, IH. lia.
Qed.

(** Chunks written to a decoder that is somewhere in the stream. *)
Lemma write_all_stream (rest : bytes) (chunks : list bytes) :
  forall (e : bool) (gs : list Group) (q : bytes) (s : Decoder) (fuel : nat)
         (acc : list (FrameGroup H)),
  Forall well_formed gs -> blen rest < 8 ->
  At rest e gs (List.concat chunks ++ q) s ->
  (length gs + frame_count gs + 1 <= fuel)%nat ->
  exists t, decoder_write_all fuel s chunks acc = Some t
            /\ Progressed rest e gs q acc t.
Proof.
  induction chunks as [|c chunks IH]; intros e gs q s fuel acc Hwf Hrest HAt Hfuel.
  - eexists. split; [reflexivity|].
    exists [], gs, e, [], None. cbn [app Groups.decoded t_pushed t_error t_state].
    rewrite app_nil_r. cbn [List.concat app] in HAt. repeat split; auto.
    exact (At_buffered _ _ _ _ _ HAt).
  - cbn [List.concat] in HAt. rewrite <- app_assoc in HAt.
    destruct (transform_stream rest e gs c _ s fuel Hwf Hrest HAt Hfuel)
      as (t1 & Ht1 & gs1 & gs2 & e1 & objs1 & err & Hgs & Hd & Hp & He & Hq1 & HAt1).
    cbn [Codec.decoder_write_all]. rewrite Ht1, He. cbn [app] in Hp.
    destruct err as [er|].
    + eexists. split; [reflexivity|].
      exists gs1, gs2, e1, objs1, (Some er).
      cbn [t_pushed t_error t_state]. rewrite Hp.
      repeat split; auto; [|discriminate].
      rewrite blen_app in Hq1. pose proof (blen_nonneg (List.concat chunks)). lia.
    + specialize (HAt1 eq_refl). rewrite Hp.
      assert (Hwf2 : Forall well_formed gs2).
      { rewrite Hgs in Hwf. apply Forall_app in Hwf. tauto. }
      destruct (IH e1 gs2 q (t_state t1) fuel (acc ++ objs1) Hwf2 Hrest HAt1)
        as (t & Ht & HP).
      { rewrite Hgs, length_app, frame_count_app in Hfuel. lia. }
      exists t. split; [exact Ht|]. rewrite Hgs.
      apply Progressed_trans with (e1 := e1) (objs1 := objs1); auto.
Qed.

Lemma blen_bytes_of_cons (g : Group) (gs : list Group) :
  8 <= blen (bytes_of (g :: gs)).
Proof.
  rewrite bytes_of_cons, blen_app.
  pose proof (blen_group_bytes (fst g) (snd g)). pose proof (blen_nonneg (bytes_of gs)).
  lia.
Qed.

(** A decoder with nothing more to receive is between two groups, at the
    end of the stream, and holds [rest]. *)
Lemma At_end (rest : bytes) (e : bool) (gs : list Group) (s : Decoder) :
  At rest e gs [] s -> gs = [] /\ s = mkDecoder e None 0 rest [].
Proof.
  intros HAt. remember (@nil byte) as q eqn:Hq.
  destruct HAt as [e gs q s Hid Hcount Hbufs He Hblk Hbuf
                  |e idv fs gs q f todo s Hid Hcount Hbufs He Hblk Hbuf]; subst q;
    rewrite app_nil_r in Hbuf.
  - destruct gs as [|g gs].
    + split; [reflexivity|]. cbn in Hbuf.
      destruct s as [fl i n b bs]. cbn in *. subst. reflexivity.
    + exfalso. rewrite Hbuf, blen_app in Hblk.
      pose proof (blen_bytes_of_cons g gs). pose proof (blen_nonneg rest). lia.
  - exfalso. rewrite Hbuf, frames_bytes_cons in Hblk.
    change (int32_bytes (blen f) ++ f ++ frames_bytes todo)
      with (int32_bytes (blen f) ++ f ++ frames_bytes todo) in Hblk.
    rewrite !blen_app, blen_frame_bytes, blen_int32_bytes in Hblk.
    pose proof (blen_nonneg (frames_bytes todo)).
    pose proof (blen_nonneg (bytes_of gs)). pose proof (blen_nonneg rest). lia.
Qed.

(** The new decoder is at the start of any stream. *)
Lemma At_new (rest : bytes) (gs : list Group) :
  At rest true gs (bytes_of gs ++ rest) new_NettyDecoder.
Proof. apply AtIdle; cbn; auto. reflexivity. Qed.

Lemma decoded_length (gs : list Group) :
  forall (e e' : bool) (objs : list (FrameGroup H)),
  decoded e gs = (e', objs, None) -> length objs = length gs.
Proof.
  induction gs as [|g gs IH]; intros e e' objs.
  - cbn. intros [= <- <-]. reflexivity.
  - cbn [Groups.decoded].
    destruct (_decode e (fst g) (Buffer.concat (snd g))) as [[e1 obj]|err]; [|discriminate].
    destruct (decoded e1 gs) as [[e2 objs2] err2] eqn:Hd.
    intros [= <- <- ->]. cbn [length]. f_equal. eauto.
Qed.

(** A stream of frame groups, in any chunks, then the end of the input. *)
Lemma decoder_end_stream (gs : list Group) (rest : bytes) (chunks : list bytes)
    (fuel : nat) :
  Forall well_formed gs ->
  blen rest < 8 ->
  List.concat chunks = bytes_of gs ++ rest ->
  (length gs + frame_count gs + 1 <= fuel)%nat ->
  match decoded true gs with
  | (e', objs, None) =>
      decoder_end fuel new_NettyDecoder chunks
      = Some (mkTransformed (mkDecoder e' None 0 rest []) objs
                (if 0 <? blen rest
                 then Some (ErrTrailing "trailing data" rest)
                 else None))
  | (_, objs, Some err) =>
      exists s',
        decoder_end fuel new_NettyDecoder chunks
        = Some (mkTransformed s' objs (Some err))
  end.
Proof.
  intros Hwf Hrest Hchunks Hfuel.
  pose proof (At_new rest gs) as HAt. rewrite <- Hchunks in HAt.
  rewrite <- (app_nil_r (List.concat chunks)) in HAt.
  destruct (write_all_stream rest chunks true gs [] new_NettyDecoder fuel []
              Hwf Hrest HAt Hfuel)
    as (t & Ht & gs1 & gs2 & e1 & objs1 & err & Hgs & Hd & Hp & He & Hq1 & HAt1).
  unfold Codec.decoder_end. rewrite Ht, He. cbn [app] in Hp.
  destruct err as [er|].
  - rewrite Hgs, (decoded_app_error gs1 gs2 true e1 objs1 er Hd).
    exists (t_state t). destruct t as [s' p er']. cbn in *. subst. reflexivity.
  - destruct (At_end rest e1 gs2 (t_state t) (HAt1 eq_refl)) as (-> & Hs).
    rewrite app_nil_r in Hgs. subst gs1. rewrite Hd, Hs, Hp.
    unfold Codec._flush. cbn [_buf _bufs length Z.of_nat Z.ltb Z.compare orb].
    rewrite orb_false_r. unfold Buffer.concat. cbn [List.concat].
    rewrite app_nil_r. reflexivity.
Qed.

Lemma decoded_prefix (gs1 gs2 : list Group) :
  forall (e e' : bool) (objs : list (FrameGroup H)),
  decoded e (gs1 ++ gs2) = (e', objs, None) ->
  exists e1, decoded e gs1 = (e1, firstn (length gs1) objs, None).
Proof.
  intros e e' objs Hd.
  destruct (decoded e gs1) as [[e1 objs1] [er|]] eqn:Hd1.
  - rewrite (decoded_app_error gs1 gs2 e e1 objs1 er Hd1) in Hd. discriminate.
  - rewrite (decoded_app gs1 gs2 e e1 objs1 Hd1) in Hd.
    destruct (decoded e1 gs2) as [[e2 objs2] err2]. injection Hd as <- <- ->.
    exists e1. rewrite <- (decoded_length gs1 e e1 objs1 Hd1).
    rewrite firstn_app, Nat.sub_diag, firstn_all. cbn. rewrite app_nil_r. reflexivity.
Qed.

Lemma blen_frames_bytes_cons (f : bytes) (fs : list bytes) :
  blen (frames_bytes (f :: fs)) = blen (frame_bytes f) + blen (frames_bytes fs).
Proof.
  rewrite frames_bytes_cons, !blen_app, blen_frame_bytes, blen_int32_bytes. lia.
Qed.

(** How far a waiting decoder has got: the bytes it has received beyond
    the groups it is done with do not make up the next group. *)
Lemma At_received (rest : bytes) (e : bool) (gs : list Group) (q : bytes) (s : Decoder)
    (total : bytes) :
  At rest e gs q s ->
  blen rest < 8 ->
  total ++ q = bytes_of gs ++ rest ->
  match gs with
  | [] => True
  | g :: _ => blen total < blen (group_bytes (fst g) (snd g))
  end.
Proof.
  intros HAt Hrest Htotal.
  assert (Hlen := f_equal blen Htotal). rewrite !blen_app in Hlen.
  destruct HAt as [e gs q s Hid Hcount Hbufs He Hblk Hbuf
                  |e idv fs gs q f todo s Hid Hcount Hbufs He Hblk Hbuf].
  - destruct gs as [|g gs]; [exact I|].
    assert (Hlen' := f_equal blen Hbuf). rewrite !blen_app in Hlen'.
    pose proof (blen_group_bytes (fst g) (snd g)). pose proof (blen_nonneg (_buf s)). lia.
  - cbn [fst snd].
    assert (Hlen' := f_equal blen Hbuf).
    rewrite !blen_app, blen_frames_bytes_cons in Hlen'.
    rewrite bytes_of_cons, blen_app in Hlen. cbn [fst snd] in Hlen.
    unfold group_bytes in *. rewrite <- Hbufs in *.
    rewrite !blen_app, frames_bytes_app, blen_app, blen_frames_bytes_cons,
      !blen_int32_bytes in *.
    pose proof (blen_nonneg (frames_bytes (_bufs s))).
    pose proof (blen_nonneg (frames_bytes todo)).
    pose proof (blen_nonneg (_buf s)). lia.
Qed.

(** *** An input that stops inside a group *)

(** Two ways of cutting a list of groups that ends with [last]. *)
Lemma groups_split (gs gs1 gs2 : list Group) (last g : Group) :
  gs ++ [last] = gs1 ++ g :: gs2 ->
  exists l, gs = gs1 ++ l /\ l ++ [last] = g :: gs2.
Proof.
  intros Heq. apply List.app_eq_app in Heq.
  destruct Heq as (l & [[H1 H2]|[H1 H2]]).
  - exists l. auto.
  - destruct l as [|x l].
    + exists []. rewrite app_nil_r in H1. cbn in H2. rewrite app_nil_r. auto.
    + exfalso. cbn in H2. injection H2 as _ H2. destruct l; discriminate.
Qed.

Lemma blen_pos (a : bytes) : a <> [] -> 0 < blen a.
Proof. destruct a; [congruence|]. intros _. unfold blen. cbn [length]. lia. Qed.

Lemma blen_frames_bytes_app (a b : list bytes) :
  blen (frames_bytes (a ++ b)) = blen (frames_bytes a) + blen (frames_bytes b).
Proof. rewrite frames_bytes_app, blen_app. reflexivity. Qed.

(** Where the decoder is in the frames of a group, given what it has
    still to receive of them. *)
Lemma frames_position (bufs todo0 done todo : list bytes) (f0 f buf r r' : bytes) :
  bufs ++ f0 :: todo0 = done ++ f :: todo ->
  blen buf < blen (frame_bytes f0) ->
  buf ++ r' ++ frames_bytes todo = frames_bytes (f0 :: todo0) ->
  r ++ r' = frame_bytes f ->
  r' <> [] ->
  bufs = done /\ f0 = f /\ todo0 = todo /\ buf = r.
Proof.
  intros Hsplit Hblk Hbuf Hr Hr'.
  pose proof (blen_pos r' Hr') as Hpos.
  assert (Hlen := f_equal blen Hbuf).
  rewrite !blen_app, blen_frames_bytes_cons in Hlen.
  assert (Hrlen := f_equal blen Hr). rewrite blen_app in Hrlen.
  pose proof (blen_nonneg buf). pose proof (blen_nonneg r).
  assert (Hsame : bufs = done /\ f0 :: todo0 = f :: todo).
  { apply List.app_eq_app in Hsplit.
    destruct Hsplit as (l & [[Hs1 Hs2]|[Hs1 Hs2]]).
    - destruct l as [|x l].
      + rewrite app_nil_r in Hs1. cbn in Hs2. auto.
      + exfalso. cbn in Hs2. injection Hs2 as -> Hs2. subst todo.
        rewrite blen_frames_bytes_app, blen_frames_bytes_cons in Hlen.
        pose proof (blen_nonneg (frames_bytes l)).
        pose proof (blen_nonneg (frames_bytes todo0)).
        pose proof (blen_frame_bytes f0). pose proof (blen_nonneg f0). lia.
    - destruct l as [|x l].
      + rewrite app_nil_r in Hs1. cbn in Hs2. auto.
      + exfalso. cbn in Hs2. injection Hs2 as -> Hs2. subst todo0.
        rewrite blen_frames_bytes_app, blen_frames_bytes_cons in Hlen.
        pose proof (blen_nonneg (frames_bytes l)).
        pose proof (blen_nonneg (frames_bytes todo)). lia. }
  destruct Hsame as (-> & [= -> ->]).
  repeat split; auto.
  apply (app_inv_tail (r' ++ frames_bytes todo)).
  rewrite Hbuf, frames_bytes_cons, (app_assoc r), Hr. unfold frame_bytes.
  rewrite <- app_assoc. reflexivity.
Qed.

(** Complete groups whose payloads decode, then a group cut inside its
    frame [f], after the frames [done] and the bytes [r] of [f]: the
    decoder has emitted the objects of the complete groups, has read
    [done], and holds [r]. *)
Lemma write_all_partial (gs : list Group) (idv : Z) (done todo : list bytes)
    (f r r' : bytes) (chunks : list bytes) (fuel : nat) (e' : bool)
    (objs : list (FrameGroup H)) :
  Forall well_formed gs ->
  well_formed (idv, done ++ f :: todo) ->
  decoded true gs = (e', objs, None) ->
  r ++ r' = frame_bytes f ->
  r' <> [] ->
  List.concat chunks
  = bytes_of gs ++ int32_bytes idv
    ++ int32_bytes (Z.of_nat (length (done ++ f :: todo)))
    ++ frames_bytes done ++ r ->
  (length gs + frame_count gs + length (done ++ f :: todo) + 2 <= fuel)%nat ->
  decoder_write_all fuel new_NettyDecoder chunks []
  = Some (mkTransformed
            (mkDecoder e' (Some idv) (Z.of_nat (length (f :: todo))) r done) objs None).
Proof.
  intros Hwf Hlast Hdec Hr Hr' Hchunks Hfuel.
  pose proof (blen_pos r' Hr') as Hpos.
  remember (done ++ f :: todo) as fs eqn:Hfs.
  set (q := r' ++ frames_bytes todo).
  assert (Hgroup : (int32_bytes idv ++ int32_bytes (Z.of_nat (length fs))
                    ++ frames_bytes done ++ r) ++ q
                   = group_bytes idv fs).
  { unfold q, group_bytes.
    replace (frames_bytes fs) with (frames_bytes (done ++ f :: todo))
      by (rewrite Hfs; reflexivity).
    rewrite frames_bytes_app, frames_bytes_cons, <- !app_assoc.
    do 3 f_equal. rewrite app_assoc, Hr. unfold frame_bytes.
    rewrite <- app_assoc. reflexivity. }
  assert (Hstream : List.concat chunks ++ q = bytes_of (gs ++ [(idv, fs)]) ++ []).
  { rewrite Hchunks, bytes_of_app, app_nil_r, <- app_assoc. f_equal.
    rewrite bytes_of_cons. cbn [fst snd bytes_of map List.concat].
    rewrite app_nil_r. exact Hgroup. }
  pose proof (At_new [] (gs ++ [(idv, fs)])) as HAt. rewrite <- Hstream in HAt.
  assert (Hwf' : Forall well_formed (gs ++ [(idv, fs)])).
  { apply Forall_app. split; [exact Hwf|]. apply List.Forall_cons; [exact Hlast|].
    apply List.Forall_nil. }
  assert (Hnil : blen (@nil byte) < 8) by (unfold blen; cbn; lia).
  destruct (write_all_stream [] chunks true (gs ++ [(idv, fs)]) q new_NettyDecoder
              fuel [] Hwf' Hnil HAt)
    as (t & Ht & gs1 & gs2 & e1 & objs1 & err & Hgs & Hd & Hp & He & Hq & HAt1).
  { rewrite length_app, frame_count_app, frame_count_cons. cbn. lia. }
  rewrite Ht. cbn [app] in Hp.
  destruct gs2 as [|g gs2].
  { exfalso. unfold q in Hq. rewrite blen_app in Hq. unfold blen in Hq at 3.
    cbn in Hq. pose proof (blen_nonneg (frames_bytes todo)). lia. }
  destruct (groups_split gs gs1 gs2 (idv, fs) g Hgs) as (l & Hgsl & Hl).
  rewrite Hgsl in Hdec.
  destruct (decoded_prefix gs1 l true e' objs Hdec) as (e1' & Hd1).
  rewrite Hd in Hd1. injection Hd1 as _ _ ->. specialize (HAt1 eq_refl).
  destruct l as [|g' l].
  2:{ exfalso. cbn [app] in Hl. injection Hl as <- <-.
      assert (Htotal : (bytes_of (g' :: l) ++ int32_bytes idv
                        ++ int32_bytes (Z.of_nat (length fs))
                        ++ frames_bytes done ++ r) ++ q
                       = bytes_of (g' :: l ++ [(idv, fs)]) ++ []).
      { change (g' :: l ++ [(idv, fs)]) with ((g' :: l) ++ [(idv, fs)]).
        rewrite bytes_of_app, app_nil_r, <- app_assoc. f_equal.
        rewrite bytes_of_cons. cbn [fst snd bytes_of map List.concat].
        rewrite app_nil_r. exact Hgroup. }
      pose proof (At_received [] e1 _ q (t_state t) _ HAt1 Hnil Htotal) as Hrec.
      cbn beta iota in Hrec. rewrite bytes_of_cons, !blen_app in Hrec.
      rewrite !blen_int32_bytes in Hrec.
      pose proof (blen_nonneg (bytes_of l)).
      pose proof (blen_nonneg (frames_bytes done)). pose proof (blen_nonneg r).
      lia. }
  rewrite app_nil_r in Hgsl. subst gs1. cbn [app] in Hl. injection Hl as <- <-.
  rewrite app_nil_r in Hdec. rewrite Hd in Hdec. injection Hdec as -> ->.
  destruct t as [s pushed er]. cbn [t_state t_pushed t_error] in *. subst pushed er.
  do 2 f_equal.
  inversion HAt1 as [e0 gs0 q0 s0 Hid Hcount Hbufs Hflag Hblk Hbuf
                    |e0 idv0 fs0 gs0 q0 f0 todo0 s0 Hid Hcount Hbufs Hflag Hblk Hbuf].
  - exfalso. assert (Hlen := f_equal blen Hbuf).
    rewrite bytes_of_cons in Hlen. cbn [fst snd bytes_of map List.concat] in Hlen.
    rewrite <- Hgroup in Hlen. rewrite !blen_app, !blen_int32_bytes in Hlen.
    pose proof (blen_nonneg (frames_bytes done)). pose proof (blen_nonneg r).
    pose proof (blen_nonneg (@nil byte)). lia.
  - cbn [bytes_of map List.concat] in Hbuf. rewrite !app_nil_r in Hbuf.
    rewrite Hfs in Hbufs.
    destruct (frames_position (_bufs s) todo0 done todo f0 f (_buf s) r r'
                Hbufs Hblk Hbuf Hr Hr') as (Hb & -> & -> & Hr0).
    destruct s as [fl i n b bs]. cbn in *. subst. reflexivity.
Qed.

(** X5: after any chunks of a stream of well-formed groups whose
    payloads decode, the decoder has emitted, without error, exactly the
    objects of the groups [gs1] it has wholly received: the bytes of
    [gs1] are within the input received, and the next group, if any, is
    not yet complete. *)
Theorem X5_decoder_emits_complete_groups (gs : list Group) (rest q : bytes)
    (chunks : list bytes) (fuel : nat) (e' : bool) (objs : list (FrameGroup H)) :
  Forall well_formed gs ->
  blen rest < 8 ->
  List.concat chunks ++ q = bytes_of gs ++ rest ->
  (length gs + frame_count gs + 1 <= fuel)%nat ->
  decoded true gs = (e', objs, None) ->
  exists (gs1 gs2 : list Group) (t : Transformed),
    gs = gs1 ++ gs2
    /\ decoder_write_all fuel new_NettyDecoder chunks [] = Some t
    /\ t_error t = None
    /\ t_pushed t = firstn (length gs1) objs
    /\ blen (bytes_of gs1) <= blen (List.concat chunks)
    /\ match gs2 with
       | [] => True
       | g :: _ =>
           blen (List.concat chunks)
           < blen (bytes_of gs1) + blen (group_bytes (fst g) (snd g))
       end.
Proof.
  intros Hwf Hrest Hchunks Hfuel Hdec.
  pose proof (At_new rest gs) as HAt. rewrite <- Hchunks in HAt.
  destruct (write_all_stream rest chunks true gs q new_NettyDecoder fuel []
              Hwf Hrest HAt Hfuel)
    as (t & Ht & gs1 & gs2 & e1 & objs1 & err & Hgs & Hd & Hp & He & Hq1 & HAt1).
  cbn [app] in Hp. rewrite Hgs in Hdec.
  destruct (decoded_prefix gs1 gs2 true e' objs Hdec) as (e1' & Hd1).
  rewrite Hd in Hd1.
  assert (Herr : err = None) by congruence.
  assert (Ho : objs1 = firstn (length gs1) objs) by congruence.
  specialize (HAt1 Herr). rewrite Herr in He. rewrite Ho in Hp.
  exists gs1, gs2, t. repeat split; auto.
  - pose proof (At_buffered rest e1 gs2 q (t_state t) HAt1) as Hq.
    assert (Hlen := f_equal blen Hchunks).
    rewrite Hgs, bytes_of_app, !blen_app in Hlen. rewrite blen_app in Hq. lia.
  - assert (Heq : List.concat chunks ++ q = bytes_of gs1 ++ bytes_of gs2 ++ rest).
    { rewrite Hchunks, Hgs, bytes_of_app, <- app_assoc. reflexivity. }
    destruct (List.app_eq_app _ _ _ _ Heq) as (l & [[Hc Hl]|[Hc Hl]]).
    + pose proof (At_received rest e1 gs2 q (t_state t) l HAt1 Hrest (eq_sym Hl)) as Hr.
      destruct gs2 as [|g gs2]; [exact I|].
      rewrite Hc, blen_app. lia.
    + destruct gs2 as [|g gs2]; [exact I|].
      assert (Hlen := f_equal blen Hc). rewrite blen_app in Hlen.
      pose proof (blen_group_bytes (fst g) (snd g)). pose proof (blen_nonneg l). lia.
Qed.

(** *** Encoding a sequence of objects, then decoding it *)

Abbreviation encoder_write_all := (Groups.encoder_write_all handshakeType mapOfBytesType).
Abbreviation round_trips := (Groups.round_trips handshakeType mapOfBytesType).

Lemma encoder_write_all_groups (objs : list (FrameGroup H)) :
  Forall round_trips objs ->
  exists (pushed : list bytes) (gs : list Group),
    encoder_write_all objs = (pushed, CbOk)
    /\ List.concat pushed = bytes_of gs
    /\ Forall well_formed gs
    /\ decoded true gs = (true, objs, None)
    /\ length gs = length objs
    /\ frame_count gs = (2 * length objs)%nat.
Proof.
  induction objs as [|obj objs IH]; intros Hrt.
  - exists [], []. cbn. repeat split; auto.
  - pose proof (Forall_inv Hrt) as (h & hb & mb & Hh & Hid & Hhb & Hmb & Hlh & Hlp & Hdh & Hdm).
    destruct (IH (Forall_inv_tail Hrt)) as (pushed' & gs & Henc' & Hc' & Hwf & Hdec & Hlen & Hfc).
    set (payload := mb ++ body (packet obj)).
    assert (Henc : Codec._encode handshakeType mapOfBytesType obj = Normal [hb; payload]).
    { unfold Codec._encode, Codec.toPayload. rewrite Hmb. cbn [cbind].
      rewrite Hh, Hhb. cbn [cbind]. unfold Buffer.concat. cbn [List.concat].
      rewrite app_nil_r. reflexivity. }
    assert (Hfit : frames_fit [hb; payload]) by (repeat constructor; assumption).
    destruct (encoder_transform_bytes handshakeType mapOfBytesType obj [hb; payload] Henc Hid)
      as (pushed & Hp & Hc); [cbn; lia|exact Hfit|].
    subst payload.
    exists (pushed ++ pushed'), ((id obj, [hb; mb ++ body (packet obj)]) :: gs).
    cbn [Groups.encoder_write_all]. rewrite Hp, Henc'.
    rewrite concat_app, Hc, Hc', bytes_of_cons.
    cbn [Groups.decoded fst snd].
    rewrite (decode_encoded handshakeType mapOfBytesType obj h hb mb Hh Hdh Hdm), Hdec.
    rewrite frame_count_cons, Hfc. cbn [length snd]. rewrite Hlen.
    repeat split; auto; [|lia].
    constructor; [|exact Hwf]. repeat split; cbn [fst snd length]; auto; lia.
Qed.

(** X6: a sequence of objects that each carry a handshake and are read
    back by their codecs: the bytes the encoder pushes for them, written
    in any chunks to a new decoder, make it emit exactly that sequence,
    in order, leave it in its initial state and raise no error at the
    end of the input. *)
Theorem X6_stream_roundtrip (objs : list (FrameGroup H)) :
  Forall round_trips objs ->
  exists pushed,
    encoder_write_all objs = (pushed, CbOk)
    /\ forall (chunks : list bytes) (fuel : nat),
         List.concat chunks = List.concat pushed ->
         (3 * length objs + 1 <= fuel)%nat ->
         decoder_end fuel new_NettyDecoder chunks
         = Some (mkTransformed new_NettyDecoder objs None).
Proof.
  intros Hrt.
  destruct (encoder_write_all_groups objs Hrt)
    as (pushed & gs & Henc & Hc & Hwf & Hdec & Hlen & Hfc).
  exists pushed. split; [exact Henc|]. intros chunks fuel Hchunks Hfuel.
  pose proof (decoder_end_stream gs [] chunks fuel Hwf) as Hs.
  rewrite Hdec in Hs. apply Hs.
  - unfold blen. cbn. lia.
  - rewrite Hchunks, Hc, app_nil_r. reflexivity.
  - rewrite Hlen, Hfc. lia.
Qed.

(** *** Frames are transparent *)

(** X7: frame boundaries carry no meaning.  Two groups with the same id
    whose frames concatenate to the same payload, each written in any
    chunks to a new decoder, make it emit the same objects and the same
    error. *)
Theorem X7_frames_transparent (idv : Z) (fs fs' : list bytes) (rest : bytes)
    (chunks chunks' : list bytes) (fuel fuel' : nat) :
  well_formed (idv, fs) -> well_formed (idv, fs') ->
  Buffer.concat fs = Buffer.concat fs' ->
  blen rest < 8 ->
  List.concat chunks = group_bytes idv fs ++ rest ->
  List.concat chunks' = group_bytes idv fs' ++ rest ->
  (length fs + 2 <= fuel)%nat ->
  (length fs' + 2 <= fuel')%nat ->
  exists t t',
    decoder_end fuel new_NettyDecoder chunks = Some t
    /\ decoder_end fuel' new_NettyDecoder chunks' = Some t'
    /\ t_pushed t = t_pushed t'
    /\ t_error t = t_error t'.
Proof.
  intros Hwf Hwf' Hsame Hrest Hc Hc' Hfuel Hfuel'.
  assert (Hb : forall l, group_bytes idv l = bytes_of [(idv, l)]).
  { intros l. unfold bytes_of. cbn [map List.concat fst snd].
    rewrite app_nil_r. reflexivity. }
  rewrite Hb in Hc, Hc'.
  assert (Hwfs : forall l, well_formed (idv, l) -> Forall well_formed [(idv, l)]).
  { intros l Hl. apply List.Forall_cons; [exact Hl|apply List.Forall_nil]. }
  assert (Hs := decoder_end_stream [(idv, fs)] rest chunks fuel (Hwfs fs Hwf) Hrest Hc).
  assert (Hs' := decoder_end_stream [(idv, fs')] rest chunks' fuel' (Hwfs fs' Hwf')
                   Hrest Hc').
  cbn [Groups.decoded fst snd] in Hs, Hs'. rewrite <- Hsame in Hs'.
  rewrite frame_count_cons in Hs, Hs'. cbn [length frame_count fold_right snd] in Hs, Hs'.
  specialize (Hs ltac:(lia)). specialize (Hs' ltac:(lia)).
  destruct (_decode true idv (Buffer.concat fs)) as [[e' obj]|err].
  - eexists _, _. split; [exact Hs|]. split; [exact Hs'|]. split; reflexivity.
  - destruct Hs as (s1 & Hs). destruct Hs' as (s2 & Hs').
    eexists _, _. split; [exact Hs|]. split; [exact Hs'|]. split; reflexivity.
Qed.

(** *** A frame loop that makes no progress *)

(** With a negative frame count and a frame length of -4 the frame loop
    reads an empty frame and leaves the buffer as it is, for ever. *)
Lemma read_frames_stuck (fuel : nat) :
  forall (n : Z) (bufs : list bytes) (tail : bytes),
  n < 0 ->
  Codec.read_frames fuel n bufs ([xff; xff; xff; xfc] ++ tail) = None.
Proof.
  induction fuel as [|fuel IH]; intros n bufs tail Hn;
    cbn [Codec.read_frames];
    replace (n =? 0) with false by (symmetry; apply Z.eqb_neq; lia);
    assert (Hr : readInt32BE ([xff; xff; xff; xfc] ++ tail) 0 = Some (-4)) by reflexivity;
    rewrite Hr;
    assert (Hlen : blen ([xff; xff; xff; xfc] ++ tail) = 4 + blen tail)
      by (rewrite blen_app; reflexivity);
    rewrite Hlen; pose proof (blen_nonneg tail);
    replace (4 <=? 4 + blen tail) with true by (symmetry; apply Z.leb_le; lia);
    replace (-4 + 4 <=? 4 + blen tail) with true by (symmetry; apply Z.leb_le; lia);
    cbn [negb andb]; [reflexivity|].
  change (-4 + 4) with 0. rewrite slice_from_0.
  apply (IH (n - 1) _ tail). lia.
Qed.

(** X8: a group header announcing a negative number of frames, followed
    by a frame length of -4 ([ff ff ff fc]): the frame loop reads an
    empty frame, leaves the buffer as it is and decrements the count
    away from zero, so the [_transform] call does not return, however
    many iterations it is allowed. *)
Theorem X8_negative_count_never_returns (idv n : Z) (tail : bytes) (fuel : nat) :
  - 2 ^ 31 <= idv < 2 ^ 31 ->
  - 2 ^ 31 <= n < 0 ->
  decoder_transform fuel new_NettyDecoder
    (int32_bytes idv ++ int32_bytes n ++ [xff; xff; xff; xfc] ++ tail)
  = None.
Proof.
  intros Hid Hn. unfold Codec.decoder_transform, Buffer.concat.
  cbn [List.concat Codec._buf Codec.new_NettyDecoder]. rewrite app_nil_r.
  change ([] ++ ?l) with l.
  destruct fuel as [|fuel]; [reflexivity|].
  cbn [Codec.transform_loop Codec._id Codec.new_NettyDecoder Codec._bufs
         Codec._expectHandshake Codec._frameCount].
  set (x := [xff; xff; xff; xfc] ++ tail).
  destruct (blen (int32_bytes idv ++ int32_bytes n ++ x) <? 8) eqn:E8.
  { rewrite !blen_app, !blen_int32_bytes in E8. pose proof (blen_nonneg x). lia. }
  rewrite readInt32BE_int32_bytes by lia.
  rewrite readInt32BE_at_4 by (auto; lia).
  replace (slice_from (int32_bytes idv ++ int32_bytes n ++ x) 8) with x.
  - unfold x. rewrite read_frames_stuck by lia. reflexivity.
  - rewrite app_assoc.
    change 8 with (blen (int32_bytes idv ++ int32_bytes n)).
    symmetry. apply slice_from_app.
Qed.

(** *** The encoder and the packet payload *)

Abbreviation encoder_transform := (Codec.encoder_transform handshakeType mapOfBytesType).
Abbreviation toPayload := (Codec.toPayload mapOfBytesType).
Abbreviation forPayload := (Codec.forPayload mapOfBytesType).

(** X1: the wire layout of an object.  When the headers (and the
    handshake, if any) encode and the id and the lengths fit 32 bits, the
    encoder pushes the 8-byte header (id, then the number of frames: 2
    with a handshake, 1 without), and then each frame as its 4-byte
    length followed by its bytes: the handshake frame first, then the
    payload, which is the encoded headers followed by the body. *)
Theorem X1_encoder_layout (obj : FrameGroup H) (mb : bytes) (hbs : list bytes) :
  toBuffer mapOfBytesType (headers (packet obj)) = Normal mb ->
  match handshake obj with
  | Some h => exists hb, toBuffer handshakeType h = Normal hb /\ hbs = [hb]
  | None => hbs = []
  end ->
  - 2 ^ 31 <= id obj < 2 ^ 31 ->
  frames_fit (hbs ++ [mb ++ body (packet obj)]) ->
  encoder_transform obj
  = ((int32_bytes (id obj)
      ++ int32_bytes (Z.of_nat (length (hbs ++ [mb ++ body (packet obj)]))))
     :: List.concat (map (fun f => [int32_bytes (blen f); f])
                       (hbs ++ [mb ++ body (packet obj)])),
     CbOk).
Proof.
  intros Hmb Hhs Hid Hfit.
  assert (Henc : Codec._encode handshakeType mapOfBytesType obj
                 = Normal (hbs ++ [mb ++ body (packet obj)])).
  { unfold Codec._encode, Codec.toPayload. rewrite Hmb. cbn [cbind].
    unfold Buffer.concat. cbn [List.concat]. rewrite app_nil_r.
    destruct (handshake obj) as [h|].
    - destruct Hhs as (hb & Hhb & ->). rewrite Hhb. reflexivity.
    - subst hbs. reflexivity. }
  unfold Codec.encoder_transform. rewrite Henc.
  assert (Hlen : (length (hbs ++ [mb ++ body (packet obj)]) <= 2)%nat).
  { destruct (handshake obj); [destruct Hhs as (hb & _ & ->)|subst hbs]; cbn; lia. }
  rewrite !writeInt32BE_some by lia.
  generalize (int32_bytes (id obj)
              ++ int32_bytes (Z.of_nat (length (hbs ++ [mb ++ body (packet obj)])))).
  revert Hfit. generalize (hbs ++ [mb ++ body (packet obj)]). clear.
  intros fs Hfit hd.
  change (hd :: List.concat (map (fun f => [int32_bytes (blen f); f]) fs))
    with ([hd] ++ List.concat (map (fun f => [int32_bytes (blen f); f]) fs)).
  generalize [hd] as pushed. induction fs as [|f fs IH]; intros pushed.
  - cbn. rewrite app_nil_r. reflexivity.
  - pose proof (Forall_inv Hfit) as Hf. cbn beta in Hf.
    cbn [Codec.push_frames map List.concat].
    rewrite writeInt32BE_some by (pose proof (blen_nonneg f); lia).
    rewrite (IH (Forall_inv_tail Hfit)). rewrite <- !app_assoc. reflexivity.
Qed.

(** X2: what the encoder does when it cannot encode.  If the headers do
    not encode, or (the headers being encoded first) the handshake does
    not, [_transform] pushes nothing and passes the error to its
    callback; if the object encodes but its id is outside the signed
    32-bit range, nothing is pushed and the [RangeError] of [writeInt32BE]
    leaves [_transform]. *)
Theorem X2_encoder_failures :
  (forall (obj : FrameGroup H) (e : JsError),
     toBuffer mapOfBytesType (headers (packet obj)) = Throw e ->
     encoder_transform obj = ([], CbErr e))
  /\ (forall (obj : FrameGroup H) (mb : bytes) (h : H) (e : JsError),
        toBuffer mapOfBytesType (headers (packet obj)) = Normal mb ->
        handshake obj = Some h ->
        toBuffer handshakeType h = Throw e ->
        encoder_transform obj = ([], CbErr e))
  /\ (forall (obj : FrameGroup H) (bufs : list bytes),
        Codec._encode handshakeType mapOfBytesType obj = Normal bufs ->
        ~ (- 2 ^ 31 <= id obj < 2 ^ 31) ->
        encoder_transform obj = ([], Uncaught (RangeError "value out of range"))).
Proof.
  split; [|split].
  - intros obj e He. unfold Codec.encoder_transform, Codec._encode, Codec.toPayload.
    rewrite He. reflexivity.
  - intros obj mb h e Hmb Hh He.
    unfold Codec.encoder_transform, Codec._encode, Codec.toPayload.
    rewrite Hmb. cbn [cbind]. rewrite Hh, He. reflexivity.
  - intros obj bufs Henc Hid. unfold Codec.encoder_transform. rewrite Henc.
    unfold writeInt32BE.
    destruct ((- 2 ^ 31 <=? id obj) && (id obj <? 2 ^ 31)) eqn:E; [|reflexivity].
    exfalso. apply Hid. apply andb_prop in E. lia.
Qed.

(** X3: [toPayload] writes the encoded headers followed by the body, and
    [forPayload] reads the packet back from those bytes, provided the
    header codec reads the headers back from the start of the payload. *)
Theorem X3_packet_roundtrip (pkt : NettyPacket) (mb : bytes) :
  toBuffer mapOfBytesType (headers pkt) = Normal mb ->
  decode mapOfBytesType (mb ++ body pkt) 0
  = Normal (mkDecodeResult (Some (headers pkt)) (blen mb)) ->
  toPayload pkt = Normal (mb ++ body pkt)
  /\ forPayload (mb ++ body pkt) = Normal pkt.
Proof.
  intros Hmb Hd. split.
  - unfold Codec.toPayload. rewrite Hmb. cbn [cbind]. unfold Buffer.concat.
    cbn [List.concat]. rewrite app_nil_r. reflexivity.
  - unfold Codec.forPayload. rewrite Hd. cbn [cbind offset value].
    pose proof (blen_nonneg mb). destruct (blen mb <? 0) eqn:E; [lia|].
    rewrite slice_from_app. destruct pkt. reflexivity.
Qed.

(** X4: a stream of well-formed frame groups followed by fewer than
    eight stray bytes, written in any chunks to a new decoder.  If every
    payload decodes, the decoder emits the decoded objects in order, ends
    between two groups holding the stray bytes, and at the end of the
    input raises "trailing data" with exactly those bytes, or nothing if
    there are none.  If a payload does not decode, the decoder emits the
    objects before it and then that error. *)
Theorem X4_decoder_reads_stream (gs : list Group) (rest : bytes) (chunks : list bytes)
    (fuel : nat) :
  Forall well_formed gs ->
  blen rest < 8 ->
  List.concat chunks = bytes_of gs ++ rest ->
  (length gs + frame_count gs + 1 <= fuel)%nat ->
  match decoded true gs with
  | (e', objs, None) =>
      decoder_end fuel new_NettyDecoder chunks
      = Some (mkTransformed (mkDecoder e' None 0 rest []) objs
                (if 0 <? blen rest
                 then Some (ErrTrailing "trailing data" rest)
                 else None))
  | (_, objs, Some err) =>
      exists s',
        decoder_end fuel new_NettyDecoder chunks
        = Some (mkTransformed s' objs (Some err))
  end.
Proof. apply decoder_end_stream. Qed.

(** C9 (amended): the end of the input, written in any chunks.
    - Complete frame groups followed by fewer than eight stray bytes
      (possibly none, possibly no group at all): if every payload
      decodes, the objects are emitted and "trailing data" is raised
      with [trailingData] exactly the stray bytes, and nothing is raised
      when there are none; if a payload does not decode, the decoder
      emits that error and no "trailing data".
    - Complete groups whose payloads decode, then a group cut inside a
      frame, after its frames [done] and the bytes [r] of that frame:
      [trailingData] is [r] followed by the bodies of [done], without the
      group header and the length prefixes of [done]; if the input stops
      right after the header ([r] and [done] empty) nothing is raised. *)
Theorem C9_trailing_data :
  (forall (gs : list Group) (rest : bytes) (chunks : list bytes) (fuel : nat),
     Forall well_formed gs ->
     blen rest < 8 ->
     List.concat chunks = bytes_of gs ++ rest ->
     (length gs + frame_count gs + 1 <= fuel)%nat ->
     match decoded true gs with
     | (e', objs, None) =>
         decoder_end fuel new_NettyDecoder chunks
         = Some (mkTransformed (mkDecoder e' None 0 rest []) objs
                   (if 0 <? blen rest
                    then Some (ErrTrailing "trailing data" rest)
                    else None))
     | (_, objs, Some err) =>
         exists s',
           decoder_end fuel new_NettyDecoder chunks
           = Some (mkTransformed s' objs (Some err))
     end)
  /\ (forall (gs : list Group) (idv : Z) (done todo : list bytes) (f r r' : bytes)
             (chunks : list bytes) (fuel : nat) (e' : bool)
             (objs : list (FrameGroup H)),
        Forall well_formed gs ->
        well_formed (idv, done ++ f :: todo) ->
        decoded true gs = (e', objs, None) ->
        r ++ r' = frame_bytes f ->
        r' <> [] ->
        List.concat chunks
        = bytes_of gs ++ int32_bytes idv
          ++ int32_bytes (Z.of_nat (length (done ++ f :: todo)))
          ++ frames_bytes done ++ r ->
        (length gs + frame_count gs + length (done ++ f :: todo) + 2 <= fuel)%nat ->
        decoder_end fuel new_NettyDecoder chunks
        = Some (mkTransformed
                  (mkDecoder e' (Some idv) (Z.of_nat (length (f :: todo))) r done) objs
                  (if (0 <? blen r) || (0 <? Z.of_nat (length done))
                   then Some (ErrTrailing "trailing data" (r ++ List.concat done))
                   else None))).
Proof.
  split; [exact decoder_end_stream|].
  intros gs idv done todo f r r' chunks fuel e' objs Hwf Hlast Hdec Hr Hr' Hchunks Hfuel.
  unfold Codec.decoder_end.
  rewrite (write_all_partial gs idv done todo f r r' chunks fuel e' objs); auto.
Qed.

End StreamFacts.

(** *** On the Avro codecs *)

Import Codec Groups.

Lemma sample_groups_well_formed : Forall well_formed SampleStream.groups.
Proof.
  repeat apply List.Forall_cons; try apply List.Forall_nil;
    (split; [cbn; lia|split; [cbn; lia|]]);
    repeat apply List.Forall_cons; try apply List.Forall_nil; vm_compute; reflexivity.
Defined.

(** C9, at the sample stream (two responses and three stray bytes, in
    three chunks), and at the first sample group followed by
    [Sample.cut_input], a group cut inside its second frame. *)
Lemma C9_trailing_data_witness :
  decoder_end Avro.handshakeResponseType Avro.mapOfBytesType 7 new_NettyDecoder
    SampleStream.chunks
  = Some (mkTransformed (mkDecoder true None 0 [x01; x02; x03] [])
            [Sample.response; SampleStream.response2]
            (Some (ErrTrailing "trailing data" [x01; x02; x03])))
  /\ decoder_end Avro.handshakeResponseType Avro.mapOfBytesType 7 new_NettyDecoder
       [firstn 30 (bytes_of [(7, SampleStream.frames1)]);
        skipn 30 (bytes_of [(7, SampleStream.frames1)]) ++ Sample.cut_input]
     = Some (mkTransformed
               (mkDecoder true (Some 1) 1 [x00; x00; x00; x02; xbb] [[xaa]])
               [Sample.response]
               (Some (ErrTrailing "trailing data" [x00; x00; x00; x02; xbb; xaa]))).
Proof.
  destruct (C9_trailing_data Avro.handshakeResponseType Avro.mapOfBytesType)
    as (Hstray & Hcut).
  split.
  - apply (Hstray SampleStream.groups SampleStream.stray SampleStream.chunks 7%nat).
    + exact sample_groups_well_formed.
    + vm_compute. reflexivity.
    + vm_compute. reflexivity.
    + vm_compute. lia.
  - apply (Hcut [(7, SampleStream.frames1)] 1 [[xaa]] [] [xbb; xcc]
             [x00; x00; x00; x02; xbb] [xcc] _ 7%nat true [Sample.response]).
    + apply List.Forall_cons; [|apply List.Forall_nil].
      exact (Forall_inv sample_groups_well_formed).
    + split; [cbn; lia|split; [cbn; lia|]].
      repeat apply List.Forall_cons; try apply List.Forall_nil; vm_compute; reflexivity.
    + vm_compute. reflexivity.
    + reflexivity.
    + discriminate.
    + vm_compute. reflexivity.
    + vm_compute. lia.
Defined.

(** X1, at [Sample.response]. *)
Lemma X1_encoder_layout_witness :
  encoder_transform Avro.handshakeResponseType Avro.mapOfBytesType Sample.response
  = ([[x00; x00; x00; x07; x00; x00; x00; x02];
      [x00; x00; x00; x10];
      [x04; x02; x08; x70; x74; x63; x6c; x00; x02; x02; x02; x6b; x04; x01; x02; x00];
      [x00; x00; x00; x08];
      [x02; x02; x68; x02; xff; x00; x00; x2a]], CbOk).
Proof.
  apply (X1_encoder_layout Avro.handshakeResponseType Avro.mapOfBytesType
           Sample.response [x02; x02; x68; x02; xff; x00]
           [[x04; x02; x08; x70; x74; x63; x6c; x00; x02; x02; x02; x6b; x04; x01; x02; x00]]).
  - reflexivity.
  - eexists. split; reflexivity.
  - cbn. lia.
  - repeat apply List.Forall_cons; try apply List.Forall_nil; vm_compute; reflexivity.
Defined.

(** X2, at a response whose server hash is not an MD5 hash: the handshake
    does not encode. *)
Lemma X2_encoder_failures_witness :
  encoder_transform Avro.handshakeResponseType Avro.mapOfBytesType
    (mkFrameGroup (Some (HandshakeResponse.mk BOTH None (Some [x01]) None)) 7
       (new_NettyPacket [x2a] None))
  = ([], CbErr (Err "invalid HandshakeResponse")).
Proof.
  destruct (X2_encoder_failures Avro.handshakeResponseType Avro.mapOfBytesType)
    as (_ & Hhs & _).
  apply (Hhs _ [x00] (HandshakeResponse.mk BOTH None (Some [x01]) None));
    reflexivity.
Defined.

(** X3, at the packet of [Sample.response]. *)
Lemma X3_packet_roundtrip_witness :
  toPayload Avro.mapOfBytesType (packet Sample.response)
  = Normal [x02; x02; x68; x02; xff; x00; x00; x2a]
  /\ forPayload Avro.mapOfBytesType [x02; x02; x68; x02; xff; x00; x00; x2a]
     = Normal (packet Sample.response).
Proof.
  apply (X3_packet_roundtrip Avro.mapOfBytesType (packet Sample.response)
           [x02; x02; x68; x02; xff; x00]).
  - reflexivity.
  - vm_compute. reflexivity.
Defined.

(** X4, at the sample stream: two groups and three stray bytes, in three
    chunks. *)
Lemma X4_decoder_reads_stream_witness :
  decoder_end Avro.handshakeResponseType Avro.mapOfBytesType 7 new_NettyDecoder
    SampleStream.chunks
  = Some (mkTransformed (mkDecoder true None 0 SampleStream.stray [])
            [Sample.response; SampleStream.response2]
            (Some (ErrTrailing "trailing data" SampleStream.stray))).
Proof.
  apply (X4_decoder_reads_stream Avro.handshakeResponseType Avro.mapOfBytesType
           SampleStream.groups SampleStream.stray SampleStream.chunks 7).
  - exact sample_groups_well_formed.
  - vm_compute. reflexivity.
  - vm_compute. reflexivity.
  - vm_compute. lia.
Defined.

(** X5, at the sample stream cut inside the header of its second group:
    the first response has been emitted, and only it. *)
Lemma X5_decoder_emits_complete_groups_witness :
  exists (gs1 gs2 : list Group) (t : Transformed),
    SampleStream.groups = gs1 ++ gs2
    /\ decoder_write_all Avro.handshakeResponseType Avro.mapOfBytesType 7
         new_NettyDecoder SampleStream.early_chunks [] = Some t
    /\ t_error t = None
    /\ t_pushed t = firstn (length gs1) [Sample.response; SampleStream.response2]
    /\ blen (bytes_of gs1) <= blen (List.concat SampleStream.early_chunks)
    /\ match gs2 with
       | [] => True
       | g :: _ =>
           blen (List.concat SampleStream.early_chunks)
           < blen (bytes_of gs1) + blen (Wire.group_bytes (fst g) (snd g))
       end.
Proof.
  apply (X5_decoder_emits_complete_groups Avro.handshakeResponseType
           Avro.mapOfBytesType SampleStream.groups SampleStream.stray
           (skipn 45 SampleStream.stream) SampleStream.early_chunks 7 true).
  - exact sample_groups_well_formed.
  - vm_compute. reflexivity.
  - vm_compute. reflexivity.
  - vm_compute. lia.
  - vm_compute. reflexivity.
Defined.

Lemma sample_responses_round_trip :
  Forall (round_trips Avro.handshakeResponseType Avro.mapOfBytesType)
    [Sample.response; SampleStream.response2].
Proof.
  apply List.Forall_cons; [|apply List.Forall_cons; [|apply List.Forall_nil]].
  - exists (HandshakeResponse.mk NONE (Some "ptcl"%string) None
              (Some [("k"%string, [x01; x02])])),
      [x04; x02; x08; x70; x74; x63; x6c; x00; x02; x02; x02; x6b; x04; x01; x02; x00],
      [x02; x02; x68; x02; xff; x00].
    repeat split; try (vm_compute; reflexivity); cbn; lia.
  - exists (HandshakeResponse.mk BOTH None None None), [x00; x00; x00; x00], [x00].
    repeat split; try (vm_compute; reflexivity); cbn; lia.
Defined.

(** X6, at the two sample responses. *)
Lemma X6_stream_roundtrip_witness :
  exists pushed,
    encoder_write_all Avro.handshakeResponseType Avro.mapOfBytesType
      [Sample.response; SampleStream.response2] = (pushed, CbOk)
    /\ forall (chunks : list bytes) (fuel : nat),
         List.concat chunks = List.concat pushed ->
         (3 * length [Sample.response; SampleStream.response2] + 1 <= fuel)%nat ->
         decoder_end Avro.handshakeResponseType Avro.mapOfBytesType fuel
           new_NettyDecoder chunks
         = Some (mkTransformed new_NettyDecoder
                   [Sample.response; SampleStream.response2] None).
Proof.
  apply (X6_stream_roundtrip Avro.handshakeResponseType Avro.mapOfBytesType
           [Sample.response; SampleStream.response2]).
  exact sample_responses_round_trip.
Defined.

(** X7, at the group of [Sample.response] with its payload in two frames
    and in one. *)
Lemma X7_frames_transparent_witness :
  exists t t',
    decoder_end Avro.handshakeResponseType Avro.mapOfBytesType 4 new_NettyDecoder
      [Wire.group_bytes 7 SampleStream.frames1] = Some t
    /\ decoder_end Avro.handshakeResponseType Avro.mapOfBytesType 3 new_NettyDecoder
         [Wire.group_bytes 7 SampleStream.frames1_joined] = Some t'
    /\ t_pushed t = t_pushed t'
    /\ t_error t = t_error t'.
Proof.
  apply (X7_frames_transparent Avro.handshakeResponseType Avro.mapOfBytesType
           7 SampleStream.frames1 SampleStream.frames1_joined []).
  - split; [cbn; lia|split; [cbn; lia|]].
    repeat apply List.Forall_cons; try apply List.Forall_nil; vm_compute; reflexivity.
  - split; [cbn; lia|split; [cbn; lia|]].
    repeat apply List.Forall_cons; try apply List.Forall_nil; vm_compute; reflexivity.
  - vm_compute. reflexivity.
  - vm_compute. reflexivity.
  - cbn [List.concat]. rewrite !app_nil_r. reflexivity.
  - cbn [List.concat]. rewrite !app_nil_r. reflexivity.
  - cbn. lia.
  - cbn. lia.
Defined.

(** X8, at the header of call [1] announcing -1 frames. *)
Lemma X8_negative_count_never_returns_witness :
  decoder_transform Avro.handshakeResponseType Avro.mapOfBytesType 1000
    new_NettyDecoder
    (Buffer.int32_bytes 1 ++ Buffer.int32_bytes (-1) ++ [xff; xff; xff; xfc] ++ [])
  = None.
Proof.
  apply (X8_negative_count_never_returns Avro.handshakeResponseType
           Avro.mapOfBytesType 1 (-1) [] 1000); lia.
Defined.

End StreamFacts.

(** ** The bridge: calls, responses and the end of the bridge *)

Module BridgeCalls.
Section BridgeCalls.
Import Bridge RunFacts BridgeFacts.

Context {Json Labels Deadline Continuation : Type}.
Variable JSON_stringify : Json -> string.
Variable new_Service : option string -> Completion (Service.t Json).
Variable mapOfJsonType_toBuffer : Labels -> Completion bytes.
Variable dateTimeType_toBuffer : Deadline -> Completion bytes.

Abbreviation Bridge := (@Bridge.t Json Continuation).
Abbreviation CallRecord := (@Bridge.CallRecord Json Continuation).
Abbreviation Effect := (@Bridge.Effect Json Continuation).
Abbreviation B := (M Bridge Effect).
Abbreviation on_data := (Bridge.on_data (Continuation := Continuation) JSON_stringify new_Service).
Abbreviation server_service :=
  (Bridge.server_service (Continuation := Continuation) new_Service).
Abbreviation channel_call :=
  (Bridge.channel_call (Continuation := Continuation) JSON_stringify
     mapOfJsonType_toBuffer dateTimeType_toBuffer).
Abbreviation _send := (Bridge._send (Continuation := Continuation) JSON_stringify).
Abbreviation _track :=
  (Bridge._track (Continuation := Continuation) mapOfJsonType_toBuffer dateTimeType_toBuffer).

(** *** Closing *)

Lemma close_run (b : Bridge) :
  close b
  = mkRun (set_closed true b)
      (if closed b then [] else [Emit "close" None]) (Normal tt).
Proof. destruct b as [[|] rd wr ss hh cbs]; reflexivity. Qed.

(** *** Releasing the streams *)

Lemma release_run (cl : bool) (r w : Stream) (ss : gmap string (Service.t Json))
    (hh : gmap string string) (cbs : list (Z * CallRecord)) :
  _release (mk cl (Some r) (Some w) ss hh cbs)
  = mkRun (mk cl None None ss hh cbs) (release_effects r w) (Normal tt).
Proof. reflexivity. Qed.

Lemma omap_delete_head {V} (k : Z) (v : V) (m : list (Z * V)) :
  ~ In k (map fst m) -> omap_delete k ((k, v) :: m) = m.
Proof.
  intros Hk. unfold omap_delete. cbn [List.filter fst]. rewrite Z.eqb_refl. cbn [negb].
  induction m as [|[k' v'] m IH]; [reflexivity|].
  cbn [List.filter fst]. cbn [map fst] in Hk.
  destruct (k =? k') eqn:E.
  - apply Z.eqb_eq in E. exfalso. apply Hk. left. auto.
  - cbn [negb]. f_equal. apply IH. intros Hin. apply Hk. right. exact Hin.
Qed.

(** Calling the stored continuation of the first pending call. *)
Lemma call_cb_head (cl : bool) (r w : Stream) (ss : gmap string (Service.t Json))
    (hh : gmap string string) (k : Z) (obj : CallRecord) (rest : list (Z * CallRecord))
    (args : CbArgs) :
  armed obj = true ->
  Packet.id (preq obj) = k ->
  ~ In k (map fst rest) ->
  call_cb obj args (mk cl (Some r) (Some w) ss hh ((k, obj) :: rest))
  = match rest with
    | [] =>
        if cl
        then mkRun (mk cl None None ss hh []) (release_effects r w ++ [Invoke (cb obj) args])
               (Normal tt)
        else mkRun (mk cl (Some r) (Some w) ss hh []) [Invoke (cb obj) args] (Normal tt)
    | _ :: _ => mkRun (mk cl (Some r) (Some w) ss hh rest) [Invoke (cb obj) args] (Normal tt)
    end.
Proof.
  intros Harmed Hid Hk. unfold call_cb, _untrack. rewrite Harmed, Hid.
  cbv beta iota zeta delta
    [bind get ret throw lift modify effect state effects result set_callbacks
     closed _readable _writable _callbacks _serverServices _hashes].
  rewrite (omap_delete_head k obj rest Hk).
  destruct rest as [|c rest]; [destruct cl|]; cbn [length Nat.eqb andb];
    try reflexivity.
  rewrite andb_false_r. reflexivity.
Qed.

(** *** Destroying *)

(** The body of the loop of [destroy]. *)
Abbreviation interrupt_call :=
  (fun k : Z =>
     run* b := get in
     match omap_get k (_callbacks b) with
     | Some obj => call_cb obj (CbError (Err "bridge destroyed"))
     | None => @ret Bridge Effect unit tt
     end).

Lemma destroy_loop (init : list (Z * CallRecord)) :
  forall (last : Z * CallRecord) (r w : Stream) (ss : gmap string (Service.t Json))
         (hh : gmap string string),
  List.NoDup (map fst (init ++ [last])) ->
  Forall (fun kv => Packet.id (preq (snd kv)) = fst kv /\ armed (snd kv) = true)
    (init ++ [last]) ->
  for_each (map fst (init ++ [last])) interrupt_call
    (mk true (Some r) (Some w) ss hh (init ++ [last]))
  = mkRun (mk true None None ss hh [])
      (map (fun kv => interrupt (snd kv)) init
       ++ release_effects r w ++ [interrupt (snd last)])
      (Normal tt).
Proof.
  induction init as [|[k obj] init IH]; intros [kl ol] r w ss hh Hnd Hall.
  - cbn [app map fst snd for_each] in *.
    pose proof (Forall_inv Hall) as (Hid & Harmed). cbn [fst snd] in Hid, Harmed.
    rewrite <- (app_nil_r (release_effects r w ++ [interrupt ol])).
    eapply runs_bind; [|reflexivity].
    rewrite bind_get. cbn [_callbacks omap_get]. rewrite Z.eqb_refl.
    rewrite (call_cb_head true r w ss hh kl ol [] _ Harmed Hid) by (cbn; tauto).
    reflexivity.
  - cbn [app map fst snd for_each] in *.
    pose proof (Forall_inv Hall) as (Hid & Harmed). cbn [fst snd] in Hid, Harmed.
    apply List.NoDup_cons_iff in Hnd. destruct Hnd as (Hk & Hnd).
    change (interrupt obj :: ?l) with ([interrupt obj] ++ l).
    eapply (runs_bind _ _ _ (mk true (Some r) (Some w) ss hh (init ++ [(kl, ol)])) _
              [interrupt obj] _ tt).
    + rewrite bind_get. cbn [_callbacks omap_get]. rewrite Z.eqb_refl.
      rewrite (call_cb_head true r w ss hh k obj (init ++ [(kl, ol)]) _ Harmed Hid).
      * assert (Hne : init ++ [(kl, ol)] <> []) by (destruct init; discriminate).
        destruct (init ++ [(kl, ol)]); [congruence|reflexivity].
      * exact Hk.
    + apply IH; [exact Hnd|exact (Forall_inv_tail Hall)].
Qed.

(** X9: [destroy] on a bridge over attached streams with pending calls,
    each stored once under the id of its request and with its trace
    still live.  It closes the bridge (emitting ['close'] unless it was
    closed), calls every pending continuation exactly once with
    "bridge destroyed", in the order the calls were issued, releases the
    streams just before the last of these calls, and then emits the
    error, if one was given; the bridge ends closed, with no stream and
    nothing pending. *)
Theorem X9_destroy_interrupts_pending (b : Bridge) (r w : Stream) (init : list (Z * CallRecord))
    (last : Z * CallRecord) (err : option JsError) :
  _readable b = Some r ->
  _writable b = Some w ->
  _callbacks b = init ++ [last] ->
  List.NoDup (map fst (_callbacks b)) ->
  Forall (fun kv => Packet.id (preq (snd kv)) = fst kv /\ armed (snd kv) = true)
    (_callbacks b) ->
  destroy err b
  = mkRun (mk true None None (_serverServices b) (_hashes b) [])
      ((if closed b then [] else [Emit "close" None])
       ++ map (fun kv => interrupt (snd kv)) init
       ++ release_effects r w ++ [interrupt (snd last)]
       ++ match err with
          | Some e => [Emit "error" (Some e)]
          | None => []
          end)
      (Normal tt).
Proof.
  destruct b as [cl rd wr ss hh cbs]. cbn [_readable _writable _callbacks closed
                                            _serverServices _hashes].
  intros -> -> -> Hnd Hall. unfold destroy.
  eapply runs_bind; [apply close_run|].
  cbn [set_closed closed _readable _writable _callbacks _serverServices _hashes].
  rewrite bind_get. cbn [_callbacks].
  replace (map (fun kv => interrupt (snd kv)) init ++
           release_effects r w ++ [interrupt (snd last)] ++
           match err with
           | Some e => [Emit "error" (Some e)]
           | None => []
           end)
    with ((map (fun kv => interrupt (snd kv)) init ++
           release_effects r w ++ [interrupt (snd last)]) ++
          match err with
          | Some e => [Emit "error" (Some e)]
          | None => []
          end)
    by (rewrite <- !app_assoc; reflexivity).
  eapply runs_bind; [apply destroy_loop; assumption|].
  destruct err; reflexivity.
Qed.

Lemma destroy_idle (b : Bridge) (err : option JsError) :
  _callbacks b = [] ->
  destroy err b
  = mkRun (set_closed true b)
      ((if closed b then [] else [Emit "close" None])
       ++ match err with
          | Some e => [Emit "error" (Some e)]
          | None => []
          end)
      (Normal tt).
Proof.
  destruct b as [cl rd wr ss hh cbs]. cbn [_callbacks]. intros ->.
  destruct cl, err; reflexivity.
Qed.

(** *** Issuing a call *)

Lemma send_run (b : Bridge) (preq : Packet.t (Service.t Json)) (meta : option Meta)
    (includePtcl : bool) :
  _send preq meta includePtcl b
  = mkRun b
      [EncoderWrite
         (request_frame b preq meta
            (if includePtcl
             then Some (JSON_stringify (Service.protocol (Packet.service preq)))
             else None))]
      (Normal tt).
Proof. destruct b as [cl rd wr ss hh cbs]. reflexivity. Qed.

(** X11: a call on an open bridge whose trace encodes: it is stored under
    its id, live and not retried, with the meta built from the trace
    (the labels, then the deadline if there is one), replacing any call
    stored under that id; one frame group is written, whose handshake
    carries the client hash, no client protocol, the server hash
    recorded for the client hash (or else the client hash itself) and
    that meta; the continuation is not called. *)
Theorem X11_call_is_tracked_and_sent (b : Bridge) (trace : @Bridge.Trace Labels Deadline)
    (preq : Packet.t (Service.t Json)) (k : Continuation) (lb : bytes) (meta : Meta) :
  closed b = false ->
  mapOfJsonType_toBuffer (labels trace) = Normal lb ->
  match deadline trace with
  | None => meta = [(LABELS_META, lb)]
  | Some dl =>
      exists db, dateTimeType_toBuffer dl = Normal db
                 /\ meta = [(LABELS_META, lb); (DEADLINE_META, db)]
  end ->
  channel_call trace preq k b
  = mkRun
      (set_callbacks
         (omap_set (Packet.id preq) (mkCallRecord k true meta preq false) (_callbacks b))
         b)
      [EncoderWrite (request_frame b preq (Some meta) None)]
      (Normal tt).
Proof.
  intros Hopen Hlb Hmeta. destruct b as [cl rd wr ss hh cbs]. cbn in Hopen. subst cl.
  unfold Bridge.channel_call, Bridge._track.
  cbv beta iota zeta delta [bind get state effects result closed]. rewrite Hlb.
  destruct (deadline trace) as [dl|].
  - destruct Hmeta as (db & Hdb & ->).
    cbv beta iota zeta delta [bind get ret lift modify effect state effects result].
    rewrite Hdb. reflexivity.
  - subst meta. reflexivity.
Qed.

Lemma channel_call_bad_labels (b : Bridge) (trace : @Bridge.Trace Labels Deadline)
    (preq : Packet.t (Service.t Json)) (k : Continuation) (err : JsError) :
  closed b = false ->
  mapOfJsonType_toBuffer (labels trace) = Throw err ->
  channel_call trace preq k b
  = mkRun b
      [Invoke k (CbError err); EncoderWrite (request_frame b preq None None)]
      (Normal tt).
Proof.
  intros Hopen Hlb. destruct b as [cl rd wr ss hh cbs]. cbn in Hopen. subst cl.
  unfold Bridge.channel_call, Bridge._track.
  cbv beta iota zeta delta [bind get state effects result closed]. rewrite Hlb.
  reflexivity.
Qed.

Lemma channel_call_bad_deadline (b : Bridge) (trace : @Bridge.Trace Labels Deadline)
    (preq : Packet.t (Service.t Json)) (k : Continuation) (lb : bytes) (dl : Deadline)
    (err : JsError) :
  closed b = false ->
  mapOfJsonType_toBuffer (labels trace) = Normal lb ->
  deadline trace = Some dl ->
  dateTimeType_toBuffer dl = Throw err ->
  channel_call trace preq k b = mkRun b [] (Throw err).
Proof.
  intros Hopen Hlb Hdl Hdb. destruct b as [cl rd wr ss hh cbs]. cbn in Hopen. subst cl.
  unfold Bridge.channel_call, Bridge._track.
  cbv beta iota zeta delta [bind get state effects result closed]. rewrite Hlb, Hdl.
  cbv beta iota zeta delta [bind get ret lift modify effect state effects result].
  rewrite Hdb. reflexivity.
Qed.

(** *** Constructing over one duplex stream *)

Lemma new_NettyBridge_duplex (readable : Stream) :
  new_NettyBridge readable ArgOther
  = mkRun (Bridge.mk (Json := Json) (Continuation := Continuation)
             false (Some readable) (Some readable) ∅ ∅ [])
      [Listen EncoderE "error" HEncoderError;
       Pipe EncoderE (StreamE readable);
       Listen (StreamE readable) "finish" HWritableFinish;
       Listen (StreamE readable) "error" HReadableError;
       Listen (StreamE readable) "end" HReadableEnd;
       Pipe (StreamE readable) DecoderE;
       Listen DecoderE "error" HDecoderError;
       Listen DecoderE "data" HDecoderData]
      (Normal tt).
Proof. unfold new_NettyBridge. rewrite Nat.eqb_refl. reflexivity. Qed.

(** *** Responses *)

Ltac run_monad :=
  cbv beta iota zeta delta
    [bind get ret throw lift modify effect catch state effects result
     call_cb _untrack _release Bridge._send set_callbacks set_streams
     closed _readable _writable _callbacks _serverServices _hashes].

(** The listener on a response that is to be delivered. *)
Lemma on_data_delivers (b : Bridge) (fg : FrameGroup HandshakeResponse.t)
    (hs : HandshakeResponse.t) (obj : CallRecord) (svc : option (Service.t Json)) :
  omap_get (id fg) (_callbacks b) = Some obj ->
  handshake fg = Some hs ->
  HandshakeResponse.match_ hs <> NONE \/ retried obj = true ->
  result (server_service hs (Packet.service (preq obj)) b) = Normal (Some svc) ->
  on_data fg b
  = call_cb obj
      (CbPacket (Packet.mk (id fg) svc (body (packet fg)) (headers (packet fg))))
      (state (server_service hs (Packet.service (preq obj)) b)).
Proof.
  intros Hget Hhs Hdeliver Hres.
  rewrite (on_data_resolved JSON_stringify new_Service b fg hs obj svc Hget Hhs Hres).
  destruct (HandshakeResponse.match_ hs); try reflexivity.
  destruct Hdeliver as [Hm|Hr]; [congruence|]. rewrite Hr. reflexivity.
Qed.

Lemma on_data_unknown (b : Bridge) (fg : FrameGroup HandshakeResponse.t) :
  omap_get (id fg) (_callbacks b) = None ->
  on_data fg b = mkRun b [] (Normal tt).
Proof. intros Hget. unfold Bridge.on_data. rewrite bind_get, Hget. reflexivity. Qed.

(** X13: a response to a pending call of an open bridge that matches (or
    whose call has retried), with an accepted handshake: the continuation
    is called exactly once, with a packet of the response's id, body and
    headers, nothing is written, and the call is no longer pending; the
    same response arriving again is ignored. *)
Theorem X13_response_delivered_once (b : Bridge) (fg : FrameGroup HandshakeResponse.t)
    (hs : HandshakeResponse.t) (obj : CallRecord) :
  pending b (id fg) obj ->
  closed b = false ->
  handshake fg = Some hs ->
  HandshakeResponse.match_ hs <> NONE \/ retried obj = true ->
  handshake_accepted new_Service hs ->
  exists (svc : option (Service.t Json)) (b' : Bridge),
    on_data fg b
    = mkRun b'
        [Invoke (cb obj)
           (CbPacket (Packet.mk (id fg) svc (body (packet fg)) (headers (packet fg))))]
        (Normal tt)
    /\ _callbacks b' = omap_delete (id fg) (_callbacks b)
    /\ closed b' = false
    /\ on_data fg b' = mkRun b' [] (Normal tt).
Proof.
  intros (Hget & Hid & Harmed & Hr & Hw) Hopen Hhs Hdeliver Hacc.
  destruct (server_service_accepted new_Service hs (Packet.service (preq obj)) b Hacc)
    as (svc & Hres).
  destruct (server_service_frame new_Service hs (Packet.service (preq obj)) b)
    as (Heff & Hcb & Hcl & Hrd & Hwr).
  rewrite (on_data_delivers b fg hs obj svc Hget Hhs Hdeliver Hres).
  set (b1 := state (server_service hs (Packet.service (preq obj)) b)) in *.
  destruct b1 as [cl rd wr ss hh cbs]. cbn in Hcb, Hcl. rewrite Hopen in Hcl. subst cl cbs.
  exists svc. eexists. split; [|split; [|split]].
  - run_monad. rewrite Harmed. cbn [andb]. reflexivity.
  - cbn. rewrite Hid. reflexivity.
  - reflexivity.
  - apply on_data_unknown. cbn [_callbacks]. rewrite Hid. apply omap_get_delete_eq.
Qed.

(** X16: a closed bridge with one call left pending: the response to
    that call releases the streams (unpipes them and removes the four
    stream listeners) and then calls the continuation; the bridge is
    left without streams and with nothing pending. *)
Theorem X16_last_response_releases (b : Bridge) (fg : FrameGroup HandshakeResponse.t)
    (hs : HandshakeResponse.t) (obj : CallRecord) (r w : Stream) :
  closed b = true ->
  _callbacks b = [(id fg, obj)] ->
  Packet.id (preq obj) = id fg ->
  armed obj = true ->
  _readable b = Some r ->
  _writable b = Some w ->
  handshake fg = Some hs ->
  HandshakeResponse.match_ hs <> NONE \/ retried obj = true ->
  handshake_accepted new_Service hs ->
  exists (svc : option (Service.t Json)) (b' : Bridge),
    on_data fg b
    = mkRun b'
        (release_effects r w
         ++ [Invoke (cb obj)
               (CbPacket (Packet.mk (id fg) svc (body (packet fg)) (headers (packet fg))))])
        (Normal tt)
    /\ closed b' = true
    /\ _readable b' = None
    /\ _writable b' = None
    /\ _callbacks b' = [].
Proof.
  intros Hclosed Hcbs Hid Harmed Hr Hw Hhs Hdeliver Hacc.
  assert (Hget : omap_get (id fg) (_callbacks b) = Some obj).
  { rewrite Hcbs. cbn. rewrite Z.eqb_refl. reflexivity. }
  destruct (server_service_accepted new_Service hs (Packet.service (preq obj)) b Hacc)
    as (svc & Hres).
  destruct (server_service_frame new_Service hs (Packet.service (preq obj)) b)
    as (Heff & Hcb & Hcl & Hrd & Hwr).
  rewrite (on_data_delivers b fg hs obj svc Hget Hhs Hdeliver Hres).
  set (b1 := state (server_service hs (Packet.service (preq obj)) b)) in *.
  destruct b1 as [cl rd wr ss hh cbs]. cbn in Hcb, Hcl, Hrd, Hwr.
  rewrite Hclosed in Hcl. rewrite Hcbs in Hcb. rewrite Hr in Hrd. rewrite Hw in Hwr.
  subst cl cbs rd wr.
  exists svc, (mk true None None ss hh []). split; [|repeat split].
  rewrite (call_cb_head true r w ss hh (id fg) obj [] _ Harmed Hid) by (cbn; tauto).
  reflexivity.
Qed.

(** Responses the listener cannot read. *)
Lemma on_data_without_handshake (b : Bridge) (fg : FrameGroup HandshakeResponse.t)
    (obj : CallRecord) :
  omap_get (id fg) (_callbacks b) = Some obj ->
  handshake fg = None ->
  on_data fg b
  = mkRun b [] (Throw (TypeError "Cannot read properties of null (reading 'match')")).
Proof. intros Hget Hhs. unfold Bridge.on_data. rewrite bind_get, Hget, Hhs. reflexivity. Qed.

Lemma on_data_protocol_without_hash (b : Bridge) (fg : FrameGroup HandshakeResponse.t)
    (hs : HandshakeResponse.t) (obj : CallRecord) :
  omap_get (id fg) (_callbacks b) = Some obj ->
  handshake fg = Some hs ->
  HandshakeResponse.serverHash hs = None ->
  truthy_opt_string (HandshakeResponse.serverProtocol hs) = true ->
  on_data fg b
  = mkRun b []
      (Throw (TypeError "Cannot read properties of null (reading 'toString')")).
Proof.
  intros Hget Hhs Hsh Hsp. unfold Bridge.on_data. rewrite bind_get, Hget, Hhs.
  apply runs_bind_throw. unfold Bridge.server_service. rewrite Hsh, Hsp. reflexivity.
Qed.

(** *** Learning the server's hash and protocol *)

Lemma server_service_learns (hs : HandshakeResponse.t) (clientSvc : Service.t Json)
    (b : Bridge) (sh : bytes) (svc : Service.t Json) :
  HandshakeResponse.serverHash hs = Some sh ->
  new_Service (HandshakeResponse.serverProtocol hs) = Normal svc ->
  server_service hs clientSvc b
  = mkRun
      (set_hashes (<[Service.hash clientSvc := Buffer.to_binary sh]> (_hashes b))
         (set_serverServices (<[Buffer.to_binary sh := svc]> (_serverServices b)) b))
      [] (Normal (Some (Some svc))).
Proof.
  intros Hsh Hsvc. unfold Bridge.server_service. rewrite Hsh. cbn [is_some orb].
  cbv beta iota zeta delta [bind catch lift ret modify state effects result].
  rewrite Hsvc. reflexivity.
Qed.

(** Delivering a response, or retrying, leaves the two caches alone. *)
Lemma call_cb_caches (obj : CallRecord) (args : CbArgs) (b : Bridge) :
  _hashes (state (call_cb obj args b)) = _hashes b
  /\ _serverServices (state (call_cb obj args b)) = _serverServices b.
Proof.
  destruct b as [cl rd wr ss hh cbs]. run_monad.
  destruct (armed obj); [|cbn; auto].
  destruct (cl && _); [|cbn; auto].
  destruct rd; [|cbn; auto]. destruct wr; cbn; auto.
Qed.

Lemma on_data_learns (b : Bridge) (fg : FrameGroup HandshakeResponse.t)
    (hs : HandshakeResponse.t) (obj : CallRecord) (sh : bytes) (svc : Service.t Json) :
  omap_get (id fg) (_callbacks b) = Some obj ->
  handshake fg = Some hs ->
  HandshakeResponse.serverHash hs = Some sh ->
  new_Service (HandshakeResponse.serverProtocol hs) = Normal svc ->
  _hashes (state (on_data fg b))
  = <[Service.hash (Packet.service (preq obj)) := Buffer.to_binary sh]> (_hashes b)
  /\ _serverServices (state (on_data fg b))
     = <[Buffer.to_binary sh := svc]> (_serverServices b).
Proof.
  intros Hget Hhs Hsh Hsvc.
  pose proof (server_service_learns hs (Packet.service (preq obj)) b sh svc Hsh Hsvc) as Hs.
  assert (Hres : result (server_service hs (Packet.service (preq obj)) b)
                 = Normal (Some (Some svc))) by (rewrite Hs; reflexivity).
  rewrite (on_data_resolved JSON_stringify new_Service b fg hs obj (Some svc) Hget Hhs Hres).
  rewrite Hs. cbn [state].
  set (b1 := set_hashes _ _).
  assert (Hb1 : _hashes b1
                = <[Service.hash (Packet.service (preq obj)) := Buffer.to_binary sh]> (_hashes b)
                /\ _serverServices b1 = <[Buffer.to_binary sh := svc]> (_serverServices b))
    by (destruct b; split; reflexivity).
  destruct Hb1 as (<- & <-).
  destruct (HandshakeResponse.match_ hs); try apply call_cb_caches.
  destruct (retried obj); [apply call_cb_caches|].
  destruct b1 as [cl rd wr ss hh cbs]. split; reflexivity.
Qed.

Lemma truthy_to_binary (sh : bytes) : sh <> [] -> truthy_string (Buffer.to_binary sh) = true.
Proof. destruct sh; [congruence|reflexivity]. Qed.

Lemma from_to_binary (sh : bytes) : Buffer.from_binary (Buffer.to_binary sh) = sh.
Proof. apply list_byte_of_string_of_list_byte. Qed.

(** X14: a response that carries a non-empty server hash and a protocol
    that parses teaches the bridge both.  Afterwards every request of a
    service with the same client hash is sent with that server hash in
    its handshake, and a response without server hash and protocol to a
    call of such a service is attributed to the parsed service. *)
Theorem X14_learnt_hash_is_used (b : Bridge) (fg : FrameGroup HandshakeResponse.t)
    (hs : HandshakeResponse.t) (obj : CallRecord) (sh : bytes) (svc : Service.t Json) :
  omap_get (id fg) (_callbacks b) = Some obj ->
  handshake fg = Some hs ->
  HandshakeResponse.serverHash hs = Some sh ->
  sh <> [] ->
  new_Service (HandshakeResponse.serverProtocol hs) = Normal svc ->
  (forall (preq' : Packet.t (Service.t Json)) (meta : option Meta) (includePtcl : bool),
     Service.hash (Packet.service preq') = Service.hash (Packet.service (preq obj)) ->
     exists hq packet,
       effects (_send preq' meta includePtcl (state (on_data fg b)))
       = [EncoderWrite (mkFrameGroup (Some hq) (Packet.id preq') packet)]
       /\ HandshakeRequest.serverHash hq = sh)
  /\ (forall (hs' : HandshakeResponse.t) (clientSvc : Service.t Json),
        Service.hash clientSvc = Service.hash (Packet.service (preq obj)) ->
        HandshakeResponse.serverHash hs' = None ->
        truthy_opt_string (HandshakeResponse.serverProtocol hs') = false ->
        result (server_service hs' clientSvc (state (on_data fg b)))
        = Normal (Some (Some svc))).
Proof.
  intros Hget Hhs Hsh Hne Hsvc.
  destruct (on_data_learns b fg hs obj sh svc Hget Hhs Hsh Hsvc) as (Hh & Hss).
  set (b' := state (on_data fg b)) in *.
  split.
  - intros preq' meta includePtcl Hsame. rewrite send_run. eexists _, _.
    split; [reflexivity|]. cbn [HandshakeRequest.serverHash].
    unfold server_hash_for. rewrite Hh, Hsame, lookup_insert_eq.
    rewrite (truthy_to_binary sh Hne). apply from_to_binary.
  - intros hs' clientSvc Hsame Hnone Hfalsy.
    unfold Bridge.server_service. rewrite Hnone, Hfalsy. cbn [is_some orb].
    rewrite bind_get. rewrite Hh, Hsame, lookup_insert_eq.
    rewrite (truthy_to_binary sh Hne). cbn [result ret].
    rewrite Hss, lookup_insert_eq. reflexivity.
Qed.

(** X15: a first [match = NONE] response that carries the server's hash
    and a protocol that parses: the single frame group written for the
    retry carries the client hash, the client protocol text, the server
    hash just received, and the meta and the packet of the first
    attempt. *)
Theorem X15_retry_names_server_hash (b : Bridge) (fg : FrameGroup HandshakeResponse.t)
    (hs : HandshakeResponse.t) (obj : CallRecord) (sh : bytes) (svc : Service.t Json) :
  omap_get (id fg) (_callbacks b) = Some obj ->
  retried obj = false ->
  handshake fg = Some hs ->
  HandshakeResponse.match_ hs = NONE ->
  HandshakeResponse.serverHash hs = Some sh ->
  sh <> [] ->
  new_Service (HandshakeResponse.serverProtocol hs) = Normal svc ->
  effects (on_data fg b)
  = [EncoderWrite
       (mkFrameGroup
          (Some (HandshakeRequest.mk
                   (Buffer.from_binary (Service.hash (Packet.service (preq obj))))
                   (Some (JSON_stringify (Service.protocol (Packet.service (preq obj)))))
                   sh
                   (Some (meta obj))))
          (Packet.id (preq obj))
          (new_NettyPacket (Packet.body (preq obj)) (Some (Packet.headers (preq obj)))))]
  /\ result (on_data fg b) = Normal tt.
Proof.
  intros Hget Hretried Hhs Hmatch Hsh Hne Hsvc.
  pose proof (server_service_learns hs (Packet.service (preq obj)) b sh svc Hsh Hsvc) as Hs.
  assert (Hres : result (server_service hs (Packet.service (preq obj)) b)
                 = Normal (Some (Some svc))) by (rewrite Hs; reflexivity).
  rewrite (on_data_resolved JSON_stringify new_Service b fg hs obj (Some svc) Hget Hhs Hres).
  rewrite Hmatch, Hretried, Hs. cbn [state].
  destruct b as [cl rd wr ss hh cbs].
  cbv beta iota zeta delta
    [bind get ret modify effect state effects result Bridge._send set_callbacks
     set_hashes set_serverServices closed _readable _writable _callbacks
     _serverServices _hashes].
  rewrite lookup_insert_eq, (truthy_to_binary sh Hne), from_to_binary.
  split; reflexivity.
Qed.

(** X10: on a bridge with nothing pending, [close] and [destroy] only
    set the [closed] flag and emit ['close'] (unless the bridge was
    closed) and, for [destroy], the error: the streams stay attached, no
    pipe or listener is removed. *)
Theorem X10_idle_bridge_keeps_streams (b : Bridge) (err : option JsError) :
  _callbacks b = [] ->
  close b
  = mkRun (set_closed true b) (if closed b then [] else [Emit "close" None]) (Normal tt)
  /\ destroy err b
     = mkRun (set_closed true b)
         ((if closed b then [] else [Emit "close" None])
          ++ match err with
             | Some e => [Emit "error" (Some e)]
             | None => []
             end)
         (Normal tt).
Proof.
  intros Hidle. split; [apply close_run|apply destroy_idle; exact Hidle].
Qed.

(** X12: a call on an open bridge whose trace does not encode.  If the
    labels do not encode, the continuation is called with the error and
    the call is not stored, yet its frame group is written, with no meta
    in the handshake.  If the labels encode and the deadline does not,
    the error leaves the call: nothing is stored or written and the
    continuation is not called. *)
Theorem X12_trace_encoding_failures (b : Bridge) (trace : @Bridge.Trace Labels Deadline)
    (preq : Packet.t (Service.t Json)) (k : Continuation) :
  closed b = false ->
  (forall err : JsError,
     mapOfJsonType_toBuffer (labels trace) = Throw err ->
     channel_call trace preq k b
     = mkRun b
         [Invoke k (CbError err); EncoderWrite (request_frame b preq None None)]
         (Normal tt))
  /\ (forall (lb : bytes) (dl : Deadline) (err : JsError),
        mapOfJsonType_toBuffer (labels trace) = Normal lb ->
        deadline trace = Some dl ->
        dateTimeType_toBuffer dl = Throw err ->
        channel_call trace preq k b = mkRun b [] (Throw err)).
Proof.
  intros Hopen. split.
  - intros err. apply channel_call_bad_labels. exact Hopen.
  - intros lb dl err. apply channel_call_bad_deadline. exact Hopen.
Qed.

(** X17: responses the listener cannot read.  A response to a pending
    call that has no handshake, or whose handshake has a server protocol
    and no server hash, makes the listener raise a [TypeError]: the
    continuation is not called and the call stays pending. *)
Theorem X17_unreadable_responses_raise (b : Bridge) (fg : FrameGroup HandshakeResponse.t)
    (obj : CallRecord) :
  omap_get (id fg) (_callbacks b) = Some obj ->
  (handshake fg = None ->
   on_data fg b
   = mkRun b [] (Throw (TypeError "Cannot read properties of null (reading 'match')")))
  /\ (forall hs : HandshakeResponse.t,
        handshake fg = Some hs ->
        HandshakeResponse.serverHash hs = None ->
        truthy_opt_string (HandshakeResponse.serverProtocol hs) = true ->
        on_data fg b
        = mkRun b []
            (Throw (TypeError "Cannot read properties of null (reading 'toString')"))).
Proof.
  intros Hget. split.
  - intros Hhs. exact (on_data_without_handshake b fg obj Hget Hhs).
  - intros hs Hhs Hsh Hsp.
    exact (on_data_protocol_without_hash b fg hs obj Hget Hhs Hsh Hsp).
Qed.

(** X18: over one duplex stream (the [writable] argument omitted, not a
    stream, or the same stream), the constructor completes, and so does
    the construction by [nettyRouter]: the stream is piped from the
    encoder and into the decoder and gets the ['finish'], ['error'] and
    ['end'] listeners; the bare identifier [onWritableError] is not
    evaluated. *)
Theorem X18_duplex_construction (readable : Stream) :
  new_NettyBridge readable ArgOther
  = mkRun (Bridge.mk (Json := Json) (Continuation := Continuation)
             false (Some readable) (Some readable) ∅ ∅ [])
      [Listen EncoderE "error" HEncoderError;
       Pipe EncoderE (StreamE readable);
       Listen (StreamE readable) "finish" HWritableFinish;
       Listen (StreamE readable) "error" HReadableError;
       Listen (StreamE readable) "end" HReadableEnd;
       Pipe (StreamE readable) DecoderE;
       Listen DecoderE "error" HDecoderError;
       Listen DecoderE "data" HDecoderData]
      (Normal tt)
  /\ new_NettyBridge (Json := Json) (Continuation := Continuation)
       readable (ArgStream readable)
     = new_NettyBridge readable ArgOther
  /\ nettyRouter_bridge (Json := Json) (Continuation := Continuation) readable ArgOther
     = new_NettyBridge readable ArgOther.
Proof.
  split; [apply new_NettyBridge_duplex|]. split; reflexivity.
Qed.

End BridgeCalls.

(** *** On the sample bridge *)

Import Bridge SampleBridge SampleCalls.

(** X9, at the sample bridge with two pending calls, destroyed with an
    error. *)
Lemma X9_destroy_interrupts_pending_witness :
  destroy (Some (Err "socket hang up")) two_calls
  = mkRun (Bridge.mk true None None ∅ ∅ [])
      ([Emit "close" None]
       ++ [interrupt record1]
       ++ release_effects 0%nat 1%nat ++ [interrupt record2]
       ++ [Emit "error" (Some (Err "socket hang up"))])
      (Normal tt).
Proof.
  apply (X9_destroy_interrupts_pending two_calls 0%nat 1%nat [(1, record1)] (2, record2)
           (Some (Err "socket hang up"))).
  - reflexivity.
  - reflexivity.
  - reflexivity.
  - repeat constructor; cbn; intuition discriminate.
  - repeat constructor.
Defined.

(** X10, at the fresh sample bridge. *)
Lemma X10_idle_bridge_keeps_streams_witness :
  close fresh
  = mkRun (Bridge.mk true (Some 0%nat) (Some 1%nat) ∅ ∅ []) [Emit "close" None] (Normal tt)
  /\ destroy (Some (Err "socket hang up")) fresh
     = mkRun (Bridge.mk true (Some 0%nat) (Some 1%nat) ∅ ∅ [])
         [Emit "close" None; Emit "error" (Some (Err "socket hang up"))]
         (Normal tt).
Proof.
  apply (X10_idle_bridge_keeps_streams fresh (Some (Err "socket hang up"))).
  reflexivity.
Defined.

(** X11, at the sample request issued with a deadline on the fresh
    bridge. *)
Lemma X11_call_is_tracked_and_sent_witness :
  channel_call timed request 5%nat fresh
  = mkRun
      (Bridge.mk false (Some 0%nat) (Some 1%nat) ∅ ∅
         [(1, Bridge.mkCallRecord 5%nat true
                [(LABELS_META, [x00]); (DEADLINE_META, [xd0; x0f])] request false)])
      [EncoderWrite
         (mkFrameGroup
            (Some (HandshakeRequest.mk (Buffer.from_binary "echo-service-md5") None
                     (Buffer.from_binary "echo-service-md5")
                     (Some [(LABELS_META, [x00]); (DEADLINE_META, [xd0; x0f])])))
            1 (new_NettyPacket [x02; x2a] (Some [])))]
      (Normal tt).
Proof.
  apply (X11_call_is_tracked_and_sent JSON_stringify mapOfJsonType_toBuffer
           dateTimeType_toBuffer fresh timed request 5%nat [x00]
           [(LABELS_META, [x00]); (DEADLINE_META, [xd0; x0f])]).
  - reflexivity.
  - reflexivity.
  - exists [xd0; x0f]. split; [vm_compute|]; reflexivity.
Defined.

(** X12, at the sample request with encoders that reject the trace. *)
Lemma X12_trace_encoding_failures_witness :
  Bridge.channel_call JSON_stringify no_labels_toBuffer dateTimeType_toBuffer
    trace request 5%nat fresh
  = mkRun fresh
      [Invoke 5%nat (CbError (Err "invalid labels"));
       EncoderWrite (request_frame fresh request None None)]
      (Normal tt)
  /\ Bridge.channel_call JSON_stringify mapOfJsonType_toBuffer no_deadline_toBuffer
       timed request 5%nat fresh
     = mkRun fresh [] (Throw (Err "invalid deadline")).
Proof.
  split.
  - destruct (X12_trace_encoding_failures JSON_stringify no_labels_toBuffer
                dateTimeType_toBuffer fresh trace request 5%nat eq_refl) as (Hl & _).
    apply Hl. reflexivity.
  - destruct (X12_trace_encoding_failures JSON_stringify mapOfJsonType_toBuffer
                no_deadline_toBuffer fresh timed request 5%nat eq_refl) as (_ & Hd).
    apply (Hd [x00] 1000); reflexivity.
Defined.

Lemma two_calls_pending : pending two_calls 1 record1.
Proof. repeat split. Defined.

(** X13, at the sample bridge with two pending calls and the response to
    the first. *)
Lemma X13_response_delivered_once_witness :
  exists (svc : option (Service.t string)) (b' : Bridge),
    on_data plain_response two_calls
    = mkRun b'
        [Invoke 5%nat (CbPacket (Packet.mk 1 svc [x00; x2a] []))]
        (Normal tt)
    /\ _callbacks b' = omap_delete 1 (_callbacks two_calls)
    /\ closed b' = false
    /\ on_data plain_response b' = mkRun b' [] (Normal tt).
Proof.
  apply (X13_response_delivered_once JSON_stringify new_Service two_calls plain_response
           (HandshakeResponse.mk BOTH None None None) record1).
  - exact two_calls_pending.
  - reflexivity.
  - reflexivity.
  - left. discriminate.
  - exact I.
Defined.

(** X14, at the response that carries the Echo server's hash and
    protocol. *)
Lemma X14_learnt_hash_is_used_witness :
  (forall (preq' : Packet.t (Service.t string)) (meta : option Meta) (includePtcl : bool),
     Service.hash (Packet.service preq') = Service.hash echo ->
     exists hq packet,
       effects (Bridge._send JSON_stringify preq' meta includePtcl
                  (state (on_data both_response two_calls)))
       = [EncoderWrite (mkFrameGroup (Some hq) (Packet.id preq') packet)]
       /\ HandshakeRequest.serverHash hq = server_hash)
  /\ (forall (hs' : HandshakeResponse.t) (clientSvc : Service.t string),
        Service.hash clientSvc = Service.hash echo ->
        HandshakeResponse.serverHash hs' = None ->
        truthy_opt_string (HandshakeResponse.serverProtocol hs') = false ->
        result (Bridge.server_service new_Service hs' clientSvc
                  (state (on_data both_response two_calls)))
        = Normal (Some (Some echo))).
Proof.
  apply (X14_learnt_hash_is_used JSON_stringify new_Service two_calls both_response
           (HandshakeResponse.mk BOTH (Some "json:Echo"%string) (Some server_hash) None)
           record1 server_hash echo).
  - reflexivity.
  - reflexivity.
  - reflexivity.
  - discriminate.
  - reflexivity.
Defined.

(** X15, at the [NONE] response that carries the Echo server's hash and
    protocol. *)
Lemma X15_retry_names_server_hash_witness :
  effects (on_data none_with_server two_calls)
  = [EncoderWrite
       (mkFrameGroup
          (Some (HandshakeRequest.mk (Buffer.from_binary "echo-service-md5")
                   (Some "json:Echo"%string) server_hash
                   (Some [(LABELS_META, [x00])])))
          1 (new_NettyPacket [x02; x2a] (Some [])))]
  /\ result (on_data none_with_server two_calls) = Normal tt.
Proof.
  apply (X15_retry_names_server_hash JSON_stringify new_Service two_calls none_with_server
           (HandshakeResponse.mk NONE (Some "json:Echo"%string) (Some server_hash) None)
           record1 server_hash echo).
  - reflexivity.
  - reflexivity.
  - reflexivity.
  - reflexivity.
  - reflexivity.
  - discriminate.
  - reflexivity.
Defined.

(** X16, at the closed sample bridge with its last pending call. *)
Lemma X16_last_response_releases_witness :
  exists (svc : option (Service.t string)) (b' : Bridge),
    on_data plain_response closing
    = mkRun b'
        (release_effects 0%nat 1%nat
         ++ [Invoke 5%nat (CbPacket (Packet.mk 1 svc [x00; x2a] []))])
        (Normal tt)
    /\ closed b' = true
    /\ _readable b' = None
    /\ _writable b' = None
    /\ _callbacks b' = [].
Proof.
  apply (X16_last_response_releases JSON_stringify new_Service closing plain_response
           (HandshakeResponse.mk BOTH None None None) record1 0%nat 1%nat);
    first [reflexivity | left; discriminate | exact I].
Defined.

(** X17, at the response with a protocol and no hash. *)
Lemma X17_unreadable_responses_raise_witness :
  on_data hashless_response two_calls
  = mkRun two_calls []
      (Throw (TypeError "Cannot read properties of null (reading 'toString')")).
Proof.
  destruct (X17_unreadable_responses_raise JSON_stringify new_Service two_calls
              hashless_response record1 eq_refl) as (_ & Hhash).
  apply (Hhash (HandshakeResponse.mk BOTH (Some "json:Echo"%string) None None));
    reflexivity.
Defined.

End BridgeCalls.

(** ** The gateway: requests and responses *)

Module GatewayRequests.
Section GatewayRequests.
Import Gateway RunFacts.

Context {Json Labels Deadline ChanErr : Type}.
Variable JSON_stringify_all : list Json -> string.
Variable new_Service : option string -> Completion (Service.t Json).
Variable dateTimeType_fromBuffer : bytes -> Completion Deadline.
Variable mapOfJsonType_fromBuffer : bytes -> Completion Labels.
Variable stringType_toBuffer : string -> bytes.
Variable trace_active : option Deadline -> bool.
Variable no_labels : Labels.
Variable labels_assign : Labels -> Labels -> Labels.
Variable discovery_hash : string.
Variable router_services : list (Service.t Json).
Variable router_service : Service.t Json -> option (Service.t Json).
Variable SystemError_orCode : string -> ChanErr -> @SystemError ChanErr.
Variable systemErrorType_toBuffer : @SystemError ChanErr -> Completion bytes.

Abbreviation Gateway := (@Gateway.t Json).
Abbreviation Effect := (@Gateway.Effect Json Labels Deadline).
Abbreviation on_data :=
  (Gateway.on_data JSON_stringify_all new_Service dateTimeType_fromBuffer
     mapOfJsonType_fromBuffer stringType_toBuffer trace_active no_labels
     labels_assign discovery_hash router_services router_service
     systemErrorType_toBuffer).
Abbreviation respond :=
  (Gateway.respond (Json := Json) (Labels := Labels) (Deadline := Deadline)
     SystemError_orCode systemErrorType_toBuffer).
Abbreviation request_trace :=
  (Gateway.request_trace dateTimeType_fromBuffer mapOfJsonType_fromBuffer
     trace_active no_labels labels_assign).
Abbreviation close := (@Gateway.close Json Labels Deadline).

(** The response handshake of a request that is accepted, and the hash
    a request names. *)
Abbreviation both := (HandshakeResponse.mk BOTH None None None).
Abbreviation client_hash hreq := (Buffer.to_binary (HandshakeRequest.clientHash hreq)).

(** Rewriting with what is known of the inputs. *)
Ltac known :=
  match goal with
  | H : _ = _ |- _ => rewrite H
  end.

Ltac run :=
  exec ltac:(first [known
                   | progress cbn [is_some negb andb array_size
                                   Gateway.readable Gateway.writable Gateway.clientSvc
                                   Gateway._clientServices Gateway.set_clientSvc
                                   Gateway.set_streams Gateway.set_clientServices
                                   Gateway.deadline Gateway.labels]
                   | progress unfold forSystemError, cbind, readable_emit_error,
                       onReadableError, Gateway.close]).

(** *** Requests without handshake *)

(** X20: a request without handshake on a connection that has seen no
    client service: the listener emits "expected handshake" on the
    readable stream, whose listener detaches the streams and passes the
    error to the router; nothing is written and the request is not
    forwarded. *)
Theorem X20_handshake_expected (g : Gateway) (fg : FrameGroup HandshakeRequest.t)
    (r w : Stream) :
  handshake fg = None ->
  clientSvc g = None ->
  readable g = Some r ->
  writable g = Some w ->
  on_data fg g
  = mkRun (set_streams None None g)
      [Detach r w; RouterEmit "error" (Err "expected handshake")]
      (Normal tt).
Proof.
  intros Hhs Hsvc Hr Hw.
  eassert (Hrun : on_data fg g = _).
  { unfold Gateway.on_data. run. }
  rewrite Hrun. reflexivity.
Qed.

Lemma on_data_stateful (g : Gateway) (fg : FrameGroup HandshakeRequest.t)
    (svc : Service.t Json) :
  handshake fg = None ->
  clientSvc g = Some svc ->
  on_data fg g
  = mkRun g
      [RouterCall None
         (Packet.mk (id fg) (Some svc) (body (packet fg)) (headers (packet fg)))
         None]
      (Normal tt).
Proof.
  intros Hhs Hsvc.
  eassert (Hrun : on_data fg g = _).
  { unfold Gateway.on_data. run. }
  rewrite Hrun. reflexivity.
Qed.

(** *** Requests with a handshake *)

(** The cases of [request_trace]. *)
Ltac trace_cases tr Htr hreq :=
  let dl := fresh "dl" in
  let lbl := fresh "lbl" in
  let Hdl := fresh "Hdl" in
  let Hact := fresh "Hact" in
  let Hlbl := fresh "Hlbl" in
  let m := fresh "m" in
  let Hmeta := fresh "Hmeta" in
  destruct tr as [dl lbl];
  unfold Gateway.request_trace in Htr; cbn [Gateway.deadline Gateway.labels] in Htr;
  destruct Htr as (Hdl & Hact & Hlbl);
  destruct (HandshakeRequest.meta hreq) as [m|] eqn:Hmeta;
  [ let dbuf := fresh "dbuf" in
    let Hdb := fresh "Hdb" in
    let lbuf := fresh "lbuf" in
    let Hlb := fresh "Hlb" in
    destruct (obj_get DEADLINE_META m) as [dbuf|] eqn:Hdb;
    [ let d := fresh "d" in
      let Hd := fresh "Hd" in
      destruct Hdl as (d & Hd & ->)
    | subst dl ];
    (destruct (obj_get LABELS_META m) as [lbuf|] eqn:Hlb;
     [ let l := fresh "l" in
       let Hl := fresh "Hl" in
       destruct Hlbl as (l & Hl & ->)
     | subst lbl ])
  | subst dl lbl ].

Lemma on_data_discovery (g : Gateway) (fg : FrameGroup HandshakeRequest.t)
    (hreq : HandshakeRequest.t) (tr : Trace) :
  handshake fg = Some hreq ->
  request_trace hreq tr ->
  String.eqb (client_hash hreq) discovery_hash = true ->
  on_data fg g
  = mkRun g
      [EncoderWrite
         (mkFrameGroup (Some both) (id fg)
            (new_NettyPacket [x00]
               (Some [(PROTOCOLS_HEADER,
                       stringType_toBuffer
                         (JSON_stringify_all (map Service.protocol router_services)))])))]
      (Normal tt).
Proof.
  intros Hhs Htr Hdisc.
  trace_cases tr Htr hreq;
    (eassert (Hrun : on_data fg g = _);
     [unfold Gateway.on_data; run|rewrite Hrun; reflexivity]).
Qed.

Lemma on_data_known_client (g : Gateway) (fg : FrameGroup HandshakeRequest.t)
    (hreq : HandshakeRequest.t) (tr : Trace) (svc serverSvc : Service.t Json) :
  handshake fg = Some hreq ->
  request_trace hreq tr ->
  String.eqb (client_hash hreq) discovery_hash = false ->
  _clientServices g !! client_hash hreq = Some svc ->
  router_service svc = Some serverSvc ->
  on_data fg g
  = mkRun (set_clientSvc (Some svc) g)
      [RouterCall (Some tr)
         (Packet.mk (id fg) (Some svc) (body (packet fg)) (headers (packet fg)))
         (Some both)]
      (Normal tt).
Proof.
  intros Hhs Htr Hdisc Hhit Hrouter.
  trace_cases tr Htr hreq;
    (eassert (Hrun : on_data fg g = _);
     [unfold Gateway.on_data; run|rewrite Hrun; reflexivity]).
Qed.

Lemma on_data_new_client (g : Gateway) (fg : FrameGroup HandshakeRequest.t)
    (hreq : HandshakeRequest.t) (tr : Trace) (svc serverSvc : Service.t Json) :
  handshake fg = Some hreq ->
  request_trace hreq tr ->
  String.eqb (client_hash hreq) discovery_hash = false ->
  _clientServices g !! client_hash hreq = None ->
  truthy_opt_string (HandshakeRequest.clientProtocol hreq) = true ->
  new_Service (HandshakeRequest.clientProtocol hreq) = Normal svc ->
  router_service svc = Some serverSvc ->
  on_data fg g
  = mkRun
      (set_clientServices (<[client_hash hreq := svc]> (_clientServices g))
         (set_clientSvc (Some svc) g))
      [RouterCall (Some tr)
         (Packet.mk (id fg) (Some svc) (body (packet fg)) (headers (packet fg)))
         (Some both)]
      (Normal tt).
Proof.
  intros Hhs Htr Hdisc Hmiss Hptcl Hsvc Hrouter.
  trace_cases tr Htr hreq;
    (eassert (Hrun : on_data fg g = _);
     [unfold Gateway.on_data; run|rewrite Hrun; reflexivity]).
Qed.

(** *** Requests that are dropped or refused *)

(** X25: a request whose deadline decodes and makes its trace inactive is
    dropped: nothing is written, forwarded or emitted, and the gateway's
    state is unchanged. *)
Theorem X25_past_deadline_dropped (g : Gateway) (fg : FrameGroup HandshakeRequest.t)
    (hreq : HandshakeRequest.t) (m : Meta) (dbuf : bytes) (d : Deadline) :
  handshake fg = Some hreq ->
  HandshakeRequest.meta hreq = Some m ->
  obj_get DEADLINE_META m = Some dbuf ->
  dateTimeType_fromBuffer dbuf = Normal d ->
  trace_active (Some d) = false ->
  on_data fg g = mkRun g [] (Normal tt).
Proof.
  intros Hhs Hmeta Hdb Hd Hact.
  eassert (Hrun : on_data fg g = _).
  { unfold Gateway.on_data. run. }
  rewrite Hrun. reflexivity.
Qed.

Lemma on_data_bad_deadline (g : Gateway) (fg : FrameGroup HandshakeRequest.t)
    (hreq : HandshakeRequest.t) (m : Meta) (dbuf : bytes) (err : JsError)
    (r w : Stream) :
  handshake fg = Some hreq ->
  HandshakeRequest.meta hreq = Some m ->
  obj_get DEADLINE_META m = Some dbuf ->
  dateTimeType_fromBuffer dbuf = Throw err ->
  readable g = Some r ->
  writable g = Some w ->
  on_data fg g
  = mkRun (set_streams None None g) [Detach r w; RouterEmit "error" err] (Normal tt).
Proof.
  intros Hhs Hmeta Hdb Hd Hr Hw.
  eassert (Hrun : on_data fg g = _).
  { unfold Gateway.on_data. run. }
  rewrite Hrun. reflexivity.
Qed.

Lemma on_data_bad_labels (g : Gateway) (fg : FrameGroup HandshakeRequest.t)
    (hreq : HandshakeRequest.t) (m : Meta) (lbuf : bytes) (err : JsError)
    (r w : Stream) :
  handshake fg = Some hreq ->
  HandshakeRequest.meta hreq = Some m ->
  obj_get DEADLINE_META m = None ->
  trace_active None = true ->
  obj_get LABELS_META m = Some lbuf ->
  mapOfJsonType_fromBuffer lbuf = Throw err ->
  readable g = Some r ->
  writable g = Some w ->
  on_data fg g
  = mkRun (set_streams None None g) [Detach r w; RouterEmit "error" err] (Normal tt).
Proof.
  intros Hhs Hmeta Hdb Hact Hlb Hl Hr Hw.
  eassert (Hrun : on_data fg g = _).
  { unfold Gateway.on_data. run. }
  rewrite Hrun. reflexivity.
Qed.

Lemma on_data_bad_protocol (g : Gateway) (fg : FrameGroup HandshakeRequest.t)
    (hreq : HandshakeRequest.t) (tr : Trace) (err : JsError) (r w : Stream) :
  handshake fg = Some hreq ->
  request_trace hreq tr ->
  String.eqb (client_hash hreq) discovery_hash = false ->
  _clientServices g !! client_hash hreq = None ->
  truthy_opt_string (HandshakeRequest.clientProtocol hreq) = true ->
  new_Service (HandshakeRequest.clientProtocol hreq) = Throw err ->
  readable g = Some r ->
  writable g = Some w ->
  on_data fg g
  = mkRun (set_streams None None (set_clientSvc None g))
      [Detach r w; RouterEmit "error" err] (Normal tt).
Proof.
  intros Hhs Htr Hdisc Hmiss Hptcl Hsvc Hr Hw.
  trace_cases tr Htr hreq;
    (eassert (Hrun : on_data fg g = _);
     [unfold Gateway.on_data; run|rewrite Hrun; reflexivity]).
Qed.

(** *** Responses *)

Lemma respond_after_close (g : Gateway) (hres : option HandshakeResponse.t) (i : Z)
    (err : option ChanErr) (pres : option (Packet.t (option (Service.t Json)))) :
  writable g = None ->
  respond hres i err pres g = mkRun g [] (Normal tt).
Proof.
  intros Hw. unfold Gateway.respond. rewrite bind_get, Hw. reflexivity.
Qed.

Lemma respond_ok (g : Gateway) (hres : option HandshakeResponse.t) (i : Z)
    (pres : Packet.t (option (Service.t Json))) (w : Stream) :
  writable g = Some w ->
  respond hres i None (Some pres) g
  = mkRun g
      [EncoderWrite
         (mkFrameGroup hres i
            (new_NettyPacket (Packet.body pres) (Some (Packet.headers pres))))]
      (Normal tt).
Proof.
  intros Hw. unfold Gateway.respond. rewrite bind_get, Hw. reflexivity.
Qed.

Lemma respond_error (g : Gateway) (hres : option HandshakeResponse.t) (i : Z)
    (e : ChanErr) (pres : option (Packet.t (option (Service.t Json)))) (buf : bytes)
    (r w : Stream) :
  readable g = Some r ->
  writable g = Some w ->
  systemErrorType_toBuffer (SystemError_orCode "ERR_AVRO_CHANNEL_FAILURE" e) = Normal buf ->
  respond hres i (Some e) pres g
  = mkRun (set_streams None None g)
      [EncoderWrite
         (mkFrameGroup hres i
            (new_NettyPacket (Buffer.concat [[x01; x00]; buf])
               (option_map Packet.headers pres)));
       Detach r w]
      (Normal tt).
Proof.
  intros Hr Hw Hbuf.
  eassert (Hrun : respond hres i (Some e) pres g = _).
  { unfold Gateway.respond. run. }
  rewrite Hrun. reflexivity.
Qed.

(** *** The cache of client services *)

Lemma find_app_first {A} (p : A -> bool) (l1 l2 : list A) :
  List.find p (l1 ++ l2)
  = match List.find p l1 with
    | Some x => Some x
    | None => List.find p l2
    end.
Proof.
  induction l1 as [|x l1 IH]; [reflexivity|].
  cbn [app List.find]. destruct (p x); [reflexivity|exact IH].
Qed.

Lemma fold_services_lookup (svcs : list (Service.t Json)) :
  forall (m : gmap string (Service.t Json)) (h : string),
  fold_left (fun m svc => <[Service.hash svc := svc]> m) svcs m !! h
  = match List.find (fun svc => String.eqb (Service.hash svc) h) (rev svcs) with
    | Some svc => Some svc
    | None => m !! h
    end.
Proof.
  induction svcs as [|svc svcs IH]; intros m h; [reflexivity|].
  cbn [fold_left rev]. rewrite IH, find_app_first.
  destruct (List.find _ (rev svcs)) as [s|]; [reflexivity|].
  cbn [List.find].
  destruct (String.eqb (Service.hash svc) h) eqn:E.
  - apply String.eqb_eq in E. subst h. apply lookup_insert_eq.
  - apply String.eqb_neq in E. apply lookup_insert_ne. exact E.
Qed.

(** X22: a request whose client hash is the discovery service's, with a
    trace that decodes and is active: the gateway answers [match = BOTH]
    with the body [00] and the header [avro.protocols] holding the JSON
    text of the protocols of the router's services, in order; the router
    is not called and the connection's client service is unchanged. *)
Theorem X22_discovery_reply (g : Gateway) (fg : FrameGroup HandshakeRequest.t)
    (hreq : HandshakeRequest.t) (tr : Trace) :
  handshake fg = Some hreq ->
  request_trace hreq tr ->
  String.eqb (client_hash hreq) discovery_hash = true ->
  on_data fg g
  = mkRun g
      [EncoderWrite
         (mkFrameGroup (Some both) (id fg)
            (new_NettyPacket [x00]
               (Some [(PROTOCOLS_HEADER,
                       stringType_toBuffer
                         (JSON_stringify_all (map Service.protocol router_services)))])))]
      (Normal tt).
Proof. apply on_data_discovery. Qed.

(** X23: a request with a handshake from a client whose hash is cached
    and for whose service the router has a server service: the request
    is forwarded to the router once, with the trace built from the
    handshake's meta, the cached client service, the packet's body and
    headers, and the response handshake [match = BOTH] without server
    protocol or hash; nothing is written yet, and the service becomes
    the connection's client service. *)
Theorem X23_known_client_forwarded (g : Gateway) (fg : FrameGroup HandshakeRequest.t)
    (hreq : HandshakeRequest.t) (tr : Trace) (svc serverSvc : Service.t Json) :
  handshake fg = Some hreq ->
  request_trace hreq tr ->
  String.eqb (client_hash hreq) discovery_hash = false ->
  _clientServices g !! client_hash hreq = Some svc ->
  router_service svc = Some serverSvc ->
  on_data fg g
  = mkRun (set_clientSvc (Some svc) g)
      [RouterCall (Some tr)
         (Packet.mk (id fg) (Some svc) (body (packet fg)) (headers (packet fg)))
         (Some both)]
      (Normal tt).
Proof. apply on_data_known_client. Qed.

(** X19: the cache set up by the constructor maps a hash to the last of
    the router's services that has it, and to nothing if none has. *)
Theorem X19_cache_of_router_services (h : string) :
  new_clientServices router_services !! h
  = List.find (fun svc => String.eqb (Service.hash svc) h) (rev router_services).
Proof.
  unfold new_clientServices. rewrite fold_services_lookup.
  destruct (List.find _ (rev router_services)); [reflexivity|apply lookup_empty].
Qed.

(** X21: a stateful connection.  After a request with a handshake from a
    known client has been forwarded, a request without handshake is
    forwarded too, with the client service of the earlier request, no
    trace and no response handshake. *)
Theorem X21_stateful_connection (g : Gateway) (fg fg' : FrameGroup HandshakeRequest.t)
    (hreq : HandshakeRequest.t) (tr : Trace) (svc serverSvc : Service.t Json) :
  handshake fg = Some hreq ->
  request_trace hreq tr ->
  String.eqb (client_hash hreq) discovery_hash = false ->
  _clientServices g !! client_hash hreq = Some svc ->
  router_service svc = Some serverSvc ->
  handshake fg' = None ->
  on_data fg' (state (on_data fg g))
  = mkRun (state (on_data fg g))
      [RouterCall None
         (Packet.mk (id fg') (Some svc) (body (packet fg')) (headers (packet fg')))
         None]
      (Normal tt).
Proof.
  intros Hhs Htr Hdisc Hhit Hrouter Hhs'.
  rewrite (on_data_known_client g fg hreq tr svc serverSvc Hhs Htr Hdisc Hhit Hrouter).
  apply on_data_stateful; [exact Hhs'|reflexivity].
Qed.

(** X24: a client whose hash is not cached and that attaches a protocol
    which parses into a service the router serves: its request is
    forwarded with [match = BOTH] and the service is cached under the
    hash the client named; the client's next request, with the same hash
    and whatever protocol, is forwarded with that service. *)
Theorem X24_client_protocol_learnt (g : Gateway) (fg fg' : FrameGroup HandshakeRequest.t)
    (hreq hreq' : HandshakeRequest.t) (tr tr' : Trace) (svc serverSvc : Service.t Json) :
  handshake fg = Some hreq ->
  request_trace hreq tr ->
  String.eqb (client_hash hreq) discovery_hash = false ->
  _clientServices g !! client_hash hreq = None ->
  truthy_opt_string (HandshakeRequest.clientProtocol hreq) = true ->
  new_Service (HandshakeRequest.clientProtocol hreq) = Normal svc ->
  router_service svc = Some serverSvc ->
  handshake fg' = Some hreq' ->
  request_trace hreq' tr' ->
  client_hash hreq' = client_hash hreq ->
  on_data fg g
  = mkRun
      (set_clientServices (<[client_hash hreq := svc]> (_clientServices g))
         (set_clientSvc (Some svc) g))
      [RouterCall (Some tr)
         (Packet.mk (id fg) (Some svc) (body (packet fg)) (headers (packet fg)))
         (Some both)]
      (Normal tt)
  /\ on_data fg' (state (on_data fg g))
     = mkRun (state (on_data fg g))
         [RouterCall (Some tr')
            (Packet.mk (id fg') (Some svc) (body (packet fg')) (headers (packet fg')))
            (Some both)]
         (Normal tt).
Proof.
  intros Hhs Htr Hdisc Hmiss Hptcl Hsvc Hrouter Hhs' Htr' Hsame.
  pose proof (on_data_new_client g fg hreq tr svc serverSvc
                Hhs Htr Hdisc Hmiss Hptcl Hsvc Hrouter) as Hfirst.
  split; [exact Hfirst|]. rewrite Hfirst. cbn [state].
  rewrite (on_data_known_client _ fg' hreq' tr' svc serverSvc Hhs' Htr').
  - destruct g; reflexivity.
  - rewrite Hsame. exact Hdisc.
  - rewrite Hsame. destruct g. apply lookup_insert_eq.
  - exact Hrouter.
Qed.

(** X26: a request with a handshake that cannot be decoded further (a
    deadline or labels that do not decode, or an unknown client's
    protocol that does not parse) on a connection whose streams are
    attached: the error is emitted on the readable stream, whose listener
    detaches the streams and passes the error to the router; nothing is
    written and the request is not forwarded. *)
Theorem X26_undecodable_requests_close (g : Gateway) (fg : FrameGroup HandshakeRequest.t)
    (hreq : HandshakeRequest.t) (r w : Stream) :
  handshake fg = Some hreq ->
  readable g = Some r ->
  writable g = Some w ->
  (forall (m : Meta) (dbuf : bytes) (err : JsError),
     HandshakeRequest.meta hreq = Some m ->
     obj_get DEADLINE_META m = Some dbuf ->
     dateTimeType_fromBuffer dbuf = Throw err ->
     on_data fg g
     = mkRun (set_streams None None g) [Detach r w; RouterEmit "error" err] (Normal tt))
  /\ (forall (m : Meta) (lbuf : bytes) (err : JsError),
        HandshakeRequest.meta hreq = Some m ->
        obj_get DEADLINE_META m = None ->
        trace_active None = true ->
        obj_get LABELS_META m = Some lbuf ->
        mapOfJsonType_fromBuffer lbuf = Throw err ->
        on_data fg g
        = mkRun (set_streams None None g) [Detach r w; RouterEmit "error" err]
            (Normal tt))
  /\ (forall (tr : Trace) (err : JsError),
        request_trace hreq tr ->
        String.eqb (client_hash hreq) discovery_hash = false ->
        _clientServices g !! client_hash hreq = None ->
        truthy_opt_string (HandshakeRequest.clientProtocol hreq) = true ->
        new_Service (HandshakeRequest.clientProtocol hreq) = Throw err ->
        on_data fg g
        = mkRun (set_streams None None (set_clientSvc None g))
            [Detach r w; RouterEmit "error" err] (Normal tt)).
Proof.
  intros Hhs Hr Hw. split; [|split].
  - intros m dbuf err Hmeta Hdb Hd.
    exact (on_data_bad_deadline g fg hreq m dbuf err r w Hhs Hmeta Hdb Hd Hr Hw).
  - intros m lbuf err Hmeta Hdb Hact Hlb Hl.
    exact (on_data_bad_labels g fg hreq m lbuf err r w Hhs Hmeta Hdb Hact Hlb Hl Hr Hw).
  - intros tr err Htr Hdisc Hmiss Hptcl Hsvc.
    exact (on_data_bad_protocol g fg hreq tr err r w Hhs Htr Hdisc Hmiss Hptcl Hsvc Hr Hw).
Qed.

(** X27: the continuation handed to the router, on a connection whose
    streams are attached.  Called with a response, it writes one frame
    group: the response handshake of the request, the request's id, and
    the response's body and headers.  Called with an error, it writes a
    system-error packet (the bytes [01 00], then the encoded error) with
    the headers of the response, if any, and detaches the streams; every
    response that comes after it is dropped. *)
Theorem X27_responses (g : Gateway) (hres : option HandshakeResponse.t) (i : Z)
    (r w : Stream) :
  readable g = Some r ->
  writable g = Some w ->
  (forall pres : Packet.t (option (Service.t Json)),
     respond hres i None (Some pres) g
     = mkRun g
         [EncoderWrite
            (mkFrameGroup hres i
               (new_NettyPacket (Packet.body pres) (Some (Packet.headers pres))))]
         (Normal tt))
  /\ (forall (e : ChanErr) (pres : option (Packet.t (option (Service.t Json))))
             (buf : bytes),
        systemErrorType_toBuffer (SystemError_orCode "ERR_AVRO_CHANNEL_FAILURE" e)
        = Normal buf ->
        respond hres i (Some e) pres g
        = mkRun (set_streams None None g)
            [EncoderWrite
               (mkFrameGroup hres i
                  (new_NettyPacket (Buffer.concat [[x01; x00]; buf])
                     (option_map Packet.headers pres)));
             Detach r w]
            (Normal tt)
        /\ forall (hres' : option HandshakeResponse.t) (i' : Z) (err' : option ChanErr)
                  (pres' : option (Packet.t (option (Service.t Json)))),
             respond hres' i' err' pres' (set_streams None None g)
             = mkRun (set_streams None None g) [] (Normal tt)).
Proof.
  intros Hr Hw. split.
  - intros pres. exact (respond_ok g hres i pres w Hw).
  - intros e pres buf Hbuf. split.
    + exact (respond_error g hres i e pres buf r w Hr Hw Hbuf).
    + intros hres' i' err' pres'. apply respond_after_close. reflexivity.
Qed.

End GatewayRequests.

(** *** On the sample gateway *)

Import Gateway SampleGateway SampleRequests.

(** X20, at the request without handshake on a connection just
    accepted. *)
Lemma X20_handshake_expected_witness :
  on_data bare_request accepted
  = mkRun (set_streams None None accepted)
      [Detach 0%nat 0%nat; RouterEmit "error" (Err "expected handshake")]
      (Normal tt).
Proof.
  apply (X20_handshake_expected JSON_stringify_all SampleBridge.new_Service
           dateTimeType_fromBuffer mapOfJsonType_fromBuffer Avro.writeString
           trace_active [] (@app (string * string)) discovery_hash
           router_services router_service systemErrorType_toBuffer
           accepted bare_request 0%nat 0%nat); reflexivity.
Defined.

(** The traces of the sample requests. *)
Lemma known_request_trace :
  Gateway.request_trace dateTimeType_fromBuffer mapOfJsonType_fromBuffer trace_active
    [] (@app (string * string))
    (HandshakeRequest.mk echo_hash None echo_hash None) (Gateway.mkTrace None []).
Proof. repeat split. Defined.

Lemma traced_request_trace :
  Gateway.request_trace dateTimeType_fromBuffer mapOfJsonType_fromBuffer trace_active
    [] (@app (string * string))
    (HandshakeRequest.mk echo_hash None echo_hash
       (Some [(LABELS_META, [x02; x02; x6b; x02; x76; x00]);
              (DEADLINE_META, [xd0; x0f])]))
    (Gateway.mkTrace (Some 1000) [("k"%string, "v"%string)]).
Proof.
  split; [exists 1000; split; reflexivity|].
  split; [reflexivity|].
  exists [("k"%string, "v"%string)]. split; reflexivity.
Defined.

Lemma other_request_trace (ptcl : option string) :
  Gateway.request_trace dateTimeType_fromBuffer mapOfJsonType_fromBuffer trace_active
    [] (@app (string * string))
    (HandshakeRequest.mk other_hash ptcl other_hash None) (Gateway.mkTrace None []).
Proof. repeat split. Defined.

Lemma discovery_request_trace :
  Gateway.request_trace dateTimeType_fromBuffer mapOfJsonType_fromBuffer trace_active
    [] (@app (string * string))
    (HandshakeRequest.mk (Buffer.from_binary discovery_hash) None
       (Buffer.from_binary discovery_hash) None)
    (Gateway.mkTrace None []).
Proof. repeat split. Defined.

(** X21, at the sample request followed by the request without
    handshake. *)
Lemma X21_stateful_connection_witness :
  on_data bare_request (state (on_data known_request accepted))
  = mkRun (state (on_data known_request accepted))
      [RouterCall None (Packet.mk 4 (Some SampleBridge.echo) [x04] []) None]
      (Normal tt).
Proof.
  apply (X21_stateful_connection JSON_stringify_all SampleBridge.new_Service
           dateTimeType_fromBuffer mapOfJsonType_fromBuffer Avro.writeString
           trace_active [] (@app (string * string)) discovery_hash
           router_services router_service systemErrorType_toBuffer
           accepted known_request bare_request
           (HandshakeRequest.mk echo_hash None echo_hash None) (Gateway.mkTrace None [])
           SampleBridge.echo SampleBridge.echo);
    first [exact known_request_trace | reflexivity].
Defined.

(** X22, at the discovery request. *)
Lemma X22_discovery_reply_witness :
  on_data discovery_request accepted
  = mkRun accepted
      [EncoderWrite
         (mkFrameGroup (Some (HandshakeResponse.mk BOTH None None None)) 1
            (new_NettyPacket [x00]
               (Some [(PROTOCOLS_HEADER, Avro.writeString "json:Echo")])))]
      (Normal tt).
Proof.
  apply (X22_discovery_reply JSON_stringify_all SampleBridge.new_Service
           dateTimeType_fromBuffer mapOfJsonType_fromBuffer Avro.writeString
           trace_active [] (@app (string * string)) discovery_hash
           router_services router_service systemErrorType_toBuffer
           accepted discovery_request
           (HandshakeRequest.mk (Buffer.from_binary discovery_hash) None
              (Buffer.from_binary discovery_hash) None)
           (Gateway.mkTrace None []));
    first [exact discovery_request_trace | reflexivity].
Defined.

(** X23, at the sample request with a deadline and a label. *)
Lemma X23_known_client_forwarded_witness :
  on_data traced_request accepted
  = mkRun (set_clientSvc (Some SampleBridge.echo) accepted)
      [RouterCall (Some (Gateway.mkTrace (Some 1000) [("k"%string, "v"%string)]))
         (Packet.mk 3 (Some SampleBridge.echo) [x02; x2a] [])
         (Some (HandshakeResponse.mk BOTH None None None))]
      (Normal tt).
Proof.
  apply (X23_known_client_forwarded JSON_stringify_all SampleBridge.new_Service
           dateTimeType_fromBuffer mapOfJsonType_fromBuffer Avro.writeString
           trace_active [] (@app (string * string)) discovery_hash
           router_services router_service systemErrorType_toBuffer
           accepted traced_request
           (HandshakeRequest.mk echo_hash None echo_hash
              (Some [(LABELS_META, [x02; x02; x6b; x02; x76; x00]);
                     (DEADLINE_META, [xd0; x0f])]))
           (Gateway.mkTrace (Some 1000) [("k"%string, "v"%string)])
           SampleBridge.echo SampleBridge.echo);
    first [exact traced_request_trace | reflexivity].
Defined.

(** X24, at the request of a new client with the Echo protocol, and its
    next request. *)
Lemma X24_client_protocol_learnt_witness :
  on_data new_client_request accepted
  = mkRun
      (set_clientServices
         (<[Buffer.to_binary other_hash := SampleBridge.echo]> (_clientServices accepted))
         (set_clientSvc (Some SampleBridge.echo) accepted))
      [RouterCall (Some (Gateway.mkTrace None []))
         (Packet.mk 3 (Some SampleBridge.echo) [x02; x2a] [])
         (Some (HandshakeResponse.mk BOTH None None None))]
      (Normal tt)
  /\ on_data next_request (state (on_data new_client_request accepted))
     = mkRun (state (on_data new_client_request accepted))
         [RouterCall (Some (Gateway.mkTrace None []))
            (Packet.mk 4 (Some SampleBridge.echo) [x04] [])
            (Some (HandshakeResponse.mk BOTH None None None))]
         (Normal tt).
Proof.
  apply (X24_client_protocol_learnt JSON_stringify_all SampleBridge.new_Service
           dateTimeType_fromBuffer mapOfJsonType_fromBuffer Avro.writeString
           trace_active [] (@app (string * string)) discovery_hash
           router_services router_service systemErrorType_toBuffer
           accepted new_client_request next_request
           (HandshakeRequest.mk other_hash (Some "json:Echo"%string) other_hash None)
           (HandshakeRequest.mk other_hash None other_hash None)
           (Gateway.mkTrace None []) (Gateway.mkTrace None [])
           SampleBridge.echo SampleBridge.echo);
    first [exact (other_request_trace _) | reflexivity].
Defined.

(** X25, at the sample request past its deadline. *)
Lemma X25_past_deadline_dropped_witness :
  on_data late_request accepted = mkRun accepted [] (Normal tt).
Proof.
  apply (X25_past_deadline_dropped JSON_stringify_all SampleBridge.new_Service
           dateTimeType_fromBuffer mapOfJsonType_fromBuffer Avro.writeString
           trace_active [] (@app (string * string)) discovery_hash
           router_services router_service systemErrorType_toBuffer
           accepted late_request
           (HandshakeRequest.mk echo_hash None echo_hash (Some [(DEADLINE_META, [x01])]))
           [(DEADLINE_META, [x01])] [x01] (-1));
    reflexivity.
Defined.

(** X26, at the sample requests with a deadline, with labels and with a
    protocol that do not decode. *)
Lemma X26_undecodable_requests_close_witness :
  on_data bad_deadline_request accepted
  = mkRun (set_streams None None accepted)
      [Detach 0%nat 0%nat; RouterEmit "error" (Err "invalid date-time")] (Normal tt)
  /\ on_data bad_labels_request accepted
     = mkRun (set_streams None None accepted)
         [Detach 0%nat 0%nat; RouterEmit "error" (Err "invalid labels")] (Normal tt)
  /\ on_data bad_protocol_request accepted
     = mkRun (set_streams None None (set_clientSvc None accepted))
         [Detach 0%nat 0%nat; RouterEmit "error" (Err "Unexpected token in JSON")]
         (Normal tt).
Proof.
  split; [|split].
  - destruct (X26_undecodable_requests_close JSON_stringify_all SampleBridge.new_Service
           dateTimeType_fromBuffer mapOfJsonType_fromBuffer Avro.writeString
           trace_active [] (@app (string * string)) discovery_hash
           router_services router_service systemErrorType_toBuffer
                accepted bad_deadline_request
                (HandshakeRequest.mk echo_hash None echo_hash (Some [(DEADLINE_META, [])]))
                0%nat 0%nat eq_refl eq_refl eq_refl) as (Hd & _ & _).
    apply (Hd [(DEADLINE_META, [])] []); reflexivity.
  - destruct (X26_undecodable_requests_close JSON_stringify_all SampleBridge.new_Service
           dateTimeType_fromBuffer mapOfJsonType_fromBuffer Avro.writeString
           trace_active [] (@app (string * string)) discovery_hash
           router_services router_service systemErrorType_toBuffer
                accepted bad_labels_request
                (HandshakeRequest.mk echo_hash None echo_hash (Some [(LABELS_META, [x02])]))
                0%nat 0%nat eq_refl eq_refl eq_refl) as (_ & Hl & _).
    apply (Hl [(LABELS_META, [x02])] [x02]); reflexivity.
  - destruct (X26_undecodable_requests_close JSON_stringify_all SampleBridge.new_Service
           dateTimeType_fromBuffer mapOfJsonType_fromBuffer Avro.writeString
           trace_active [] (@app (string * string)) discovery_hash
           router_services router_service systemErrorType_toBuffer
                accepted bad_protocol_request
                (HandshakeRequest.mk other_hash (Some "not json"%string) other_hash None)
                0%nat 0%nat eq_refl eq_refl eq_refl) as (_ & _ & Hp).
    apply (Hp (Gateway.mkTrace None []));
      first [exact (other_request_trace _) | reflexivity].
Defined.

(** X27, at a response and at an error of the router for the request
    [3]. *)
Lemma X27_responses_witness :
  respond (Some (HandshakeResponse.mk BOTH None None None)) 3 None (Some router_response)
    accepted
  = mkRun accepted
      [EncoderWrite
         (mkFrameGroup (Some (HandshakeResponse.mk BOTH None None None)) 3
            (new_NettyPacket [x00; x2a] (Some [("h"%string, [xff])])))]
      (Normal tt)
  /\ respond (Some (HandshakeResponse.mk BOTH None None None)) 3 (Some "boom"%string)
       None accepted
     = mkRun (set_streams None None accepted)
         [EncoderWrite
            (mkFrameGroup (Some (HandshakeResponse.mk BOTH None None None)) 3
               (new_NettyPacket
                  (Buffer.concat [[x01; x00]; Avro.writeString "ERR_AVRO_CHANNEL_FAILURE"])
                  None));
          Detach 0%nat 0%nat]
         (Normal tt).
Proof.
  destruct (X27_responses (Labels := list (string * string)) (Deadline := Z)
              SystemError_orCode systemErrorType_toBuffer accepted
              (Some (HandshakeResponse.mk BOTH None None None)) 3 0%nat 0%nat
              eq_refl eq_refl) as (Hok & Herr).
  split.
  - apply Hok.
  - apply (Herr "boom"%string None (Avro.writeString "ERR_AVRO_CHANNEL_FAILURE")).
    reflexivity.
Defined.

End GatewayRequests.

(** ** Discovery *)

Module DiscoveryFacts.
Section DiscoveryFacts.
Import Discovery RunFacts.

Context {Json : Type}.
Variable stringType_fromBuffer : bytes -> Completion string.
Variable JSON_parse : string -> Completion (list Json).
Variable new_Service : Json -> Completion (Service.t Json).

Abbreviation onPing := (Discovery.onPing stringType_fromBuffer JSON_parse new_Service).
Abbreviation services_of := (Discovery.services_of new_Service).
Abbreviation Effect := (@Discovery.Effect Json).

(** The services a protocols header describes. *)
Abbreviation header_services header :=
  (let* text := stringType_fromBuffer header in
   let* ptcls := JSON_parse text in
   services_of ptcls).

Lemma onPing_called (err : option JsError) (remoteSvc : Service.t Json)
    (headers : option Headers) :
  onPing err remoteSvc headers true = mkRun true [] (Normal tt).
Proof. reflexivity. Qed.

Lemma onPing_error (e : JsError) (remoteSvc : Service.t Json) (headers : option Headers) :
  onPing (Some e) remoteSvc headers false = mkRun true [CbFailure e] (Normal tt).
Proof. reflexivity. Qed.

Lemma onPing_single (remoteSvc : Service.t Json) (hs : Headers) :
  obj_get PROTOCOLS_HEADER hs = None ->
  onPing None remoteSvc (Some hs) false
  = mkRun true [RemoveErrorListener; CbRouter [remoteSvc]] (Normal tt).
Proof.
  intros Hh. unfold Discovery.onPing.
  cbv beta iota zeta delta [bind get ret modify effect state effects result].
  rewrite Hh. reflexivity.
Qed.

Lemma onPing_header (remoteSvc : Service.t Json) (hs : Headers) (header : bytes) :
  obj_get PROTOCOLS_HEADER hs = Some header ->
  onPing None remoteSvc (Some hs) false
  = match header_services header with
    | Normal svcs => mkRun true [RemoveErrorListener; CbRouter svcs] (Normal tt)
    | Throw err => mkRun true [CbFailure err] (Normal tt)
    end.
Proof.
  intros Hh. unfold Discovery.onPing.
  cbv beta iota zeta delta [bind get ret modify effect catch lift state effects result].
  rewrite Hh. unfold cbind.
  destruct (stringType_fromBuffer header) as [text|e1]; [|reflexivity].
  destruct (JSON_parse text) as [ptcls|e2]; [|reflexivity].
  destruct (services_of ptcls) as [svcs|e3]; reflexivity.
Qed.

(** One invocation: the continuation is called at most once, and only if
    [onPing] had not been called before. *)
Lemma onPing_budget (err : option JsError) (remoteSvc : Service.t Json)
    (headers : option Headers) (called : bool) :
  state (onPing err remoteSvc headers called) = true
  /\ (cb_calls (effects (onPing err remoteSvc headers called))
      <= if called then 0 else 1)%nat.
Proof.
  destruct called; [split; [reflexivity|cbn; lia]|].
  destruct err as [e|]; [split; [reflexivity|cbn; lia]|].
  destruct headers as [hs|]; [|split; [reflexivity|cbn; lia]].
  destruct (obj_get PROTOCOLS_HEADER hs) as [header|] eqn:Hh.
  - rewrite (onPing_header remoteSvc hs header Hh).
    destruct (header_services header); split; try reflexivity; cbn; lia.
  - rewrite (onPing_single remoteSvc hs Hh). split; [reflexivity|cbn; lia].
Qed.

Lemma cb_calls_app (es1 es2 : list Effect) :
  cb_calls (es1 ++ es2) = (cb_calls es1 + cb_calls es2)%nat.
Proof. unfold cb_calls. rewrite List.filter_app, length_app. reflexivity. Qed.

Lemma onPing_all_budget
    (pings : list (option JsError * Service.t Json * option Headers)) :
  forall called : bool,
  (cb_calls (effects (for_each pings
                        (fun p => onPing (fst (fst p)) (snd (fst p)) (snd p)) called))
   <= if called then 0 else 1)%nat.
Proof.
  induction pings as [|[[err remoteSvc] headers] pings IH]; intros called.
  - cbn. destruct called; lia.
  - cbn [for_each fst snd].
    destruct (onPing_budget err remoteSvc headers called) as (Hs & Hb).
    unfold bind at 1.
    destruct (result (onPing err remoteSvc headers called)) as [[]|e].
    + cbn [effects]. rewrite cb_calls_app, Hs.
      specialize (IH true). cbn beta iota in IH. lia.
    + cbn [effects]. exact Hb.
Qed.

(** X28: the continuation of [nettyRouter] is called at most once.
    Over any sequence of invocations of [onPing] (by the bridge's
    ['error'] event or by the answer to the discovery ping, with any
    arguments), [cb] is called at most once, and never once an
    invocation has been made. *)
Theorem X28_discovery_calls_back_once
    (pings : list (option JsError * Service.t Json * option Headers)) (called : bool) :
  (cb_calls (effects (for_each pings
                        (fun p => onPing (fst (fst p)) (snd (fst p)) (snd p)) called))
   <= if called then 0 else 1)%nat.
Proof. apply onPing_all_budget. Qed.

(** X29: the outcome of the first invocation of [onPing].  With an error,
    [cb] gets the error.  Without error and without the [avro.protocols]
    header, the listener is removed and [cb] gets a router over the one
    remote service.  With the header, the services are those built from
    the protocols the header lists, in order; if the header does not
    decode, is not JSON or lists a protocol that is not a service, [cb]
    gets that error and the ['error'] listener stays. *)
Theorem X29_discovery_outcomes :
  (forall (e : JsError) (remoteSvc : Service.t Json) (headers : option Headers),
     onPing (Some e) remoteSvc headers false = mkRun true [CbFailure e] (Normal tt))
  /\ (forall (remoteSvc : Service.t Json) (hs : Headers),
        obj_get PROTOCOLS_HEADER hs = None ->
        onPing None remoteSvc (Some hs) false
        = mkRun true [RemoveErrorListener; CbRouter [remoteSvc]] (Normal tt))
  /\ (forall (remoteSvc : Service.t Json) (hs : Headers) (header : bytes),
        obj_get PROTOCOLS_HEADER hs = Some header ->
        onPing None remoteSvc (Some hs) false
        = match header_services header with
          | Normal svcs => mkRun true [RemoveErrorListener; CbRouter svcs] (Normal tt)
          | Throw err => mkRun true [CbFailure err] (Normal tt)
          end).
Proof.
  split; [|split].
  - intros. apply onPing_error.
  - intros. apply onPing_single. assumption.
  - intros. apply onPing_header. assumption.
Qed.

End DiscoveryFacts.

(** *** The gateway's answer, read by [onPing] *)

Section DiscoveryRoundTrip.
Import Discovery Gateway RunFacts.

Context {Json Labels Deadline ChanErr : Type}.
Variable JSON_stringify_all : list Json -> string.
Variable new_Service_of_text : option string -> Completion (Service.t Json).
Variable dateTimeType_fromBuffer : bytes -> Completion Deadline.
Variable mapOfJsonType_fromBuffer : bytes -> Completion Labels.
Variable stringType_toBuffer : string -> bytes.
Variable trace_active : option Deadline -> bool.
Variable no_labels : Labels.
Variable labels_assign : Labels -> Labels -> Labels.
Variable discovery_hash : string.
Variable router_services : list (Service.t Json).
Variable router_service : Service.t Json -> option (Service.t Json).
Variable systemErrorType_toBuffer : @SystemError ChanErr -> Completion bytes.
Variable stringType_fromBuffer : bytes -> Completion string.
Variable JSON_parse : string -> Completion (list Json).
Variable new_Service : Json -> Completion (Service.t Json).

(** X30: discovery, end to end.  A gateway's answer to a discovery
    request carries the protocols of the router's services; when the
    string codec and the JSON functions read that text back, [onPing],
    given the headers of the answer, hands [cb] a router over the
    services built from exactly those protocols, in order. *)
Theorem X30_discovery_roundtrip (g : Gateway.t) (fg : FrameGroup HandshakeRequest.t)
    (hreq : HandshakeRequest.t) (tr : Gateway.Trace) (remoteSvc : Service.t Json)
    (svcs : list (Service.t Json)) :
  handshake fg = Some hreq ->
  Gateway.request_trace dateTimeType_fromBuffer mapOfJsonType_fromBuffer trace_active
    no_labels labels_assign hreq tr ->
  String.eqb (Buffer.to_binary (HandshakeRequest.clientHash hreq)) discovery_hash = true ->
  stringType_fromBuffer
    (stringType_toBuffer (JSON_stringify_all (map Service.protocol router_services)))
  = Normal (JSON_stringify_all (map Service.protocol router_services)) ->
  JSON_parse (JSON_stringify_all (map Service.protocol router_services))
  = Normal (map Service.protocol router_services) ->
  Discovery.services_of new_Service (map Service.protocol router_services) = Normal svcs ->
  exists w,
    effects
      (Gateway.on_data JSON_stringify_all new_Service_of_text dateTimeType_fromBuffer
         mapOfJsonType_fromBuffer stringType_toBuffer trace_active no_labels
         labels_assign discovery_hash router_services router_service
         systemErrorType_toBuffer fg g)
    = [EncoderWrite w]
    /\ Discovery.onPing stringType_fromBuffer JSON_parse new_Service None remoteSvc
         (Some (headers (packet w))) false
       = mkRun true [RemoveErrorListener; CbRouter svcs] (Normal tt).
Proof.
  intros Hhs Htr Hdisc Hstr Hjson Hsvcs.
  rewrite (GatewayRequests.on_data_discovery JSON_stringify_all new_Service_of_text
             dateTimeType_fromBuffer mapOfJsonType_fromBuffer stringType_toBuffer
             trace_active no_labels labels_assign discovery_hash router_services
             router_service systemErrorType_toBuffer g fg hreq tr Hhs Htr Hdisc).
  eexists. split; [reflexivity|].
  cbn [packet headers new_NettyPacket].
  rewrite (DiscoveryFacts.onPing_header stringType_fromBuffer JSON_parse new_Service
             remoteSvc
             [(PROTOCOLS_HEADER,
               stringType_toBuffer
                 (JSON_stringify_all (map Service.protocol router_services)))]
             (stringType_toBuffer
                (JSON_stringify_all (map Service.protocol router_services)))
             eq_refl).
  rewrite Hstr. cbn [cbind]. rewrite Hjson. cbn [cbind]. rewrite Hsvcs. reflexivity.
Qed.

End DiscoveryRoundTrip.

(** *** On the sample gateway and parser *)

Import Discovery SampleDiscovery.

(** X29, at the headers naming two protocols and at headers whose text
    is not JSON. *)
Lemma X29_discovery_outcomes_witness :
  onPing None SampleBridge.echo (Some two_protocols) false
  = mkRun true [RemoveErrorListener; CbRouter [SampleBridge.echo; SampleBridge.math]]
      (Normal tt)
  /\ onPing None SampleBridge.echo (Some bad_protocols) false
     = mkRun true [CbFailure (Err "Unexpected token in JSON")] (Normal tt).
Proof.
  destruct (X29_discovery_outcomes stringType_fromBuffer JSON_parse new_Service)
    as (_ & _ & Hheader).
  split.
  - apply (Hheader SampleBridge.echo two_protocols
             (Avro.writeString "json:Echo,json:Math")). reflexivity.
  - apply (Hheader SampleBridge.echo bad_protocols (Avro.writeString "<html>")).
    reflexivity.
Defined.

(** X30, at the sample gateway and the discovery request. *)
Lemma X30_discovery_roundtrip_witness :
  exists w,
    effects (SampleGateway.on_data SampleRequests.discovery_request SampleGateway.accepted)
    = [Gateway.EncoderWrite w]
    /\ onPing None SampleBridge.math (Some (headers (packet w))) false
       = mkRun true [RemoveErrorListener; CbRouter [SampleBridge.echo]] (Normal tt).
Proof.
  apply (X30_discovery_roundtrip SampleGateway.JSON_stringify_all
           SampleBridge.new_Service SampleGateway.dateTimeType_fromBuffer
           SampleGateway.mapOfJsonType_fromBuffer Avro.writeString
           SampleGateway.trace_active [] (@app (string * string))
           SampleGateway.discovery_hash SampleGateway.router_services
           SampleGateway.router_service SampleGateway.systemErrorType_toBuffer
           stringType_fromBuffer JSON_parse new_Service
           SampleGateway.accepted SampleRequests.discovery_request
           (HandshakeRequest.mk (Buffer.from_binary SampleGateway.discovery_hash) None
              (Buffer.from_binary SampleGateway.discovery_hash) None)
           (Gateway.mkTrace None []));
    first [exact GatewayRequests.discovery_request_trace | reflexivity].
Defined.

End DiscoveryFacts.
